(** * AlgorithmicTrading: backtesting core, shallow embedding

    The Python sources embedded here are
      - backend/app/core/trading/risk_manager.py   (Module RiskManager)
      - backend/app/core/trading/strategy.py       (Module MomentumStrategy)
      - backend/app/models/trade.py                (Module Trade)
      - backend/app/core/backtesting/engine.py     (Module BacktestingEngine)
      - backend/app/core/backtesting/data_processor.py
                                                   (Module HistoricalDataProcessor)

    Python floats and numpy.float64 are IEEE 754 binary64 numbers; they are
    modelled by Rocq's primitive floats, so NaN, infinities and the rounding
    of each operation are those of the program (reductions such as sums and
    means are taken in index order).  Timestamps and durations are integers
    (microseconds).  Exceptions are explicit: a computation yields an
    [outcome].  Wall-clock reads ([datetime.now()], [datetime.utcnow()]) take
    successive readings of a [Clock].  Frames carry the five required OHLCV
    columns as floats, plus the optional bid/ask pair. *)

From Stdlib Require Import ZArith List Bool Lia Floats Uint63.
From stdpp Require Import base option list gmap strings.

Set Default Proof Using "Type".
Set Warnings "-inexact-float".
Local Open Scope Z_scope.

(** ** Floats *)

Abbreviation float := PrimFloat.float.

Definition fnan : float := PrimFloat.nan.
Definition finf : float := PrimFloat.infinity.
Definition fneg_inf : float := PrimFloat.neg_infinity.

(** [x != x], the test pandas uses for a missing value in a float column. *)
Definition isna (x : float) : bool := PrimFloat.is_nan x.
Definition notna (x : float) : bool := negb (isna x).

Definition float_of_nat (n : nat) : float :=
  PrimFloat.of_uint63 (Uint63.of_Z (Z.of_nat n)).

Definition float_of_Z (z : Z) : float :=
  if z <? 0 then PrimFloat.opp (float_of_nat (Z.to_nat (- z)))
  else float_of_nat (Z.to_nat z).

(** Truthiness of a Python float: [0.0] and [-0.0] are false, NaN is true. *)
Definition float_truthy (x : float) : bool := negb (PrimFloat.eqb x 0%float).

(** [math.floor] / [np.floor] on binary64, by the usual 2^52 rounding trick:
    adding and subtracting 2^52 rounds to the nearest integer, and the result
    is lowered by one when it came out above the argument.  Values of
    magnitude at least 2^52, infinities, NaN and the two zeros (with their
    sign) are returned unchanged. *)
Definition two52 : float := 4503599627370496%float.

Definition np_floor (x : float) : float :=
  if PrimFloat.eqb x 0%float then x
  else if PrimFloat.ltb (PrimFloat.abs x) two52 then
    let r := if PrimFloat.leb 0%float x
             then ((x + two52) - two52)%float
             else ((x - two52) + two52)%float in
    if PrimFloat.ltb x r then (r - 1)%float else r
  else x.

(** ** Exceptions and outcomes *)

Inductive exn : Type :=
| ValueError
| ZeroDivisionError
| TypeError
| IndexError
| OSError.

Inductive outcome (A : Type) : Type :=
| Return (a : A)
| Raise (e : exn).
Arguments Return {A} a.
Arguments Raise {A} e.

Definition outcome_bind {A B} (o : outcome A) (f : A → outcome B) : outcome B :=
  match o with
  | Return a => f a
  | Raise e => Raise e
  end.

Definition outcome_map {A B} (f : A → B) (o : outcome A) : outcome B :=
  outcome_bind o (fun a => Return (f a)).

(** The dynamic type of a float operand.  Python's own [float] raises
    [ZeroDivisionError] on division by zero; [numpy.float64] follows
    IEEE 754 and yields an infinity or NaN (with a warning only). *)
Inductive fkind : Type := PyFloat | NpFloat64.

Definition truediv (k : fkind) (x y : float) : outcome float :=
  match k with
  | PyFloat => if PrimFloat.eqb y 0%float then Raise ZeroDivisionError
               else Return (x / y)%float
  | NpFloat64 => Return (x / y)%float
  end.

(** ** Wall clock *)

(** [reading k] is what the k-th read of the system clock returns. *)
Record Clock : Type := mkClock {
  reading : nat → Z;
  ticks : nat
}.

(** The clock after one read, and after [n] reads. *)
Definition tick (c : Clock) : Clock := mkClock (reading c) (S (ticks c)).

Fixpoint tick_n (n : nat) (c : Clock) : Clock :=
  match n with
  | O => c
  | S n' => tick_n n' (tick c)
  end.

Definition DAY : Z := 86400000000.

(** ** The monad of methods: state of the receiver, clock, exceptions *)

Definition M (St A : Type) : Type := St → Clock → outcome A * St * Clock.

Definition ret {St A} (a : A) : M St A := fun s c => (Return a, s, c).

Definition raise {St A} (e : exn) : M St A := fun s c => (Raise e, s, c).

Definition bind {St A B} (m : M St A) (f : A → M St B) : M St B :=
  fun s c =>
    match m s c with
    | (Return a, s', c') => f a s' c'
    | (Raise e, s', c') => (Raise e, s', c')
    end.

#[global] Instance M_ret {St} : MRet (M St) := fun A a => ret a.
#[global] Instance M_bind {St} : MBind (M St) := fun A B f m => bind m f.

Definition get {St} : M St St := fun s c => (Return s, s, c).
Definition put {St} (s : St) : M St unit := fun _ c => (Return tt, s, c).
Definition modify {St} (f : St → St) : M St unit := fun s c => (Return tt, f s, c).

(** [datetime.now()] and [datetime.utcnow()]. *)
Definition now {St} : M St Z :=
  fun s c => (Return (reading c (ticks c)), s, tick c).

Definition lift_outcome {St A} (o : outcome A) : M St A := fun s c => (o, s, c).

(** Run a method of a component held in a field of the receiver. *)
Definition zoom {S1 S2 A} (proj : S1 → S2) (upd : S2 → S1 → S1)
    (m : M S2 A) : M S1 A :=
  fun s c => let '(r, s2, c') := m (proj s) c in (r, upd s2 s, c').

Fixpoint foldM {St A B} (f : A → B → M St A) (l : list B) (a : A) : M St A :=
  match l with
  | [] => ret a
  | b :: l' => bind (f a b) (fun a' => foldM f l' a')
  end.

Fixpoint filterM {St A} (p : A → M St bool) (l : list A) : M St (list A) :=
  match l with
  | [] => ret []
  | a :: l' =>
      bind (p a) (fun keep =>
      bind (filterM p l') (fun rest =>
      ret (if keep then a :: rest else rest)))
  end.

(** ** pandas: the Series and DataFrame operations the program calls *)

(** A bar of the input frame: the [DatetimeIndex] entry and the OHLCV
    columns; [b_bid] and [b_ask] are read only when the frame has the
    optional quote columns. *)
Record Bar : Type := mkBar {
  b_time : Z;
  b_open : float;
  b_high : float;
  b_low : float;
  b_close : float;
  b_volume : float;
  b_bid : float;
  b_ask : float
}.

Record DataFrame : Type := mkFrame {
  has_quotes : bool;      (* "ask" in data.columns and "bid" in data.columns *)
  bars : list Bar
}.

(** A float Series indexed by timestamps. *)
Definition Series : Type := list (Z * float).

Module pd.

(** [pd.Series(data, index=index)]: a length mismatch is a [ValueError]. *)
Definition Series_new (data : list float) (index : list Z) : outcome Series :=
  if (length data =? length index)%nat then Return (zip index data)
  else Raise ValueError.

(** [bool(series)]: [NDFrame.__bool__] raises [ValueError] ("The truth
    value of a Series is ambiguous") whatever the length. *)
Definition Series_bool (s : Series) : outcome bool := Raise ValueError.

(** [series[key] = v]: overwrite where the label exists, else enlarge. *)
Definition Series_setitem (s : Series) (key : Z) (v : float) : Series :=
  if existsb (fun e => fst e =? key) s
  then map (fun e => if fst e =? key then (key, v) else e) s
  else s ++ [(key, v)].

Definition dropna (xs : list float) : list float := List.filter notna xs.

Definition fsum (xs : list float) : float :=
  fold_left (fun acc x => (acc + x)%float) xs 0%float.

(** [Series.mean()], [skipna=True]: NaN on no observation. *)
Definition mean (xs : list float) : float :=
  let obs := dropna xs in
  (fsum obs / float_of_nat (length obs))%float.

(** [Series.std()], [ddof=1], [skipna=True]: NaN below two observations. *)
Definition std (xs : list float) : float :=
  let obs := dropna xs in
  if (length obs <=? 1)%nat then fnan
  else
    let m := (fsum obs / float_of_nat (length obs))%float in
    PrimFloat.sqrt
      (fsum (map (fun x => ((x - m) * (x - m))%float) obs)
       / float_of_nat (length obs - 1))%float.

(** [Series.min()], [skipna=True]. *)
Definition min (xs : list float) : float :=
  match dropna xs with
  | [] => fnan
  | x :: r => fold_left (fun m y => if PrimFloat.ltb y m then y else m) r x
  end.

(** [fillna(method="ffill", limit=limit)] on one column: a missing value
    takes the last valid one, at most [limit] times in a row
    ([None]: without limit). *)
Fixpoint ffill_from (limit : option nat) (last : float) (run : nat)
    (xs : list float) : list float :=
  match xs with
  | [] => []
  | x :: r =>
      if isna x then
        if isna last then x :: ffill_from limit last run r
        else if match limit with None => true | Some l => (run <? l)%nat end
             then last :: ffill_from limit last (S run) r
             else x :: ffill_from limit last (S run) r
      else x :: ffill_from limit x 0 r
  end.

Definition ffill (limit : option nat) (xs : list float) : list float :=
  ffill_from limit fnan 0 xs.

(** [shift(periods)]. *)
Definition shift (periods : nat) (xs : list float) : list float :=
  take (length xs) (replicate periods fnan ++ xs).

(** [pct_change(periods)]: with the default [fill_method="pad"] the
    column is forward-filled, then [data / data.shift(periods) - 1]. *)
Definition pct_change (periods : nat) (xs : list float) : list float :=
  let data := ffill None xs in
  zip_with (fun x y => (x / y - 1)%float) data (shift periods data).

(** [diff()]. *)
Definition diff (xs : list float) : list float :=
  zip_with (fun x y => (x - y)%float) xs (shift 1 xs).

(** The window functions ([rolling], [ewm]) first turn infinite values
    into missing ones ([BaseWindow._prep_values]: "Convert inf to nan"). *)
Definition inf_to_nan (x : float) : float :=
  if PrimFloat.eqb (PrimFloat.abs x) finf then fnan else x.

Definition prep_values (xs : list float) : list float := map inf_to_nan xs.

(** [rolling(window).agg()] with [min_periods = window]: NaN unless the
    window holds [window] observations.  The aggregate of a window is
    computed from the window alone; pandas updates the sums from one window
    to the next, which can differ from it in the last bits. *)
Definition rolling (window : nat) (agg : list float → float)
    (xs : list float) : list float :=
  let values := prep_values xs in
  map (fun i =>
         if (S i <? window)%nat then fnan
         else
           let w := take window (drop (S i - window) values) in
           if forallb notna w then agg w else fnan)
      (seq 0 (length values)).

(** [expanding().max()]: running maximum of the observations so far. *)
Fixpoint expanding_max_from (m : float) (xs : list float) : list float :=
  match xs with
  | [] => []
  | x :: r =>
      let m' := if isna x then m
                else if isna m then x
                else if PrimFloat.ltb m x then x else m in
      m' :: expanding_max_from m' r
  end.

Definition expanding_max (xs : list float) : list float :=
  expanding_max_from fnan xs.

(** [clip(lower, upper)]; a NaN bound does not clip, a NaN value stays. *)
Definition clip (lower upper : float) (xs : list float) : list float :=
  map (fun x =>
         let x1 := if PrimFloat.ltb x lower then lower else x in
         if PrimFloat.ltb upper x1 then upper else x1) xs.

(** [ewm(span=span, adjust=False).mean()].  The constructor rejects
    [span < 1] with [ValueError]; infinite values count as missing; the
    recurrence is the library's, which leaves the average untouched on a bar
    equal to it and lets the old weight decay across missing bars. *)
Definition ewm_step (alpha : float) (st : float * float) (cur : float)
    : float * float :=
  let '(weighted, old_wt) := st in
  if notna weighted then
    let old_wt := (old_wt * (1 - alpha))%float in
    if notna cur then
      (if PrimFloat.eqb weighted cur then weighted
       else ((old_wt * weighted + alpha * cur) / (old_wt + alpha))%float,
       1%float)
    else (weighted, old_wt)
  else if notna cur then (cur, old_wt)
  else (weighted, old_wt).

Fixpoint ewm_from (alpha : float) (st : float * float) (xs : list float)
    : list float :=
  match xs with
  | [] => []
  | x :: r => let st' := ewm_step alpha st x in fst st' :: ewm_from alpha st' r
  end.

Definition ewm_mean (span : float) (xs : list float) : outcome (list float) :=
  if PrimFloat.ltb span 1%float then Raise ValueError
  else
    let com := ((span - 1) / 2)%float in
    let alpha := (1 / (1 + com))%float in
    match prep_values xs with
    | [] => Return []
    | x :: r => Return (x :: ewm_from alpha (x, 1%float) r)
    end.

End pd.

(** ** risk_manager.py *)

Module RiskManager.

Record RiskParameters : Type := mkRiskParameters {
  max_position_size : float;
  max_daily_drawdown : float;
  max_trades_per_day : Z;
  max_concurrent_trades : Z;
  min_trade_size : float;
  max_leverage : float;
  emergency_stop_loss : float;
  volatility_threshold : float
}.

Definition default_parameters : RiskParameters :=
  mkRiskParameters 1000 5 10 2 10 1 15 30.

(** The [position_update] dictionaries: the keys the module reads.  The
    dictionaries modelled carry no "trade_id" and no "timestamp" key of their
    own; in the source such keys would replace the id and the stamp of the
    history entry built from the update. *)
Record PositionUpdate : Type := mkPositionUpdate {
  pu_status : option string;
  pu_realized_pnl : option float;
  pu_size : option float;
  pu_price : option float
}.

(** An entry of [trade_history]:
    [{"trade_id": .., "timestamp": datetime.now(), **position_update}]. *)
Record HistoryEntry : Type := mkHistoryEntry {
  he_trade_id : string;
  he_timestamp : Z;
  he_update : PositionUpdate
}.

Record t : Type := mkRiskManager {
  params : RiskParameters;
  trade_history : list HistoryEntry;
  open_positions : gmap string PositionUpdate;
  daily_pnl : float;
  last_reset : Z
}.

Definition set_trade_history (h : list HistoryEntry) (rm : t) : t :=
  mkRiskManager (params rm) h (open_positions rm) (daily_pnl rm) (last_reset rm).
Definition set_open_positions (o : gmap string PositionUpdate) (rm : t) : t :=
  mkRiskManager (params rm) (trade_history rm) o (daily_pnl rm) (last_reset rm).
Definition set_daily_pnl (p : float) (rm : t) : t :=
  mkRiskManager (params rm) (trade_history rm) (open_positions rm) p (last_reset rm).
Definition set_last_reset (r : Z) (rm : t) : t :=
  mkRiskManager (params rm) (trade_history rm) (open_positions rm) (daily_pnl rm) r.

(** [__init__]: [parameters or RiskParameters()], empty books,
    [last_reset = datetime.now()]. *)
Definition init (parameters : option RiskParameters) (c : Clock) : t * Clock :=
  (mkRiskManager (default default_parameters parameters) [] ∅ 0%float
     (reading c (ticks c)),
   tick c).

Definition reset_daily_metrics : M t unit :=
  n ← now;
  rm ← get;
  if DAY <? n - last_reset rm then
    (modify (set_daily_pnl 0%float);;
     kept ← filterM (fun trade =>
               n' ← now; mret (n' - DAY <? he_timestamp trade))
             (trade_history rm);
     modify (set_trade_history kept);;
     n'' ← now;
     modify (set_last_reset n''))
  else mret tt.

(** [calculate_position_size(capital, price, volatility)]; Python's
    [max(a, b)] is [b if b > a else a], [min(a, b)] is [b if b < a else a]. *)
Definition py_max (a b : float) : float := if PrimFloat.ltb a b then b else a.
Definition py_min (a b : float) : float := if PrimFloat.ltb b a then b else a.

Definition calculate_position_size (k : fkind) (rm : t)
    (capital price volatility : float) : outcome float :=
  outcome_bind (truediv k volatility (volatility_threshold (params rm)))
    (fun q =>
       let volatility_scalar := py_max 0.2%float (1 - q)%float in
       let base_size :=
         (py_min (capital * 0.01)%float (max_position_size (params rm))
          * volatility_scalar)%float in
       if PrimFloat.ltb base_size (min_trade_size (params rm))
       then Return 0%float
       else Return (py_min base_size (max_position_size (params rm)))).

(** [validate_trade(trade_type, size, price, stop_loss, take_profit)].
    [k] is the dynamic type of the price operands of the two divisions. *)
Definition validate_trade (k : fkind) (trade_type : string)
    (size price stop_loss take_profit : float) : M t (bool * string) :=
  reset_daily_metrics;;
  rm ← get;
  if max_trades_per_day (params rm) <=? Z.of_nat (length (trade_history rm))
  then mret (false, "Maximum daily trades exceeded")
  else if max_concurrent_trades (params rm)
          <=? Z.of_nat (base.size (open_positions rm))
  then mret (false, "Maximum concurrent positions reached")
  else if PrimFloat.ltb (max_position_size (params rm)) size
  then mret (false, "Position size exceeds maximum allowed")
  else if PrimFloat.ltb size (min_trade_size (params rm))
  then mret (false, "Position size below minimum allowed")
  else
    (q ← lift_outcome (truediv k (stop_loss - price)%float price);
     let stop_loss_pct := PrimFloat.abs (q * 100)%float in
     if PrimFloat.ltb (emergency_stop_loss (params rm)) stop_loss_pct
     then mret (false, "Stop loss exceeds maximum allowed")
     else
       let risk := PrimFloat.abs (price - stop_loss)%float in
       let reward := PrimFloat.abs (take_profit - price)%float in
       if PrimFloat.ltb 0%float risk
          && PrimFloat.ltb (reward / risk)%float 1.5%float
       then mret (false, "Insufficient risk/reward ratio")
       else mret (true, "Trade validated")).

(** [update_position(trade_id, position_update)]; the clock is read for
    the stamp of the history entry whatever the update holds. *)
Definition update_position (trade_id : string) (position_update : PositionUpdate)
    : M t unit :=
  rm ← get;
  (if decide (pu_status position_update = Some "closed") then
     match open_positions rm !! trade_id with
     | Some _ =>
         modify (set_daily_pnl
                   (daily_pnl rm
                    + default 0%float (pu_realized_pnl position_update))%float);;
         modify (set_open_positions (delete trade_id (open_positions rm)))
     | None => mret tt
     end
   else
     modify (set_open_positions
               (<[trade_id := position_update]> (open_positions rm))));;
  n ← now;
  modify (fun rm' =>
            set_trade_history
              (trade_history rm' ++ [mkHistoryEntry trade_id n position_update])
              rm').

End RiskManager.

(** ** models/trade.py *)

Module Trade.

Record t : Type := mkTrade {
  type : string;                 (* "buy" / "sell" *)
  status : string;
  symbol : string;
  entry_price : float;
  entry_time : Z;
  size : float;
  exit_price : option float;
  exit_time : option Z;
  stop_loss : float;
  take_profit : float;
  realized_pnl : option float;
  fees : option float;
  strategy_name : string;
  updated_at : option Z
}.

(** [self.fees or 0]. *)
Definition fees_or_0 (tr : t) : float :=
  match fees tr with
  | Some f => if float_truthy f then f else 0%float
  | None => 0%float
  end.

(** [close_trade(exit_price, exit_time)]; [exit_time or datetime.utcnow()]
    reads the clock only for a missing [exit_time], [updated_at] always. *)
Definition close_trade (exit_price' : float) (exit_time' : option Z) : M t unit :=
  et ← match exit_time' with Some e => mret e | None => now end;
  tr ← get;
  let price_diff := (exit_price' - entry_price tr)%float in
  let price_diff := if String.eqb (type tr) "sell"
                    then (- price_diff)%float else price_diff in
  let pnl := (price_diff * size tr - fees_or_0 tr)%float in
  u ← now;
  put (mkTrade (type tr) "closed" (symbol tr) (entry_price tr) (entry_time tr)
         (size tr) (Some exit_price') (Some et) (stop_loss tr) (take_profit tr)
         (Some pnl) (fees tr) (strategy_name tr) (Some u)).

End Trade.

(** ** strategy.py *)

Module MomentumStrategy.

Record StrategyParameters : Type := mkStrategyParameters {
  short_ema_period : float;
  long_ema_period : float;
  take_profit_pct : float;
  stop_loss_pct : float;
  position_size_pct : float;
  min_volume : float;
  max_spread_pct : float
}.

Definition default_parameters : StrategyParameters :=
  mkStrategyParameters 9 21 2 1 1 1000 0.5.

(** The [current_position] dictionary. *)
Record Position : Type := mkPosition {
  p_type : string;
  p_price : float;
  p_stop_loss : float;
  p_take_profit : float
}.

Record t : Type := mkStrategy {
  params : StrategyParameters;
  current_position : option Position;
  last_signal : option string
}.

Definition set_params (p : StrategyParameters) (s : t) : t :=
  mkStrategy p (current_position s) (last_signal s).

(** [__init__(parameters)]. *)
Definition init (parameters : option StrategyParameters) : t :=
  mkStrategy (default default_parameters parameters) None None.

(** A row of the frame [generate_signals] returns. *)
Record SignalRow : Type := mkSignalRow {
  bar : Bar;
  short_ema : float;
  long_ema : float;
  signal : float;           (* 0, 1 or -1 *)
  signal_change : float     (* signal.diff(): NaN on the first row *)
}.

Record SignalFrame : Type := mkSignalFrame {
  sf_has_quotes : bool;
  sf_rows : list SignalRow
}.

Definition calculate_ema (prices : list float) (period : float)
    : outcome (list float) :=
  pd.ewm_mean period prices.

Definition signal_of (s l : float) : float :=
  if PrimFloat.ltb s l then (-1)%float
  else if PrimFloat.ltb l s then 1%float
  else 0%float.

Fixpoint zip_rows (bs : list Bar) (se le sg ch : list float) : list SignalRow :=
  match bs, se, le, sg, ch with
  | b :: bs', s :: se', l :: le', g :: sg', c :: ch' =>
      mkSignalRow b s l g c :: zip_rows bs' se' le' sg' ch'
  | _, _, _, _, _ => []
  end.

Definition generate_signals (self : t) (data : DataFrame) : outcome SignalFrame :=
  let close := map b_close (bars data) in
  outcome_bind (calculate_ema close (short_ema_period (params self))) (fun se =>
  outcome_bind (calculate_ema close (long_ema_period (params self))) (fun le =>
    let sg := zip_with signal_of se le in
    let ch := pd.diff sg in
    Return (mkSignalFrame (has_quotes data) (zip_rows (bars data) se le sg ch)))).

Definition calculate_position_size (k : fkind) (self : t)
    (capital current_price : float) : outcome float :=
  let position_value := (capital * (position_size_pct (params self) / 100))%float in
  truediv k position_value current_price.

Definition validate_trade_conditions (self : t) (data : SignalFrame)
    (row : SignalRow) : bool * string :=
  if PrimFloat.ltb (b_volume (bar row)) (min_volume (params self))
  then (false, "Insufficient volume")
  else if sf_has_quotes data
          && PrimFloat.ltb (max_spread_pct (params self))
               ((b_ask (bar row) - b_bid (bar row)) / b_bid (bar row) * 100)%float
  then (false, "Spread too high")
  else (true, "Valid").

Record TradeSignal : Type := mkTradeSignal {
  ts_type : string;
  ts_price : float;
  ts_timestamp : option Z;
  ts_take_profit : float;
  ts_stop_loss : float
}.

(** [data.iloc[index]] for a row position. *)
Definition iloc (data : SignalFrame) (index : nat) : outcome SignalRow :=
  match sf_rows data !! index with
  | Some row => Return row
  | None => Raise IndexError
  end.

(** [get_trade_signal(data, index)]. *)
Definition get_trade_signal (self : t) (data : SignalFrame) (index : nat)
    : outcome (option TradeSignal) :=
  if (index <? 1)%nat then Return None
  else
    outcome_bind (iloc data index) (fun row =>
        Return (
        if PrimFloat.eqb (signal_change row) 0%float then None
        else if negb (fst (validate_trade_conditions self data row)) then None
        else
          let close := b_close (bar row) in
          let tp := take_profit_pct (params self) in
          let sl := stop_loss_pct (params self) in
          if PrimFloat.ltb 0%float (signal_change row) then
            Some (mkTradeSignal "buy" close (Some (b_time (bar row)))
                    (close * (1 + tp / 100))%float
                    (close * (1 - sl / 100))%float)
          else if PrimFloat.ltb (signal_change row) 0%float then
            Some (mkTradeSignal "sell" close (Some (b_time (bar row)))
                    (close * (1 - tp / 100))%float
                    (close * (1 + sl / 100))%float)
          else None)).

(** [should_exit_position(data, index)]. *)
Definition should_exit_position (self : t) (data : SignalFrame) (index : nat)
    : outcome (bool * string) :=
  match current_position self with
  | None => Return (false, "No position")
  | Some pos =>
      outcome_bind (iloc data index) (fun row =>
          let stop_or_target :=
            if String.eqb (p_type pos) "buy" then
              if PrimFloat.leb (b_low (bar row)) (p_stop_loss pos)
              then Some "Stop loss hit"
              else if PrimFloat.leb (p_take_profit pos) (b_high (bar row))
              then Some "Take profit hit"
              else None
            else
              if PrimFloat.leb (p_stop_loss pos) (b_high (bar row))
              then Some "Stop loss hit"
              else if PrimFloat.leb (b_low (bar row)) (p_take_profit pos)
              then Some "Take profit hit"
              else None in
          match stop_or_target with
          | Some reason => Return (true, reason)
          | None =>
              if (String.eqb (p_type pos) "buy"
                  && PrimFloat.eqb (signal row) (-1)%float)
                 || (String.eqb (p_type pos) "sell"
                     && PrimFloat.eqb (signal row) 1%float)
              then Return (true, "Signal reversal")
              else Return (false, "Hold position")
          end)
  end.

(** [update_position(position)]. *)
Definition update_position (position : option Position) (self : t) : t :=
  mkStrategy (params self) position (last_signal self).

End MomentumStrategy.

(** ** engine.py *)

Module BacktestingEngine.

Abbreviation Metrics := (gmap string float).

Record BacktestResults : Type := mkBacktestResults {
  r_trades : list Trade.t;
  r_equity_curve : option Series;
  performance_metrics : Metrics;
  trade_metrics : Metrics;
  drawdown_metrics : Metrics;
  parameter_values : Metrics
}.

Record BacktestParameters : Type := mkBacktestParameters {
  initial_capital : float;
  trading_fees : float;
  slippage : float;
  include_fees : bool;
  include_slippage : bool;
  enable_fractional : bool
}.

Definition default_parameters : BacktestParameters :=
  mkBacktestParameters 10000 0.001 0.001 true true true.

Record t : Type := mkEngine {
  strategy : MomentumStrategy.t;
  risk_manager : RiskManager.t;
  params : BacktestParameters;
  trades : list Trade.t;
  equity_curve : option Series
}.

Definition set_strategy (s : MomentumStrategy.t) (e : t) : t :=
  mkEngine s (risk_manager e) (params e) (trades e) (equity_curve e).
Definition set_risk_manager (r : RiskManager.t) (e : t) : t :=
  mkEngine (strategy e) r (params e) (trades e) (equity_curve e).
Definition set_trades (ts : list Trade.t) (e : t) : t :=
  mkEngine (strategy e) (risk_manager e) (params e) ts (equity_curve e).
Definition set_equity_curve (ec : option Series) (e : t) : t :=
  mkEngine (strategy e) (risk_manager e) (params e) (trades e) ec.

(** [__init__(strategy, risk_manager, parameters)]:
    [risk_manager or RiskManager()], [parameters or BacktestParameters()]. *)
Definition init (strategy' : MomentumStrategy.t)
    (risk_manager' : option RiskManager.t)
    (parameters : option BacktestParameters) (c : Clock) : t * Clock :=
  let '(rm, c') := match risk_manager' with
                   | Some rm => (rm, c)
                   | None => RiskManager.init None c
                   end in
  (mkEngine strategy' rm (default default_parameters parameters) [] None, c').

Definition _apply_slippage (self : t) (price : float) (trade_type : string)
    : float :=
  if negb (include_slippage (params self)) then price
  else
    let multiplier := if String.eqb trade_type "buy"
                      then (1 + slippage (params self))%float
                      else (1 - slippage (params self))%float in
    (price * multiplier)%float.

Definition _calculate_position_size (self : t) (capital price : float)
    (trade_type : string) : float * float :=
  let adjusted_price := _apply_slippage self price trade_type in
  let position_size :=
    (capital
     * MomentumStrategy.position_size_pct (MomentumStrategy.params (strategy self))
     / 100 / adjusted_price)%float in
  let position_size :=
    if include_fees (params self) then
      let fee_cost :=
        (position_size * adjusted_price * trading_fees (params self))%float in
      (position_size - fee_cost / adjusted_price)%float
    else position_size in
  let position_size :=
    if negb (enable_fractional (params self)) then np_floor position_size
    else position_size in
  (position_size, adjusted_price).

Definition _execute_trade (self : t) (trade_type : string) (price : float)
    (timestamp : Z) (available_capital : float) : option Trade.t :=
  let '(position_size, adjusted_price) :=
    _calculate_position_size self available_capital price trade_type in
  if PrimFloat.leb position_size 0%float then None
  else
    let sp := MomentumStrategy.params (strategy self) in
    Some (Trade.mkTrade trade_type "open" "BTC-USD" adjusted_price timestamp
            position_size None None
            (MomentumStrategy.stop_loss_pct sp)
            (MomentumStrategy.take_profit_pct sp)
            None
            (Some (if include_fees (params self)
                   then (position_size * adjusted_price
                         * trading_fees (params self))%float
                   else 0%float))
            "MomentumStrategy" None).

(** [_update_equity_curve(equity_history, timestamp, current_equity)];
    the appended list is the value returned. *)
Definition _update_equity_curve (equity_history : list float) (timestamp : Z)
    (current_equity : float) : M t (list float) :=
  let equity_history := equity_history ++ [current_equity] in
  self ← get;
  match equity_curve self with
  | None =>
      s ← lift_outcome (pd.Series_new equity_history [timestamp]);
      modify (set_equity_curve (Some s));;
      mret equity_history
  | Some s =>
      modify (set_equity_curve
                (Some (pd.Series_setitem s timestamp current_equity)));;
      mret equity_history
  end.

Section Metrics.

(** [x ** y] on floats, which the primitive floats do not provide. *)
Variable float_pow : float → float → float.

(** [t.realized_pnl and <test>]. *)
Definition pnl_and (test : float → bool) (tr : Trade.t) : bool :=
  match Trade.realized_pnl tr with
  | Some p => float_truthy p && test p
  | None => false
  end.

Definition np_mean (xs : list float) : float :=
  (pd.fsum xs / float_of_nat (length xs))%float.

Definition pnl_of (tr : Trade.t) : float := default fnan (Trade.realized_pnl tr).

(** Sizes of the groups of [groupby(keys).size()]. *)
Definition group_sizes (keys : list nat) : list nat :=
  map (fun k => count_occ Nat.eq_dec keys k) (remove_dups keys).

Fixpoint cumsum_from (acc : nat) (flags : list bool) : list nat :=
  match flags with
  | [] => []
  | b :: r => let acc' := (if b then S acc else acc) in acc' :: cumsum_from acc' r
  end.

(** The statistics of [_calculate_metrics] below its guard. *)
Definition metrics_body (curve : Series) (ledger : list Trade.t)
    : outcome (Metrics * Metrics * Metrics) :=
  let values := map snd curve in
  let returns := pd.dropna (pd.pct_change 1 values) in
  match curve, last curve with
  | (t0, first) :: _, Some (tn, final) =>
      let days := (tn - t0) `div` DAY in
      if days =? 0 then Raise ZeroDivisionError
      else
        let exponent :=
          (float_of_nat 365 / float_of_Z days)%float in
        let negative := List.filter (fun r => PrimFloat.ltb r 0%float) returns in
        let performance : Metrics :=
          {[ "total_return" := ((final / first - 1) * 100)%float;
             "annualized_return" :=
               ((float_pow (1 + (final / first - 1))%float exponent - 1)
                * 100)%float;
             "sharpe_ratio" :=
               if negb (PrimFloat.eqb (pd.std returns) 0%float)
               then (pd.mean returns / pd.std returns
                     * PrimFloat.sqrt 252)%float
               else 0%float;
             "sortino_ratio" :=
               if (0 <? length negative)%nat
               then (pd.mean returns / pd.std negative
                     * PrimFloat.sqrt 252)%float
               else 0%float ]} in
        let profitable :=
          List.filter (pnl_and (fun p => PrimFloat.ltb 0%float p)) ledger in
        let losing :=
          List.filter (pnl_and (fun p => PrimFloat.leb p 0%float)) ledger in
        let nonempty := (0 <? length ledger)%nat in
        let trade : Metrics :=
          {[ "total_trades" := float_of_nat (length ledger);
             "profitable_trades" := float_of_nat (length profitable);
             "win_rate" :=
               if nonempty
               then (float_of_nat (length profitable)
                     / float_of_nat (length ledger))%float
               else 0%float;
             "average_profit" :=
               if (0 <? length profitable)%nat
               then np_mean (map pnl_of profitable) else 0%float;
             "average_loss" :=
               if nonempty then np_mean (map pnl_of losing) else 0%float;
             "profit_factor" :=
               if nonempty && (0 <? length losing)%nat
               then (pd.fsum (map pnl_of profitable)
                     / PrimFloat.abs (pd.fsum (map pnl_of losing)))%float
               else 0%float ]} in
        let rolling_max := pd.expanding_max values in
        let drawdowns :=
          zip_with (fun e m => ((e - m) / m * 100)%float) values rolling_max in
        let under := List.filter (fun d => PrimFloat.ltb d 0%float) drawdowns in
        let drawdown : Metrics :=
          {[ "max_drawdown" := PrimFloat.abs (pd.min drawdowns);
             "avg_drawdown" :=
               if (0 <? length under)%nat
               then PrimFloat.abs (pd.mean under) else 0%float;
             "max_drawdown_duration" :=
               if (0 <? length under)%nat
               then float_of_nat
                      (list_max
                         (group_sizes
                            (cumsum_from 0
                               (map (fun d => PrimFloat.leb 0%float d) under))))
               else 0%float ]} in
        Return (performance, trade, drawdown)
  | _, _ => Raise IndexError
  end.

(** [_calculate_metrics()]: [not self.equity_curve or not self.trades]. *)
Definition _calculate_metrics (self : t)
    : outcome (Metrics * Metrics * Metrics) :=
  outcome_bind
    (match equity_curve self with
     | None => Return true
     | Some s => outcome_map negb (pd.Series_bool s)
     end)
    (fun no_curve =>
       if no_curve || (length (trades self) =? 0)%nat
       then Return (∅, ∅, ∅)
       else match equity_curve self with
            | Some s => metrics_body s (trades self)
            | None => Return (∅, ∅, ∅)
            end).

(** The variables of [run_backtest] that the loop updates. *)
Record LoopState : Type := mkLoopState {
  current_position : option Trade.t;
  available_capital : float;
  equity_history : list float
}.

(** Call a method of an object that is not a field of the receiver. *)
Definition on_object {St O A} (m : M O A) (o : O) : M St (A * O) :=
  fun s c => let '(r, o', c') := m o c in
             (outcome_map (fun a => (a, o')) r, s, c').

Definition opposite (trade_type : string) : string :=
  if String.eqb trade_type "buy" then "sell" else "buy".

Definition fee_part (self : t) (amount : float) : float :=
  if include_fees (params self)
  then (amount * trading_fees (params self))%float else 0%float.

(** One iteration of [for i in range(1, len(signals_data))]. *)
Definition loop_body (signals_data : MomentumStrategy.SignalFrame)
    (ls : LoopState) (i : nat) : M t LoopState :=
  row ← lift_outcome (MomentumStrategy.iloc signals_data i);
  let timestamp := b_time (MomentumStrategy.bar row) in
  let close := b_close (MomentumStrategy.bar row) in
  (* if current_position: mark to market, then the exit check *)
  step ← match current_position ls with
         | Some pos =>
             self ← get;
             let position_value :=
               (Trade.size pos * close
                - fee_part self (Trade.size pos * close))%float in
             let current_equity :=
               (available_capital ls + position_value)%float in
             eh ← _update_equity_curve (equity_history ls) timestamp
                    current_equity;
             self ← get;
             decision ← lift_outcome
               (MomentumStrategy.should_exit_position (strategy self)
                  signals_data i);
             if fst (decision : bool * string) then
               let exit_price :=
                 _apply_slippage self close (opposite (Trade.type pos)) in
               closed ← on_object
                 (Trade.close_trade exit_price (Some timestamp)) pos;
               modify (fun e => set_trades (trades e ++ [snd (closed : unit * Trade.t)]) e);;
               (* continue *)
               mret (true,
                     mkLoopState None
                       (available_capital ls + position_value)%float eh)
             else mret (false, mkLoopState (Some pos) (available_capital ls) eh)
         | None => mret (false, ls)
         end;
  let continue := (step : bool * LoopState).1 in
  let ls := step.2 in
  if continue then (mret ls : M t LoopState)
  else
    match current_position ls with
    | Some _ => mret ls
    | None =>
        (* if not current_position: look for an entry *)
        self ← get;
        trade_signal ← lift_outcome
          (MomentumStrategy.get_trade_signal (strategy self) signals_data i);
        match trade_signal with
        | None => mret ls
        | Some sig =>
            verdict ← zoom risk_manager set_risk_manager
              (RiskManager.validate_trade NpFloat64
                 (MomentumStrategy.ts_type sig)
                 (available_capital ls
                  * MomentumStrategy.position_size_pct
                      (MomentumStrategy.params (strategy self))
                  / 100)%float
                 (MomentumStrategy.ts_price sig)
                 (MomentumStrategy.ts_stop_loss sig)
                 (MomentumStrategy.ts_take_profit sig));
            if fst (verdict : bool * string) then
              self ← get;
              match _execute_trade self (MomentumStrategy.ts_type sig)
                      (MomentumStrategy.ts_price sig) timestamp
                      (available_capital ls) with
              | Some pos =>
                  let cost := (Trade.size pos * Trade.entry_price pos)%float in
                  mret (mkLoopState (Some pos)
                          (available_capital ls
                           - (cost + fee_part self cost))%float
                          (equity_history ls))
              | None => mret ls
              end
            else mret ls
        end
    end.

(** [run_backtest(data)]. *)
Definition run_backtest (data : DataFrame) : M t BacktestResults :=
  (* Reset state *)
  modify (set_trades []);;
  modify (set_equity_curve None);;
  self ← get;
  let ls0 := mkLoopState None (initial_capital (params self))
               [initial_capital (params self)] in
  signals_data ← lift_outcome
    (MomentumStrategy.generate_signals (strategy self) data);
  let n := length (MomentumStrategy.sf_rows signals_data) in
  ls ← foldM (loop_body signals_data) (seq 1 (n - 1)) ls0;
  (* Close any remaining position at the end *)
  match current_position ls with
   | Some pos =>
       row ← lift_outcome
         (match last (MomentumStrategy.sf_rows signals_data) with
          | Some row => Return row
          | None => Raise IndexError
          end);
       self ← get;
       let exit_price :=
         _apply_slippage self (b_close (MomentumStrategy.bar row))
           (opposite (Trade.type pos)) in
       closed ← on_object
         (Trade.close_trade exit_price
            (Some (b_time (MomentumStrategy.bar row)))) pos;
       modify (fun e => set_trades (trades e ++ [snd (closed : unit * Trade.t)]) e)
   | None => mret tt
   end;;
  self ← get;
  metrics ← lift_outcome (_calculate_metrics self);
  let sp := MomentumStrategy.params (strategy self) in
  mret (mkBacktestResults (trades self) (equity_curve self)
          (metrics : Metrics * Metrics * Metrics).1.1 metrics.1.2 metrics.2
          {[ "short_ema_period" := MomentumStrategy.short_ema_period sp;
             "long_ema_period" := MomentumStrategy.long_ema_period sp;
             "take_profit_pct" := MomentumStrategy.take_profit_pct sp;
             "stop_loss_pct" := MomentumStrategy.stop_loss_pct sp;
             "position_size_pct" := MomentumStrategy.position_size_pct sp ]}).

(** [itertools.product] of the value lists: the last list varies fastest. *)
Fixpoint product (param_values : list (list float)) : list (list float) :=
  match param_values with
  | [] => [[]]
  | v :: rest => flat_map (fun x => map (cons x) (product rest)) v
  end.

(** [StrategyParameters] built from keyword arguments: a keyword that is not a field
    is a [TypeError]; the other fields keep their defaults. *)
Definition set_field (sp : MomentumStrategy.StrategyParameters)
    (kv : string * float) : outcome MomentumStrategy.StrategyParameters :=
  let '(k, v) := kv in
  let '(MomentumStrategy.mkStrategyParameters a b c d e f g) := sp in
  if String.eqb k "short_ema_period"
  then Return (MomentumStrategy.mkStrategyParameters v b c d e f g)
  else if String.eqb k "long_ema_period"
  then Return (MomentumStrategy.mkStrategyParameters a v c d e f g)
  else if String.eqb k "take_profit_pct"
  then Return (MomentumStrategy.mkStrategyParameters a b v d e f g)
  else if String.eqb k "stop_loss_pct"
  then Return (MomentumStrategy.mkStrategyParameters a b c v e f g)
  else if String.eqb k "position_size_pct"
  then Return (MomentumStrategy.mkStrategyParameters a b c d v f g)
  else if String.eqb k "min_volume"
  then Return (MomentumStrategy.mkStrategyParameters a b c d e v g)
  else if String.eqb k "max_spread_pct"
  then Return (MomentumStrategy.mkStrategyParameters a b c d e f v)
  else Raise TypeError.

Definition StrategyParameters_kwargs (param_dict : list (string * float))
    : outcome MomentumStrategy.StrategyParameters :=
  fold_left (fun acc kv => outcome_bind acc (fun sp => set_field sp kv))
    param_dict (Return MomentumStrategy.default_parameters).

(** The best score, parameters and results so far. *)
Definition Best : Type :=
  (float * list (string * float) * option BacktestResults)%type.

Definition trial (data : DataFrame) (param_keys : list string)
    (optimization_metric : string) (best : Best) (combo : list float)
    : M t Best :=
  let param_dict := zip param_keys combo in
  sp ← lift_outcome (StrategyParameters_kwargs param_dict);
  modify (fun e => set_strategy (MomentumStrategy.set_params sp (strategy e)) e);;
  results ← run_backtest data;
  let score := default fneg_inf
                 (performance_metrics (results : BacktestResults)
                    !! optimization_metric) in
  if PrimFloat.ltb best.1.1 score
  then mret (score, param_dict, Some results)
  else mret best.

(** [optimize_strategy(data, parameter_ranges, optimization_metric)];
    the dictionary [parameter_ranges] in insertion order. *)
Definition optimize_strategy (data : DataFrame)
    (parameter_ranges : list (string * list float))
    (optimization_metric : string)
    : M t (list (string * float) * option BacktestResults) :=
  let param_keys := map fst parameter_ranges in
  let param_values := map snd parameter_ranges in
  best ← foldM (trial data param_keys optimization_metric)
            (product param_values) (fneg_inf, [], None);
  mret ((best : Best).1.2, best.2).

End Metrics.

End BacktestingEngine.

(** ** data_processor.py *)

Module HistoricalDataProcessor.

Record DataProcessingConfig : Type := mkConfig {
  resample_interval : Z;          (* pd.Timedelta(resample_interval) *)
  fill_gaps : bool;
  remove_outliers : bool;
  outlier_std_threshold : float;
  min_volume_threshold : float;
  validate_data : bool;
  max_gap_threshold : Z;
  normalize_volume : bool;
  add_indicators : bool;
  cache_processed_data : bool;
  cache_dir : string
}.

Definition default_config : DataProcessingConfig :=
  mkConfig 60000000 true true 3 0.01 true 300000000 true true true "data/cache".

(** The messages of [issues], by kind; the frames modelled here always
    carry the five required columns. *)
Inductive Issue : Type :=
| DuplicateTimestamps (n : nat)
| TimeGaps (n : nat)
| PriceAnomalies (n : nat)
| NonPositivePrices.

Record DataValidationResult : Type := mkValidation {
  is_valid : bool;
  issues : list Issue;
  gap_locations : list Z;
  anomaly_locations : list Z;
  total_missing_values : nat
}.

(** The float cells of a row, over the columns the frame has. *)
Definition cells (quotes : bool) (b : Bar) : list float :=
  [b_open b; b_high b; b_low b; b_close b; b_volume b]
  ++ (if quotes then [b_bid b; b_ask b] else []).

Definition set_open (x : float) (b : Bar) : Bar :=
  mkBar (b_time b) x (b_high b) (b_low b) (b_close b) (b_volume b) (b_bid b) (b_ask b).
Definition set_high (x : float) (b : Bar) : Bar :=
  mkBar (b_time b) (b_open b) x (b_low b) (b_close b) (b_volume b) (b_bid b) (b_ask b).
Definition set_low (x : float) (b : Bar) : Bar :=
  mkBar (b_time b) (b_open b) (b_high b) x (b_close b) (b_volume b) (b_bid b) (b_ask b).
Definition set_close (x : float) (b : Bar) : Bar :=
  mkBar (b_time b) (b_open b) (b_high b) (b_low b) x (b_volume b) (b_bid b) (b_ask b).
Definition set_volume (x : float) (b : Bar) : Bar :=
  mkBar (b_time b) (b_open b) (b_high b) (b_low b) (b_close b) x (b_bid b) (b_ask b).
Definition set_bid (x : float) (b : Bar) : Bar :=
  mkBar (b_time b) (b_open b) (b_high b) (b_low b) (b_close b) (b_volume b) x (b_ask b).
Definition set_ask (x : float) (b : Bar) : Bar :=
  mkBar (b_time b) (b_open b) (b_high b) (b_low b) (b_close b) (b_volume b) (b_bid b) x.

(** Apply a column transformation to one column of the frame. *)
Definition on_column (get : Bar → float) (set : float → Bar → Bar)
    (f : list float → list float) (rows : list Bar) : list Bar :=
  zip_with (fun b x => set x b) rows (f (map get rows)).

(** [index.duplicated()]: true on every later occurrence of a label. *)
Fixpoint duplicated_from (seen : list Z) (index : list Z) : list bool :=
  match index with
  | [] => []
  | x :: r => existsb (Z.eqb x) seen :: duplicated_from (x :: seen) r
  end.

(** Labels whose distance to the previous label exceeds [expected]. *)
Fixpoint gaps_from (expected : Z) (prev : Z) (index : list Z) : list Z :=
  match index with
  | [] => []
  | x :: r => (if expected <? x - prev then [x] else [])
              ++ gaps_from expected x r
  end.

Definition _validate_raw_data (self : DataProcessingConfig) (df : DataFrame)
    : DataValidationResult :=
  let rows := bars df in
  let total_missing :=
    length (List.filter isna (flat_map (cells (has_quotes df)) rows)) in
  let dups := List.filter id (duplicated_from [] (map b_time rows)) in
  let issues1 := if (0 <? length dups)%nat
                 then [DuplicateTimestamps (length dups)] else [] in
  let gaps := match map b_time rows with
              | x :: ((_ :: _) as r) => gaps_from (resample_interval self) x r
              | _ => []
              end in
  let issues2 := if (0 <? length gaps)%nat then [TimeGaps (length gaps)] else [] in
  let close := map b_close rows in
  let price_std := pd.std close in
  let price_mean := pd.mean close in
  let threshold := (outlier_std_threshold self * price_std)%float in
  let outliers :=
    List.filter (fun b => PrimFloat.ltb threshold
                            (PrimFloat.abs (b_close b - price_mean)%float)) rows in
  let issues3 := if (0 <? length outliers)%nat
                 then [PriceAnomalies (length outliers)] else [] in
  let issues4 := if existsb (fun x => PrimFloat.leb x 0%float) close
                 then [NonPositivePrices] else [] in
  let issues := issues1 ++ issues2 ++ issues3 ++ issues4 in
  mkValidation (length issues =? 0)%nat issues gaps (map b_time outliers)
    total_missing.

(** The clip of one price column to [mean - k std, mean + k std]. *)
Definition clip_outliers (k : float) (xs : list float) : list float :=
  let mean := pd.mean xs in
  let std := pd.std xs in
  let threshold := (k * std)%float in
  pd.clip (mean - threshold)%float (mean + threshold)%float xs.

Definition _clean_data (self : DataProcessingConfig) (df : DataFrame) : DataFrame :=
  (* dropna(how="all") *)
  let cleaned :=
    List.filter (fun b => negb (forallb isna (cells (has_quotes df) b))) (bars df) in
  let cleaned :=
    if remove_outliers self then
      let k := outlier_std_threshold self in
      on_column b_close set_close (clip_outliers k)
        (on_column b_low set_low (clip_outliers k)
           (on_column b_high set_high (clip_outliers k)
              (on_column b_open set_open (clip_outliers k) cleaned)))
    else cleaned in
  let cleaned :=
    if fill_gaps self then
      let fill get set rows := on_column get set (pd.ffill (Some 5%nat)) rows in
      let filled :=
        fill b_volume set_volume
          (fill b_close set_close
             (fill b_low set_low
                (fill b_high set_high (fill b_open set_open cleaned)))) in
      if has_quotes df
      then fill b_ask set_ask (fill b_bid set_bid filled)
      else filled
    else cleaned in
  let cleaned :=
    if PrimFloat.ltb 0%float (min_volume_threshold self)
    then List.filter (fun b => PrimFloat.leb (min_volume_threshold self)
                                 (b_volume b)) cleaned
    else cleaned in
  mkFrame (has_quotes df) cleaned.

(** Row-wise [max(axis=1)] / [min(axis=1)], [skipna=True]. *)
Definition row_max (xs : list float) : float :=
  match pd.dropna xs with
  | [] => fnan
  | x :: r => fold_left (fun m y => if PrimFloat.ltb m y then y else m) r x
  end.

Definition _normalize_data (self : DataProcessingConfig) (df : DataFrame)
    : DataFrame :=
  let rows := bars df in
  let rows :=
    if normalize_volume self then
      let max_volume := row_max (map b_volume rows) in
      if PrimFloat.ltb 0%float max_volume
      then map (fun b => set_volume (b_volume b / max_volume)%float b) rows
      else rows
    else rows in
  let rows :=
    map (fun b => set_high (row_max [b_open b; b_high b; b_close b]) b) rows in
  let rows :=
    map (fun b => set_low (pd.min [b_open b; b_low b; b_close b]) b) rows in
  mkFrame (has_quotes df) rows.

(** A row of the enriched frame. *)
Record EnrichedRow : Type := mkEnrichedRow {
  base : Bar;
  returns : float;
  log_returns : float;
  volatility : float;
  volume_ma : float;
  volume_std : float;
  momentum : float;
  sma_10 : float;
  sma_20 : float;
  sma_50 : float
}.

Definition derived (r : EnrichedRow) : list float :=
  [returns r; log_returns r; volatility r; volume_ma r; volume_std r;
   momentum r; sma_10 r; sma_20 r; sma_50 r].

(** No cell of the row is missing. *)
Definition complete (quotes : bool) (r : EnrichedRow) : bool :=
  forallb notna (cells quotes (base r) ++ derived r).

(** What [process_data] returns: the plain frame, or the enriched one. *)
Inductive Processed : Type :=
| Plain (df : DataFrame)
| Enriched (quotes : bool) (rows : list EnrichedRow).

Definition np_mean (xs : list float) : float :=
  (pd.fsum xs / float_of_nat (length xs))%float.

Section Indicators.

(** [np.log1p], which the primitive floats do not provide. *)
Variable log1p : float → float.

(** The frame with every indicator column, before [dropna()]. *)
Definition indicator_rows (df : DataFrame) : list EnrichedRow :=
  let rows := bars df in
  let close := map b_close rows in
  let volume := map b_volume rows in
  let returns := pd.pct_change 1 close in
  let log_returns := map log1p returns in
  let volatility := pd.rolling 20 pd.std returns in
  let volume_ma := pd.rolling 20 np_mean volume in
  let volume_std := pd.rolling 20 pd.std volume in
  let momentum := pd.pct_change 10 close in
  let sma_10 := pd.rolling 10 np_mean close in
  let sma_20 := pd.rolling 20 np_mean close in
  let sma_50 := pd.rolling 50 np_mean close in
  imap (fun i b =>
          let at_ (col : list float) := default fnan (col !! i) in
          mkEnrichedRow b (at_ returns) (at_ log_returns) (at_ volatility)
            (at_ volume_ma) (at_ volume_std) (at_ momentum)
            (at_ sma_10) (at_ sma_20) (at_ sma_50))
       rows.

Definition _add_technical_indicators (df : DataFrame) : list EnrichedRow :=
  List.filter (complete (has_quotes df)) (indicator_rows df).

(** The cache directory: a file per key, readable as a frame or not. *)
Inductive CacheFile : Type :=
| Parquet (data : Processed)
| Unreadable.

(** [f"{symbol}_{start:%Y%m%d}_{end:%Y%m%d}"]: the symbol and the two
    calendar days. *)
Definition CacheKey : Type := (string * Z * Z)%type.

(** The files under the cache directories, by directory and key, and for
    each such path whether a write to it succeeds: [to_parquet] fails with
    [OSError] when the directory of the path does not exist (a symbol with a
    slash, as in "BTC/USD", names a sub-directory that nothing creates) or
    does not permit the write. *)
Record Store : Type := mkStore {
  files : gmap (string * CacheKey) CacheFile;
  writable : string * CacheKey → bool
}.

Definition _cache_key (symbol : string) (start_date end_date : Z) : CacheKey :=
  (symbol, start_date `div` DAY, end_date `div` DAY).

Definition _save_to_cache (self : DataProcessingConfig) (df : Processed)
    (cache_key : CacheKey) : M Store unit :=
  if cache_processed_data self then
    st ← get;
    if writable st (cache_dir self, cache_key) then
      put (mkStore (<[(cache_dir self, cache_key) := Parquet df]> (files st))
             (writable st))
    else raise OSError
  else mret tt.

Definition _load_from_cache (self : DataProcessingConfig) (cache_key : CacheKey)
    : M Store (option Processed) :=
  if negb (cache_processed_data self) then mret None
  else
    st ← get;
    match files st !! (cache_dir self, cache_key) with
    | Some (Parquet data) => mret (Some data)
    | Some Unreadable => mret None      (* except Exception: return None *)
    | None => mret None
    end.

Definition process_data (self : DataProcessingConfig) (df : DataFrame)
    (symbol : string) (start_date end_date : option Z)
    : M Store (Processed * DataValidationResult) :=
  cached ← match start_date, end_date with
           | Some s, Some e => _load_from_cache self (_cache_key symbol s e)
           | _, _ => mret None
           end;
  match cached : option Processed with
  | Some cached_data => mret (cached_data, mkValidation true [] [] [] 0)
  | None =>
      let validation_result := _validate_raw_data self df in
      let processed := bars df in
      let processed :=
        match start_date with
        | Some s => List.filter (fun b => s <=? b_time b) processed
        | None => processed
        end in
      let processed :=
        match end_date with
        | Some e => List.filter (fun b => b_time b <=? e) processed
        | None => processed
        end in
      let processed := _clean_data self (mkFrame (has_quotes df) processed) in
      let processed := _normalize_data self processed in
      let processed :=
        if add_indicators self
        then Enriched (has_quotes df) (_add_technical_indicators processed)
        else Plain processed in
      match start_date, end_date with
      | Some s, Some e => _save_to_cache self processed (_cache_key symbol s e)
      | _, _ => mret tt
      end;;
      mret (processed, validation_result)
  end.

End Indicators.

End HistoricalDataProcessor.

(** ** The risk gate as the specification words it *)

Module RiskGateSpec.
Import RiskManager.

(** The six admission checks, in the order the specification lists them. *)
Inductive Check : Type :=
| DailyTradeCount
| ConcurrentPositions
| MaximumSize
| MinimumSize
| EmergencyStopDistance
| RewardRiskRatio.

Definition check_order : list Check :=
  [DailyTradeCount; ConcurrentPositions; MaximumSize; MinimumSize;
   EmergencyStopDistance; RewardRiskRatio].

(** Whether a check rejects the intent: (1) daily trade count >= max
    trades/day; (2) open positions >= max concurrent trades; (3) size > max
    position size; (4) size < min trade size; (5) stop distance as a percent
    of price exceeds the emergency bound; (6) reward:risk ratio
    |target - price| / |price - stop| below 1.5. *)
Definition rejects (k : fkind) (rm : RiskManager.t)
    (size price stop take : float) (ch : Check) : outcome bool :=
  match ch with
  | DailyTradeCount =>
      Return (max_trades_per_day (params rm) <=? Z.of_nat (length (trade_history rm)))
  | ConcurrentPositions =>
      Return (max_concurrent_trades (params rm)
              <=? Z.of_nat (base.size (open_positions rm)))
  | MaximumSize => Return (PrimFloat.ltb (max_position_size (params rm)) size)
  | MinimumSize => Return (PrimFloat.ltb size (min_trade_size (params rm)))
  | EmergencyStopDistance =>
      outcome_map
        (fun q => PrimFloat.ltb (emergency_stop_loss (params rm))
                    (PrimFloat.abs (q * 100)%float))
        (truediv k (stop - price)%float price)
  | RewardRiskRatio =>
      Return (PrimFloat.ltb
                (PrimFloat.abs (take - price) / PrimFloat.abs (price - stop))%float
                1.5%float)
  end.

Definition rejection_reason (ch : Check) : string :=
  match ch with
  | DailyTradeCount => "Maximum daily trades exceeded"
  | ConcurrentPositions => "Maximum concurrent positions reached"
  | MaximumSize => "Position size exceeds maximum allowed"
  | MinimumSize => "Position size below minimum allowed"
  | EmergencyStopDistance => "Stop loss exceeds maximum allowed"
  | RewardRiskRatio => "Insufficient risk/reward ratio"
  end.

(** First failure wins. *)
Fixpoint first_rejection (k : fkind) (rm : RiskManager.t)
    (size price stop take : float) (checks : list Check) : outcome (option Check) :=
  match checks with
  | [] => Return None
  | ch :: rest =>
      outcome_bind (rejects k rm size price stop take ch) (fun b =>
        if b then Return (Some ch)
        else first_rejection k rm size price stop take rest)
  end.

Definition validate (k : fkind) (rm : RiskManager.t)
    (size price stop take : float) : outcome (bool * string) :=
  outcome_map
    (fun r => match r with
              | Some ch => (false, rejection_reason ch)
              | None => (true, "Trade validated")
              end)
    (first_rejection k rm size price stop take check_order).

(** The intent passes the check. *)
Definition passes (k : fkind) (rm : RiskManager.t)
    (size price stop take : float) (ch : Check) : Prop :=
  rejects k rm size price stop take ch = Return false.

End RiskGateSpec.

(** ** Processing from scratch, in the words of the specification *)

Module PipelineSpec.
Import HistoricalDataProcessor.

Section WithLog1p.
Variable log1p : float → float.




End WithLog1p.

End PipelineSpec.

(** ** Auxiliary notions for reasoning about a run of the engine *)

Module BacktestRun.
Import BacktestingEngine.

Section WithPow.

Variable float_pow : float → float → float.

(** What an iteration raises while a position is open and no curve exists
    yet: the row access error, else the [ValueError] of the curve. *)
Definition iloc_fail (sf : MomentumStrategy.SignalFrame) (i : nat) : exn :=
  match MomentumStrategy.iloc sf i with
  | Return _ => ValueError
  | Raise x => x
  end.

(** What an iteration of the loop leaves in place. *)
Definition stable (e e' : BacktestingEngine.t) : Prop :=
  strategy e' = strategy e
  ∧ params e' = params e
  ∧ trades e' = trades e
  ∧ equity_curve e' = equity_curve e
  ∧ RiskManager.params (risk_manager e') = RiskManager.params (risk_manager e)
  ∧ RiskManager.open_positions (risk_manager e')
    = RiskManager.open_positions (risk_manager e)
  ∧ (RiskManager.trade_history (risk_manager e) = [] →
     RiskManager.trade_history (risk_manager e') = []).

(** An iteration of the loop with no open position, given the risk state
    [rm'] and clock [c'] that the admission check leaves behind. *)
Definition flat_step (sf : MomentumStrategy.SignalFrame) (ls : LoopState)
    (i : nat) (e : BacktestingEngine.t) (c : Clock)
    (rm' : RiskManager.t) (c' : Clock) : outcome LoopState * t * Clock :=
  match MomentumStrategy.iloc sf i with
  | Raise x => (Raise x, e, c)
  | Return row =>
      match MomentumStrategy.get_trade_signal (strategy e) sf i with
      | Raise x => (Raise x, e, c)
      | Return None => (Return ls, e, c)
      | Return (Some sig) =>
          match RiskGateSpec.validate NpFloat64 rm'
                  (available_capital ls
                   * MomentumStrategy.position_size_pct
                       (MomentumStrategy.params (strategy e)) / 100)%float
                  (MomentumStrategy.ts_price sig)
                  (MomentumStrategy.ts_stop_loss sig)
                  (MomentumStrategy.ts_take_profit sig) with
          | Raise x => (Raise x, set_risk_manager rm' e, c')
          | Return verdict =>
              (Return
                 (if verdict.1 then
                    match _execute_trade (set_risk_manager rm' e)
                            (MomentumStrategy.ts_type sig)
                            (MomentumStrategy.ts_price sig)
                            (b_time (MomentumStrategy.bar row))
                            (available_capital ls) with
                    | Some pos =>
                        let cost := (Trade.size pos * Trade.entry_price pos)%float in
                        mkLoopState (Some pos)
                          (available_capital ls
                           - (cost + fee_part (set_risk_manager rm' e) cost))%float
                          (equity_history ls)
                    | None => ls
                    end
                  else ls),
               set_risk_manager rm' e, c')
          end
      end
  end.

(** Engines that agree on everything an admission or an execution reads,
    with no trade recorded by the risk manager. *)
Definition similar (e1 e2 : BacktestingEngine.t) : Prop :=
  strategy e1 = strategy e2
  ∧ params e1 = params e2
  ∧ RiskManager.params (risk_manager e1) = RiskManager.params (risk_manager e2)
  ∧ RiskManager.open_positions (risk_manager e1)
    = RiskManager.open_positions (risk_manager e2)
  ∧ RiskManager.trade_history (risk_manager e1) = []
  ∧ RiskManager.trade_history (risk_manager e2) = [].

(** The part of [run_backtest] after the loop. *)
Definition finish (sf : MomentumStrategy.SignalFrame) (ls : LoopState)
    : M BacktestingEngine.t BacktestResults :=
  match current_position ls with
  | Some pos =>
      row ← lift_outcome
        (match last (MomentumStrategy.sf_rows sf) with
         | Some row => Return row
         | None => Raise IndexError
         end);
      self ← get;
      let exit_price :=
        _apply_slippage self (b_close (MomentumStrategy.bar row))
          (opposite (Trade.type pos)) in
      closed ← on_object
        (Trade.close_trade exit_price
           (Some (b_time (MomentumStrategy.bar row)))) pos;
      modify (fun e => set_trades (trades e ++ [snd (closed : unit * Trade.t)]) e)
  | None => mret tt
  end;;
  self ← get;
  metrics ← lift_outcome (_calculate_metrics float_pow self);
  let sp := MomentumStrategy.params (strategy self) in
  mret (mkBacktestResults (trades self) (equity_curve self)
          (metrics : Metrics * Metrics * Metrics).1.1 metrics.1.2 metrics.2
          {[ "short_ema_period" := MomentumStrategy.short_ema_period sp;
             "long_ema_period" := MomentumStrategy.long_ema_period sp;
             "take_profit_pct" := MomentumStrategy.take_profit_pct sp;
             "stop_loss_pct" := MomentumStrategy.stop_loss_pct sp;
             "position_size_pct" := MomentumStrategy.position_size_pct sp ]}).

(** The engine after the reset that opens [run_backtest]. *)
Definition start (e : BacktestingEngine.t) : BacktestingEngine.t :=
  set_equity_curve None (set_trades [] e).

(** The loop variables before the first iteration. *)
Definition ls0 (e : BacktestingEngine.t) : LoopState :=
  mkLoopState None (initial_capital (params e)) [initial_capital (params e)].

(** [parameter_values] of a result. *)
Definition echo (sp : MomentumStrategy.StrategyParameters) : Metrics :=
  {[ "short_ema_period" := MomentumStrategy.short_ema_period sp;
     "long_ema_period" := MomentumStrategy.long_ema_period sp;
     "take_profit_pct" := MomentumStrategy.take_profit_pct sp;
     "stop_loss_pct" := MomentumStrategy.stop_loss_pct sp;
     "position_size_pct" := MomentumStrategy.position_size_pct sp ]}.

(** A result with the given ledger, no curve and empty metric maps. *)
Definition empty_result (ts : list Trade.t) (e : BacktestingEngine.t)
    : BacktestResults :=
  mkBacktestResults ts None ∅ ∅ ∅ (echo (MomentumStrategy.params (strategy e))).

(** [similar] up to the strategy parameters, which every trial overwrites. *)
Definition akin (e1 e2 : BacktestingEngine.t) : Prop :=
  MomentumStrategy.current_position (strategy e1)
  = MomentumStrategy.current_position (strategy e2)
  ∧ MomentumStrategy.last_signal (strategy e1)
    = MomentumStrategy.last_signal (strategy e2)
  ∧ params e1 = params e2
  ∧ RiskManager.params (risk_manager e1) = RiskManager.params (risk_manager e2)
  ∧ RiskManager.open_positions (risk_manager e1)
    = RiskManager.open_positions (risk_manager e2)
  ∧ RiskManager.trade_history (risk_manager e1) = []
  ∧ RiskManager.trade_history (risk_manager e2) = [].

(** What a trial of the optimizer leaves in place. *)
Definition carried (e e' : BacktestingEngine.t) : Prop :=
  MomentumStrategy.current_position (strategy e')
  = MomentumStrategy.current_position (strategy e)
  ∧ MomentumStrategy.last_signal (strategy e')
    = MomentumStrategy.last_signal (strategy e)
  ∧ params e' = params e
  ∧ RiskManager.params (risk_manager e') = RiskManager.params (risk_manager e)
  ∧ RiskManager.open_positions (risk_manager e')
    = RiskManager.open_positions (risk_manager e)
  ∧ (RiskManager.trade_history (risk_manager e) = [] →
     RiskManager.trade_history (risk_manager e') = []).

(** [self.strategy.params = sp]. *)
Definition with_params (sp : MomentumStrategy.StrategyParameters)
    (e : BacktestingEngine.t) : BacktestingEngine.t :=
  set_strategy (MomentumStrategy.set_params sp (strategy e)) e.

End WithPow.

End BacktestRun.

(** ** Concrete inputs used by the examples *)

Module Scenarios.

Definition HOUR : Z := 3600000000.
Definition MINUTE : Z := 60000000.

(** A clock that always reads one hour past time 0. *)
Definition clock_1h : Clock := mkClock (fun _ => HOUR) 0.

(** A clock that always reads time 0. *)
Definition clock_0 : Clock := mkClock (fun _ => 0) 0.

Definition closed_update : RiskManager.PositionUpdate :=
  RiskManager.mkPositionUpdate (Some "closed") (Some 0%float) (Some 1%float)
    (Some 100%float).

(** [RiskManager()] created at time 0, after [n] calls of
    [update_position("t", closed_update)]: [n] trades recorded at time 0, no
    open position. *)
Definition risk_manager_with (n : nat) : RiskManager.t :=
  let '(rm, c) := RiskManager.init None clock_0 in
  (foldM (fun (_ : unit) (_ : nat) => RiskManager.update_position "t" closed_update)
     (seq 0 n) tt rm c).1.2.

(** Bars one minute apart, flat at 100 before bar [at_] and flat at 110
    from it on, with volume 5000: the EMAs cross once, upwards, at [at_]. *)
Definition jump_bar (at_ : nat) (i : nat) : Bar :=
  let p := if (i <? at_)%nat then 100%float else 110%float in
  mkBar (Z.of_nat i * MINUTE) p p p p 5000 0 0.

Definition jump_series (at_ n : nat) : DataFrame :=
  mkFrame false (map (jump_bar at_) (seq 0 n)).

(** The end-to-end scenario: 100 bars, the single crossover at bar 30
    (entry at 110, stop at 108.9), and a low of 100 on bar 45. *)
Definition scenario_bar (i : nat) : Bar :=
  let b := jump_bar 30 i in
  if (i =? 45)%nat
  then mkBar (b_time b) (b_open b) (b_high b) 100 (b_close b) (b_volume b) 0 0
  else b.

Definition scenario_series : DataFrame :=
  mkFrame false (map scenario_bar (seq 0 100)).

Definition zero_cost : BacktestingEngine.BacktestParameters :=
  BacktestingEngine.mkBacktestParameters 10000 0 0 true true true.

(** [BacktestingEngine(MomentumStrategy(), parameters=zero_cost)]:
    EMA periods 9 and 21, a fresh risk manager. *)
Definition scenario_engine : BacktestingEngine.t :=
  (BacktestingEngine.init (MomentumStrategy.init None) None (Some zero_cost)
     clock_1h).1.

(** The position snapshot a caller of [update_position] would record for
    an intent. *)
Definition position_of (sig : MomentumStrategy.TradeSignal)
    : MomentumStrategy.Position :=
  MomentumStrategy.mkPosition (MomentumStrategy.ts_type sig)
    (MomentumStrategy.ts_price sig) (MomentumStrategy.ts_stop_loss sig)
    (MomentumStrategy.ts_take_profit sig).

(** The statistics below the guard of [_calculate_metrics] are never
    reached by a run, so any function can stand for [**] in the examples. *)
Definition any_pow (x y : float) : float := fnan.

(** An engine state with a two-sample curve and one closed trade. *)
Definition closed_trade : Trade.t :=
  Trade.mkTrade "buy" "closed" "BTC-USD" 110 (30 * MINUTE) 1 (Some 105%float)
    (Some (45 * MINUTE)) 1 2 (Some (-5)%float) (Some 0%float)
    "MomentumStrategy" (Some HOUR).

Definition engine_with_curve : BacktestingEngine.t :=
  BacktestingEngine.mkEngine (MomentumStrategy.init None) (risk_manager_with 0)
    zero_cost [closed_trade] (Some [(30 * MINUTE, 10000%float); (31 * MINUTE, 9990%float)]).

(** The optimizer scenario: the grid of the specification, an engine whose
    risk manager already recorded ten trades, and a clock that reads one
    hour for its first four readings and twenty-five hours afterwards. *)
Definition grid : list (string * list float) :=
  [("short_ema_period", [5%float; 9%float]);
   ("long_ema_period", [20%float; 21%float])].

Definition busy_engine : BacktestingEngine.t :=
  BacktestingEngine.mkEngine (MomentumStrategy.init None) (risk_manager_with 10)
    BacktestingEngine.default_parameters [] None.

Definition clock_jump : Clock :=
  mkClock (fun k => if (k <? 4)%nat then HOUR else 25 * HOUR) 0.

(** A configuration with the long EMA period below the short one and a
    negative initial capital. *)
Definition inverted_periods : MomentumStrategy.StrategyParameters :=
  MomentumStrategy.mkStrategyParameters 21 9 2 1 1 1000 0.5.

Definition negative_capital : BacktestingEngine.BacktestParameters :=
  BacktestingEngine.mkBacktestParameters (-5) 0.001 0.001 true true true.

Definition invalid_engine : BacktestingEngine.t :=
  (BacktestingEngine.init (MomentumStrategy.init (Some inverted_periods)) None
     (Some negative_capital) clock_1h).1.

(** A stand-in for [np.log1p] with its pattern of missing values: NaN on
    NaN and below -1 (where the logarithm is undefined), a number elsewhere. *)
Definition log1p_pattern (x : float) : float :=
  if isna x || PrimFloat.ltb x (-1)%float then fnan else x.

(** [n] one-minute bars, flat at 110 with volume 5000. *)
Definition flat_series (n : nat) : DataFrame := jump_series 0 n.

(** Eleven bars at price 1 except the last at 100: an outlier beyond three
    standard deviations. *)
Definition spike_bar (i : nat) : Bar :=
  let p := if (i =? 10)%nat then 100%float else 1%float in
  mkBar (Z.of_nat i * MINUTE) p p p p 5000 0 0.

Definition spike_series : DataFrame := mkFrame false (map spike_bar (seq 0 11)).

(** Eight bars whose prices are missing after the first: a gap of seven. *)
Definition gap_bar (i : nat) : Bar :=
  let p := if (i =? 0)%nat then 1%float else fnan in
  mkBar (Z.of_nat i * MINUTE) p p p p 5000 0 0.

Definition gap_series : DataFrame := mkFrame false (map gap_bar (seq 0 8)).

(** The default configuration with outlier removal off, and with gap
    filling off as well. *)
Definition fill_only : HistoricalDataProcessor.DataProcessingConfig :=
  HistoricalDataProcessor.mkConfig 60000000 true false 3 0.01 true 300000000
    true true true "data/cache".

Definition filters_only : HistoricalDataProcessor.DataProcessingConfig :=
  HistoricalDataProcessor.mkConfig 60000000 false false 3 0.01 true 300000000
    true true true "data/cache".

(** The close of row [i]. *)
Definition close_at (i : nat) (df : DataFrame) : float :=
  default fnan (b_close <$> bars df !! i).





End Scenarios.

(** ** models/trade.py: the properties and the unrealized P&L *)

Module TradeMethods.
Import Trade.

(** [duration]: seconds between entry and exit, [None] while the trade has
    no exit time ([total_seconds()] of a difference in microseconds; the
    conversion is exact for distances below 2^53 microseconds). *)
Definition duration (tr : Trade.t) : option float :=
  match exit_time tr with
  | Some x => Some (float_of_Z (x - entry_time tr) / 1000000)%float
  | None => None
  end.

(** [is_active]: [status in ["pending", "open"]]. *)
Definition is_active (tr : Trade.t) : bool :=
  String.eqb (status tr) "pending" || String.eqb (status tr) "open".

(** [current_pnl]: [realized_pnl - (fees or 0)] once there is a realized
    P&L. *)
Definition current_pnl (tr : Trade.t) : option float :=
  match realized_pnl tr with
  | Some pnl => Some (pnl - fees_or_0 tr)%float
  | None => None
  end.

(** [roi_percentage]. *)
Definition roi_percentage (tr : Trade.t) : option float :=
  match realized_pnl tr with
  | Some pnl =>
      if float_truthy (entry_price tr) && float_truthy (size tr) then
        let investment := (entry_price tr * size tr)%float in
        if PrimFloat.ltb 0%float investment
        then Some (pnl / investment * 100)%float
        else None
      else None
  | None => None
  end.

(** [calculate_unrealized_pnl(current_price)]. *)
Definition calculate_unrealized_pnl (tr : Trade.t) (current_price : float)
    : float :=
  if negb (is_active tr) then default 0%float (realized_pnl tr)
  else
    let price_diff := (current_price - entry_price tr)%float in
    let price_diff := if String.eqb (type tr) "sell"
                      then (- price_diff)%float else price_diff in
    (price_diff * size tr - fees_or_0 tr)%float.

End TradeMethods.

(** ** data_processor.py: the feature matrix *)

Module Features.
Import HistoricalDataProcessor.

(** The columns of a processed frame, by name. *)
Definition bar_column (quotes : bool) (name : string) : option (Bar → float) :=
  if String.eqb name "open" then Some b_open
  else if String.eqb name "high" then Some b_high
  else if String.eqb name "low" then Some b_low
  else if String.eqb name "close" then Some b_close
  else if String.eqb name "volume" then Some b_volume
  else if quotes && String.eqb name "bid" then Some b_bid
  else if quotes && String.eqb name "ask" then Some b_ask
  else None.

Definition derived_column (name : string) : option (EnrichedRow → float) :=
  if String.eqb name "returns" then Some returns
  else if String.eqb name "log_returns" then Some log_returns
  else if String.eqb name "volatility" then Some volatility
  else if String.eqb name "volume_ma" then Some volume_ma
  else if String.eqb name "volume_std" then Some volume_std
  else if String.eqb name "momentum" then Some momentum
  else if String.eqb name "sma_10" then Some sma_10
  else if String.eqb name "sma_20" then Some sma_20
  else if String.eqb name "sma_50" then Some sma_50
  else None.

(** [df[name]] when [name in df.columns]. *)
Definition column (df : Processed) (name : string) : option (list float) :=
  match df with
  | Plain frame =>
      (fun get => map get (bars frame)) <$> bar_column (has_quotes frame) name
  | Enriched quotes rows =>
      match bar_column quotes name with
      | Some get => Some (map (fun r => get (base r)) rows)
      | None => (fun get => map get rows) <$> derived_column name
      end
  end.

Definition rows_of (df : Processed) : nat :=
  match df with
  | Plain frame => length (bars frame)
  | Enriched _ rows => length rows
  end.

Definition default_features : list string :=
  ["open"; "high"; "low"; "close"; "volume"; "returns"; "volatility"; "momentum"].

(** [fillna(0)]. *)
Definition fillna0 (xs : list float) : list float :=
  map (fun x => if isna x then 0%float else x) xs.

(** [prepare_features(df, feature_columns)]: the frame of the requested
    columns that exist, forward-filled, the rest of the gaps set to 0. *)
Definition prepare_features (df : Processed)
    (feature_columns : option (list string)) : list (string * list float) :=
  let feature_columns := default default_features feature_columns in
  omap (fun name =>
          (fun col => (name, fillna0 (pd.ffill None col))) <$> column df name)
       feature_columns.

End Features.

(** ** More concrete inputs *)

Module Examples.
Import Scenarios.

(** A buy of 2 units at 100 with a fee of 1, as opened by the engine. *)
Definition open_buy : Trade.t :=
  Trade.mkTrade "buy" "open" "BTC-USD" 100 0 2 None None 1 2 None
    (Some 1%float) "MomentumStrategy" None.

(** An update that opens a position. *)
Definition opening_update : RiskManager.PositionUpdate :=
  RiskManager.mkPositionUpdate (Some "open") None (Some 1%float) (Some 100%float).

(** A buy position snapshot at 100 with stop 99 and target 102. *)
Definition long_position : MomentumStrategy.Position :=
  MomentumStrategy.mkPosition "buy" 100 99 102.

(** A signal frame of one row whose bar spans both the stop and the
    target of the position above. *)
Definition wide_row : MomentumStrategy.SignalRow :=
  MomentumStrategy.mkSignalRow (mkBar 0 100 103 97 100 5000 0 0) 100 100 0 0.

Definition wide_frame : MomentumStrategy.SignalFrame :=
  MomentumStrategy.mkSignalFrame false [wide_row].

(** A store with no file, every path writable. *)
Definition empty_store : HistoricalDataProcessor.Store :=
  HistoricalDataProcessor.mkStore ∅ (fun _ => true).

(** The default configuration without the indicator columns. *)
Definition plain_config : HistoricalDataProcessor.DataProcessingConfig :=
  HistoricalDataProcessor.mkConfig 60000000 true true 3 0.01 true 300000000
    true false true "data/cache".

(** Five round trips of one position: ten updates. *)
Definition day_updates : list (string * RiskManager.PositionUpdate) :=
  flat_map (fun _ : nat => [("t", opening_update); ("t", closed_update)])
    (seq 0 5).

(** The signal frame of 32 bars with the crossover at bar 30, for the
    default strategy, and the intent of that bar. *)
Definition crossover_frame : MomentumStrategy.SignalFrame :=
  match MomentumStrategy.generate_signals (MomentumStrategy.init None)
          (jump_series 30 32) with
  | Return sf => sf
  | Raise _ => MomentumStrategy.mkSignalFrame false []
  end.

(** An engine whose initial capital is not a number. *)
Definition nan_capital : BacktestingEngine.BacktestParameters :=
  BacktestingEngine.mkBacktestParameters fnan 0 0 true true true.

Definition nan_engine : BacktestingEngine.t :=
  (BacktestingEngine.init (MomentumStrategy.init None) None (Some nan_capital)
     clock_1h).1.

Definition crossover_intent : MomentumStrategy.TradeSignal :=
  MomentumStrategy.mkTradeSignal "buy" 110 (Some (30 * MINUTE))
    (110 * (1 + 2 / 100)) (110 * (1 - 1 / 100)).

End Examples.

(** * Properties *)

(** ** The monad *)

Lemma bind_run {St A B} (m : M St A) (f : A → M St B) s c :
  (m ≫= f) s c =
  match m s c with
  | (Return a, s', c') => f a s' c'
  | (Raise e, s', c') => (Raise e, s', c')
  end.
Proof. reflexivity. Qed.

Lemma reading_tick_n n c : reading (tick_n n c) = reading c.
Proof. revert c; induction n as [|n IH]; intros c; simpl; [done|by rewrite IH]. Qed.

(** ** risk_manager.py *)

Section RiskManagerFacts.
Import RiskManager.

(** The guard [risk > 0] of the reward:risk check changes nothing: over a
    zero or NaN risk the IEEE quotient is an infinity or NaN, which is not
    below 1.5. *)
Lemma ratio_guard_redundant (a b : float) :
  PrimFloat.ltb 0%float (PrimFloat.abs a)
  && PrimFloat.ltb (PrimFloat.abs b / PrimFloat.abs a)%float 1.5%float
  = PrimFloat.ltb (PrimFloat.abs b / PrimFloat.abs a)%float 1.5%float.
Proof.
  destruct (PrimFloat.ltb 0 (PrimFloat.abs a)) eqn:H; [reflexivity|].
  simpl. symmetry.
  rewrite FloatAxioms.ltb_spec, FloatAxioms.abs_spec in H.
  rewrite FloatAxioms.ltb_spec, FloatAxioms.div_spec, !FloatAxioms.abs_spec.
  assert (H0 : Prim2SF 0%float = S754_zero false) by (vm_compute; reflexivity).
  assert (H15 : Prim2SF 1.5%float = S754_finite false 6755399441055744 (-52))
    by (vm_compute; reflexivity).
  rewrite H0 in H. rewrite H15. unfold SF64div.
  destruct (Prim2SF a) as [sa|sa| |sa ma ea]; simpl in H; try discriminate;
    destruct (Prim2SF b) as [sb|sb| |sb mb eb]; reflexivity.
Qed.

(** The comprehension of [reset_daily_metrics] reads the clock once per
    entry and touches nothing else. *)
Lemma history_filter_run (l : list HistoryEntry) (rm : t) (c : Clock) :
  ∃ kept,
    filterM (fun trade : HistoryEntry =>
               n' ← now; mret (n' - DAY <? he_timestamp trade)) l rm c
    = (Return kept, rm, tick_n (length l) c)
    ∧ (l = [] → kept = []).
Proof.
  revert c; induction l as [|e l IH]; intros c; simpl.
  - by exists [].
  - destruct (IH (tick c)) as (kept & Hk & _).
    unfold bind at 1. rewrite bind_run. unfold now at 1. simpl.
    unfold bind at 1. rewrite Hk. simpl.
    eexists; split; [reflexivity|done].
Qed.

(** A reset that is not due leaves the risk state alone. *)
Lemma reset_not_due (rm : t) (c : Clock) :
  reading c (ticks c) - last_reset rm <= DAY →
  reset_daily_metrics rm c = (Return tt, rm, tick c).
Proof.
  intros H. unfold reset_daily_metrics, mbind, M_bind, bind, now, get. simpl.
  destruct (Z.ltb_spec DAY (reading c (ticks c) - last_reset rm)); [lia|done].
Qed.

(** The reset never raises, and keeps the parameters and open positions. *)
Lemma reset_returns (rm : t) (c : Clock) :
  ∃ rm' c',
    reset_daily_metrics rm c = (Return tt, rm', c')
    ∧ params rm' = params rm
    ∧ open_positions rm' = open_positions rm
    ∧ reading c' = reading c
    ∧ (trade_history rm = [] → trade_history rm' = []).
Proof.
  unfold reset_daily_metrics. rewrite bind_run. unfold now at 1.
  rewrite bind_run. unfold get at 1.
  destruct (DAY <? _).
  - rewrite bind_run. unfold modify at 1. rewrite bind_run.
    destruct (history_filter_run (trade_history rm) (set_daily_pnl 0 rm) (tick c))
      as (kept & Hk & Hnil).
    simpl trade_history in Hk. rewrite Hk.
    rewrite bind_run. unfold modify at 1. rewrite bind_run. unfold now at 1.
    unfold modify. eexists _, _. split; [reflexivity|].
    simpl. rewrite reading_tick_n. auto.
  - eexists _, _. split; [reflexivity|]. simpl. auto.
Qed.

(** [validate_trade] is the daily reset followed by the checks in source
    order, which are those of the specification. *)
Lemma validate_trade_run k ty size price stop take (rm : t) (c : Clock) :
  ∃ rm' c',
    reset_daily_metrics rm c = (Return tt, rm', c')
    ∧ validate_trade k ty size price stop take rm c
      = (RiskGateSpec.validate k rm' size price stop take, rm', c').
Proof.
  destruct (reset_returns rm c) as (rm' & c' & Hr & _).
  exists rm', c'. split; [done|].
  unfold validate_trade. rewrite bind_run, Hr, bind_run. unfold get at 1.
  unfold RiskGateSpec.validate, RiskGateSpec.check_order. simpl.
  destruct (_ <=? Z.of_nat (length _)); simpl; [done|].
  destruct (_ <=? Z.of_nat (base.size _)); simpl; [done|].
  destruct (PrimFloat.ltb (max_position_size _) size); simpl; [done|].
  destruct (PrimFloat.ltb size _); simpl; [done|].
  rewrite bind_run. unfold lift_outcome.
  destruct (truediv k _ price) as [q|e]; simpl; [|done].
  destruct (PrimFloat.ltb (emergency_stop_loss _) _); simpl; [done|].
  rewrite ratio_guard_redundant.
  destruct (PrimFloat.ltb _ 1.5); done.
Qed.

End RiskManagerFacts.

Section RiskManagerClaims.
Import RiskManager RiskGateSpec.

Lemma first_rejection_app k rm size price stop take before ch after :
  Forall (passes k rm size price stop take) before →
  rejects k rm size price stop take ch = Return true →
  first_rejection k rm size price stop take (before ++ ch :: after)
  = Return (Some ch).
Proof.
  induction 1 as [|x l Hx _ IH]; intros Hch; simpl.
  - by rewrite Hch.
  - rewrite Hx. simpl. auto.
Qed.

Lemma first_rejection_none k rm size price stop take checks :
  Forall (passes k rm size price stop take) checks →
  first_rejection k rm size price stop take checks = Return None.
Proof.
  induction 1 as [|x l Hx _ IH]; simpl; [done|]. by rewrite Hx.
Qed.

(** C5.  [validate_trade] runs the six checks in the order daily trade
    count, concurrent positions, maximum size, minimum size, emergency
    stop-loss distance, reward:risk ratio, and answers with the reason of
    the first one that rejects.  With as many trades recorded today as
    [max_trades_per_day] every intent is rejected; with one fewer, an intent
    that passes the five other checks is accepted; and an intent that passes
    all six is accepted with the reason "Trade validated".  [rm'] is the
    risk state after the daily reset the call starts with. *)
Theorem validate_trade_fixed_order
    (k : fkind) (ty : string) (size price stop take : float)
    (rm rm' : RiskManager.t) (c c' : Clock) (res : outcome (bool * string)) :
  validate_trade k ty size price stop take rm c = (res, rm', c') →
  res = RiskGateSpec.validate k rm' size price stop take
  ∧ (∀ before ch after,
       check_order = before ++ ch :: after →
       Forall (passes k rm' size price stop take) before →
       rejects k rm' size price stop take ch = Return true →
       res = Return (false, rejection_reason ch))
  ∧ (Z.of_nat (length (trade_history rm')) = max_trades_per_day (params rm') →
     res = Return (false, "Maximum daily trades exceeded"))
  ∧ (Z.of_nat (length (trade_history rm')) = max_trades_per_day (params rm') - 1 →
     Forall (passes k rm' size price stop take)
       [ConcurrentPositions; MaximumSize; MinimumSize;
        EmergencyStopDistance; RewardRiskRatio] →
     res = Return (true, "Trade validated"))
  ∧ (Forall (passes k rm' size price stop take) check_order →
     res = Return (true, "Trade validated")).
Proof.
  intros Hrun.
  destruct (validate_trade_run k ty size price stop take rm c)
    as (rm1 & c1 & _ & Hv).
  rewrite Hv in Hrun. injection Hrun as <- <- <-.
  split; [done|]. unfold RiskGateSpec.validate.
  split; [|split; [|split]].
  - intros before ch after -> Hb Hch.
    by rewrite (first_rejection_app _ _ _ _ _ _ _ _ _ Hb Hch).
  - intros Hn. unfold check_order. simpl.
    destruct (Z.leb_spec (max_trades_per_day (params rm1))
                (Z.of_nat (length (trade_history rm1)))); [done|lia].
  - intros Hn Hrest.
    rewrite first_rejection_none; [done|].
    unfold check_order. constructor; [|done].
    unfold passes. simpl. f_equal.
    apply Z.leb_gt. lia.
  - intros Hall. by rewrite first_rejection_none.
Qed.

Lemma validate_trade_fixed_order_witness :
  (validate_trade PyFloat "buy" 100 100 99 102
     (Scenarios.risk_manager_with 9) Scenarios.clock_1h).1.1
  = Return (true, "Trade validated").
Proof.
  set (x := validate_trade PyFloat "buy" 100 100 99 102
              (Scenarios.risk_manager_with 9) Scenarios.clock_1h).
  assert (Hx : x = (x.1.1, x.1.2, x.2)) by (by destruct x as [[? ?] ?]).
  destruct (validate_trade_fixed_order PyFloat "buy" 100 100 99 102
              (Scenarios.risk_manager_with 9) x.1.2 Scenarios.clock_1h x.2
              x.1.1 Hx)
    as (_ & _ & _ & H & _).
  apply H; [vm_compute; reflexivity|].
  repeat constructor; vm_compute; reflexivity.
Defined.

(** C10.  An admission check made less than 24 hours after the last daily
    reset leaves the risk state as it was: trade history, open positions,
    daily P&L and the reset timestamp are unchanged, whatever the verdict
    (and also when the check raises). *)
Theorem validate_trade_read_only
    (k : fkind) (ty : string) (size price stop take : float)
    (rm : RiskManager.t) (c : Clock) :
  reading c (ticks c) - last_reset rm < DAY →
  let rm' := (validate_trade k ty size price stop take rm c).1.2 in
  rm' = rm
  ∧ trade_history rm' = trade_history rm
  ∧ open_positions rm' = open_positions rm
  ∧ daily_pnl rm' = daily_pnl rm
  ∧ last_reset rm' = last_reset rm.
Proof.
  intros Hfresh.
  destruct (validate_trade_run k ty size price stop take rm c)
    as (rm1 & c1 & Hr & Hv).
  rewrite reset_not_due in Hr by lia. injection Hr as <- <-.
  rewrite Hv. simpl. done.
Qed.

Lemma validate_trade_read_only_witness :
  (validate_trade PyFloat "buy" 100 100 99 102
     (Scenarios.risk_manager_with 10) Scenarios.clock_1h).1.2
  = Scenarios.risk_manager_with 10.
Proof.
  apply (validate_trade_read_only PyFloat "buy" 100 100 99 102
           (Scenarios.risk_manager_with 10) Scenarios.clock_1h).
  vm_compute. reflexivity.
Defined.

End RiskManagerClaims.

(** ** engine.py *)

Section EngineFacts.
Import BacktestingEngine BacktestRun.

Variable float_pow : float → float → float.

Lemma calculate_metrics_None (e : BacktestingEngine.t) :
  equity_curve e = None → _calculate_metrics float_pow e = Return (∅, ∅, ∅).
Proof. unfold _calculate_metrics. by intros ->. Qed.

Lemma calculate_metrics_Some (e : BacktestingEngine.t) s :
  equity_curve e = Some s → _calculate_metrics float_pow e = Raise ValueError.
Proof. unfold _calculate_metrics. by intros ->. Qed.

Lemma update_equity_curve_None h ts x (e : BacktestingEngine.t) c :
  equity_curve e = None → h ≠ [] →
  _update_equity_curve h ts x e c = (Raise ValueError, e, c).
Proof.
  intros He Hh. unfold _update_equity_curve.
  rewrite bind_run. unfold get at 1. rewrite He.
  rewrite bind_run. unfold lift_outcome, pd.Series_new.
  destruct h as [|a h]; [done|]. simpl.
  rewrite length_app. simpl.
  destruct (length h + 1)%nat eqn:E; [lia|]. done.
Qed.

Lemma loop_body_open sf ls i (e : BacktestingEngine.t) c pos :
  current_position ls = Some pos →
  equity_curve e = None → equity_history ls ≠ [] →
  loop_body sf ls i e c = (Raise (iloc_fail sf i), e, c).
Proof.
  intros Hp He Hh. unfold loop_body, iloc_fail.
  rewrite bind_run. unfold lift_outcome at 1.
  destruct (MomentumStrategy.iloc sf i) as [row|x]; [|done].
  rewrite bind_run. rewrite Hp.
  rewrite bind_run. unfold get at 1.
  rewrite bind_run. rewrite update_equity_curve_None by done. done.
Qed.

Lemma stable_refl e : stable e e.
Proof. by repeat split. Qed.

Lemma stable_trans e1 e2 e3 : stable e1 e2 → stable e2 e3 → stable e1 e3.
Proof.
  intros (?&?&?&?&?&?&?) (?&?&?&?&?&?&?).
  repeat split; try congruence. auto.
Qed.

Lemma validate_trade_shape k ty size price stop take (rm : RiskManager.t) c :
  ∃ rm' c',
    RiskManager.validate_trade k ty size price stop take rm c
    = (RiskGateSpec.validate k rm' size price stop take, rm', c')
    ∧ RiskManager.params rm' = RiskManager.params rm
    ∧ RiskManager.open_positions rm' = RiskManager.open_positions rm
    ∧ reading c' = reading c
    ∧ (RiskManager.trade_history rm = [] → RiskManager.trade_history rm' = []).
Proof.
  destruct (validate_trade_run k ty size price stop take rm c)
    as (rm' & c' & Hr & Hv).
  destruct (reset_returns rm c) as (rm2 & c2 & Hr2 & Hfacts).
  rewrite Hr in Hr2. injection Hr2 as <- <-.
  by exists rm', c'.
Qed.

Lemma loop_body_flat sf ls i (e : BacktestingEngine.t) c :
  current_position ls = None →
  ∃ rm' c',
    loop_body sf ls i e c = flat_step sf ls i e c rm' c'
    ∧ RiskManager.params rm' = RiskManager.params (risk_manager e)
    ∧ RiskManager.open_positions rm' = RiskManager.open_positions (risk_manager e)
    ∧ reading c' = reading c
    ∧ (RiskManager.trade_history (risk_manager e) = [] →
       RiskManager.trade_history rm' = []).
Proof.
  intros Hp. unfold loop_body, flat_step.
  rewrite bind_run. unfold lift_outcome at 1.
  destruct (MomentumStrategy.iloc sf i) as [row|x].
  2:{ exists (risk_manager e), c. done. }
  rewrite bind_run, Hp. unfold mret at 1, M_ret, ret at 1. cbn beta iota.
  cbn [fst snd]. rewrite Hp.
  rewrite bind_run. unfold get at 1. rewrite bind_run. unfold lift_outcome at 1.
  destruct (MomentumStrategy.get_trade_signal _ sf i) as [[sig|]|x].
  2,3: by exists (risk_manager e), c.
  rewrite bind_run. unfold zoom at 1.
  match goal with |- context [RiskManager.validate_trade ?k ?ty ?a ?b ?c0 ?d ?rm ?cl] =>
    destruct (validate_trade_shape k ty a b c0 d rm cl)
      as (rm' & c1 & -> & Hpar & Hopen & Hrd & Hhist)
  end.
  exists rm', c1. split; [|done].
  destruct (RiskGateSpec.validate _ _ _ _ _ _) as [[ok why]|x]; [|done].
  cbn [fst]. destruct ok; [|done].
  rewrite bind_run. unfold get at 1.
  by destruct (_execute_trade _ _ _ _ _).
Qed.

Lemma loop_body_flat_stable sf ls i (e e' : BacktestingEngine.t) c c' r :
  current_position ls = None →
  loop_body sf ls i e c = (r, e', c') →
  stable e e'
  ∧ reading c' = reading c
  ∧ (∀ ls', r = Return ls' → equity_history ls' = equity_history ls).
Proof.
  intros Hp.
  destruct (loop_body_flat sf ls i e c Hp) as (rm' & c1 & -> & Hpar & Hopen & Hrd & Hh).
  assert (Hst : stable e (set_risk_manager rm' e)) by (by repeat split).
  unfold flat_step.
  destruct (MomentumStrategy.iloc sf i) as [row|x].
  2:{ intros [= <- <- <-]. split; [apply stable_refl|done]. }
  destruct (MomentumStrategy.get_trade_signal _ sf i) as [[sig|]|x].
  3:{ intros [= <- <- <-]. split; [apply stable_refl|done]. }
  2:{ intros [= <- <- <-]. split; [apply stable_refl|]. split; [done|]. by intros ? [= <-]. }
  destruct (RiskGateSpec.validate _ _ _ _ _ _) as [[ok why]|x].
  2:{ intros [= <- <- <-]. done. }
  intros [= <- <- <-]. split; [done|]. split; [done|].
  intros ? [= <-]. cbn [fst]. destruct ok; [|done].
  by destruct (_execute_trade _ _ _ _ _).
Qed.

Lemma similar_stable e1 e2 e1' e2' :
  similar e1 e2 → stable e1 e1' → stable e2 e2' → similar e1' e2'.
Proof.
  intros (?&?&?&?&?&?) (?&?&?&?&?&?&?) (?&?&?&?&?&?&?).
  repeat split; try congruence; auto.
Qed.

Lemma spec_validate_ext k (rm1 rm2 : RiskManager.t) size price stop take :
  RiskManager.params rm1 = RiskManager.params rm2 →
  RiskManager.open_positions rm1 = RiskManager.open_positions rm2 →
  length (RiskManager.trade_history rm1) = length (RiskManager.trade_history rm2) →
  RiskGateSpec.validate k rm1 size price stop take
  = RiskGateSpec.validate k rm2 size price stop take.
Proof.
  intros Hp Ho Hl. unfold RiskGateSpec.validate, RiskGateSpec.check_order.
  simpl. by rewrite Hp, Ho, Hl.
Qed.

Lemma loop_body_flat_similar sf ls i (e1 e2 : BacktestingEngine.t) c1 c2 :
  current_position ls = None →
  similar e1 e2 →
  (loop_body sf ls i e1 c1).1.1 = (loop_body sf ls i e2 c2).1.1.
Proof.
  intros Hp (Hs & Hpar & Hrp & Hop & Hh1 & Hh2).
  destruct (loop_body_flat sf ls i e1 c1 Hp)
    as (rm1 & c1' & -> & Hpar1 & Hopen1 & _ & Hhist1).
  destruct (loop_body_flat sf ls i e2 c2 Hp)
    as (rm2 & c2' & -> & Hpar2 & Hopen2 & _ & Hhist2).
  unfold flat_step. rewrite Hs.
  destruct (MomentumStrategy.iloc sf i) as [row|x]; [|done].
  destruct (MomentumStrategy.get_trade_signal _ sf i) as [[sig|]|x]; [|done|done].
  rewrite (spec_validate_ext _ rm1 rm2)
    by (rewrite ?Hhist1, ?Hhist2 by done; congruence).
  destruct (RiskGateSpec.validate _ _ _ _ _ _) as [[ok why]|x]; [|done].
  cbn [fst snd]. f_equal. destruct ok; [|done].
  destruct e1 as [s1 r1 p1 t1 q1], e2 as [s2 r2 p2 t2 q2]. simpl in *. subst.
  unfold _execute_trade, _calculate_position_size, _apply_slippage, fee_part.
  simpl. done.
Qed.

Lemma loop_fold_stable sf l : ∀ ls (e e' : BacktestingEngine.t) c c' r,
  equity_curve e = None → equity_history ls ≠ [] →
  foldM (loop_body sf) l ls e c = (r, e', c') →
  stable e e'
  ∧ reading c' = reading c
  ∧ (∀ ls', r = Return ls' → equity_history ls' = equity_history ls).
Proof.
  induction l as [|i l IH]; intros ls e e' c c' r He Hh; simpl.
  - intros [= <- <- <-]. split; [apply stable_refl|]. split; [done|]. by intros ? [= <-].
  - unfold bind.
    destruct (current_position ls) as [pos|] eqn:Hp.
    + rewrite (loop_body_open sf ls i e c pos) by done.
      intros [= <- <- <-]. split; [apply stable_refl|done].
    + destruct (loop_body sf ls i e c) as [[r1 e1] c1] eqn:Hb.
      destruct (loop_body_flat_stable sf ls i e e1 c c1 r1 Hp Hb) as (Hst & Hrd & Heh).
      destruct r1 as [ls1|x].
      2:{ intros [= <- <- <-]. done. }
      intros Hf. apply IH in Hf as (Hst2 & Hrd2 & Heh2).
      * split; [by eapply stable_trans|]. split; [congruence|].
        intros ls' Hr. rewrite (Heh2 ls' Hr). by apply Heh.
      * destruct Hst as (_&_&_&->&_). done.
      * by rewrite (Heh ls1).
Qed.

Lemma loop_fold_similar sf l : ∀ ls (e1 e2 : BacktestingEngine.t) c1 c2,
  similar e1 e2 →
  equity_curve e1 = None → equity_curve e2 = None → equity_history ls ≠ [] →
  (foldM (loop_body sf) l ls e1 c1).1.1 = (foldM (loop_body sf) l ls e2 c2).1.1.
Proof.
  induction l as [|i l IH]; intros ls e1 e2 c1 c2 Hsim H1 H2 Hh; simpl; [done|].
  unfold bind.
  destruct (current_position ls) as [pos|] eqn:Hp.
  - by rewrite !(loop_body_open sf ls i _ _ pos).
  - pose proof (loop_body_flat_similar sf ls i e1 e2 c1 c2 Hp Hsim) as Heq.
    destruct (loop_body sf ls i e1 c1) as [[r1 e1'] c1'] eqn:Hb1.
    destruct (loop_body sf ls i e2 c2) as [[r2 e2'] c2'] eqn:Hb2.
    simpl in Heq. subst r2.
    destruct (loop_body_flat_stable sf ls i e1 e1' c1 c1' r1 Hp Hb1) as (Hst1 & _ & Heh).
    destruct (loop_body_flat_stable sf ls i e2 e2' c2 c2' r1 Hp Hb2) as (Hst2 & _ & _).
    destruct r1 as [ls1|x]; [|done].
    apply IH.
    + by eapply similar_stable.
    + destruct Hst1 as (_&_&_&->&_). done.
    + destruct Hst2 as (_&_&_&->&_). done.
    + by rewrite (Heh ls1).
Qed.

Lemma run_backtest_unfold data (e : BacktestingEngine.t) c :
  run_backtest float_pow data e c =
  match MomentumStrategy.generate_signals (strategy e) data with
  | Raise x => (Raise x, start e, c)
  | Return sf =>
      match foldM (loop_body sf)
              (seq 1 (length (MomentumStrategy.sf_rows sf) - 1)) (ls0 e)
              (start e) c with
      | (Return ls, e1, c1) => finish float_pow sf ls e1 c1
      | (Raise x, e1, c1) => (Raise x, e1, c1)
      end
  end.
Proof.
  unfold run_backtest.
  rewrite bind_run. unfold modify at 1. cbv beta iota.
  rewrite bind_run. unfold modify at 1. cbv beta iota.
  rewrite bind_run. unfold get at 1. cbv beta iota.
  rewrite bind_run. unfold lift_outcome at 1. cbv beta iota.
  fold (start e). change (strategy (start e)) with (strategy e).
  destruct (MomentumStrategy.generate_signals _ _) as [sf|x]; [|reflexivity].
  rewrite bind_run. change (params (start e)) with (params e). fold (ls0 e).
  destruct (foldM _ _ _ _ _) as [[[ls|x] e1] c1]; reflexivity.
Qed.

Lemma finish_flat sf ls (e : BacktestingEngine.t) c :
  equity_curve e = None → current_position ls = None →
  finish float_pow sf ls e c = (Return (empty_result (trades e) e), e, c).
Proof.
  intros He Hp. unfold finish. rewrite Hp.
  rewrite bind_run. unfold mret at 1, M_ret, ret at 1. cbv beta iota.
  rewrite bind_run. unfold get at 1. cbv beta iota.
  rewrite bind_run. unfold lift_outcome at 1.
  rewrite calculate_metrics_None by done. cbv beta iota.
  unfold empty_result, echo. by rewrite He.
Qed.

Lemma finish_open sf ls (e : BacktestingEngine.t) c pos :
  equity_curve e = None → current_position ls = Some pos →
  match last (MomentumStrategy.sf_rows sf) with
  | None => finish float_pow sf ls e c = (Raise IndexError, e, c)
  | Some row =>
      ∃ tr, finish float_pow sf ls e c
            = (Return (empty_result (trades e ++ [tr]) e),
               set_trades (trades e ++ [tr]) e, tick c)
  end.
Proof.
  intros He Hp. unfold finish. rewrite Hp.
  rewrite bind_run. rewrite bind_run. unfold lift_outcome at 1.
  destruct (last _) as [row|]; [|done].
  cbv beta iota. rewrite bind_run. unfold get at 1. cbv beta iota.
  rewrite bind_run. unfold on_object at 1, Trade.close_trade.
  rewrite bind_run. unfold mret at 1, M_ret, ret at 1. cbv beta iota.
  rewrite bind_run. unfold get at 1. cbv beta iota.
  rewrite bind_run. unfold now at 1. cbv beta iota.
  unfold put. cbv beta iota. unfold outcome_map, outcome_bind.
  unfold modify at 1. cbv beta iota.
  rewrite bind_run. unfold get at 1. cbv beta iota.
  rewrite bind_run. unfold lift_outcome at 1.
  rewrite calculate_metrics_None by done. cbv beta iota.
  unfold empty_result, echo, set_trades.
  cbn [trades equity_curve strategy params risk_manager snd fst]. rewrite He.
  eexists. reflexivity.
Qed.

Lemma start_similar e1 e2 : similar e1 e2 → similar (start e1) (start e2).
Proof. done. Qed.

Lemma run_backtest_facts data (e e' : BacktestingEngine.t) c c' r :
  run_backtest float_pow data e c = (r, e', c') →
  stable (start e) (set_trades [] e')
  ∧ equity_curve e' = None
  ∧ reading c' = reading c
  ∧ (∀ res, r = Return res → res = empty_result (trades e') e').
Proof.
  rewrite run_backtest_unfold.
  destruct (MomentumStrategy.generate_signals _ _) as [sf|x].
  2:{ intros [= <- <- <-]. split; [apply stable_refl|done]. }
  destruct (foldM _ _ _ _ _) as [[r1 e1] c1] eqn:Hf.
  apply loop_fold_stable in Hf as (Hst & Hrd & _); [|done..].
  assert (He1 : equity_curve e1 = None) by (by destruct Hst as (_&_&_&->&_)).
  assert (Hst' : ∀ ts, stable (start e) (set_trades [] (set_trades ts e1))).
  { intros ts. destruct Hst as (?&?&?&?&?&?&?). by repeat split. }
  destruct r1 as [ls|x].
  2:{ intros [= <- <- <-]. split; [apply (Hst' (trades e1))|done]. }
  destruct (current_position ls) as [pos|] eqn:Hp.
  - pose proof (finish_open sf ls e1 c1 pos He1 Hp) as Hfin.
    destruct (last _) as [row|].
    + destruct Hfin as (tr & ->). intros [= <- <- <-].
      split; [apply Hst'|]. split; [done|]. split; [done|]. by intros ? [= <-].
    + rewrite Hfin. intros [= <- <- <-]. split; [apply (Hst' (trades e1))|done].
  - rewrite finish_flat by done. intros [= <- <- <-].
    split; [apply (Hst' (trades e1))|]. split; [done|]. split; [done|].
    by intros ? [= <-].
Qed.

Lemma run_backtest_similar data (e1 e2 : BacktestingEngine.t) c1 c2 :
  similar e1 e2 →
  outcome_map performance_metrics (run_backtest float_pow data e1 c1).1.1
  = outcome_map performance_metrics (run_backtest float_pow data e2 c2).1.1.
Proof.
  intros Hsim. rewrite !run_backtest_unfold.
  pose proof Hsim as (Hs & Hpar & _).
  rewrite Hs.
  destruct (MomentumStrategy.generate_signals _ _) as [sf|x]; [|done].
  assert (Hls : ls0 e1 = ls0 e2) by (unfold ls0; by rewrite Hpar).
  pose proof (loop_fold_similar sf
                (seq 1 (length (MomentumStrategy.sf_rows sf) - 1)) (ls0 e1)
                (start e1) (start e2) c1 c2 (start_similar _ _ Hsim)
                eq_refl eq_refl) as Heq.
  rewrite <- Hls.
  destruct (foldM _ _ (ls0 e1) (start e1) c1) as [[r1 e1'] c1'] eqn:Hf1.
  destruct (foldM _ _ (ls0 e1) (start e2) c2) as [[r2 e2'] c2'] eqn:Hf2.
  simpl in Heq. specialize (Heq ltac:(done)). subst r2.
  apply loop_fold_stable in Hf1 as ((_&_&_&He1&_) & _ & _); [|done..].
  apply loop_fold_stable in Hf2 as ((_&_&_&He2&_) & _ & _); [|done..].
  simpl in He1, He2.
  destruct r1 as [ls|x]; [|done].
  destruct (current_position ls) as [pos|] eqn:Hp.
  - pose proof (finish_open sf ls e1' c1' pos He1 Hp) as Hfin1.
    pose proof (finish_open sf ls e2' c2' pos He2 Hp) as Hfin2.
    destruct (last _) as [row|].
    + destruct Hfin1 as (tr1 & ->), Hfin2 as (tr2 & ->). done.
    + by rewrite Hfin1, Hfin2.
  - by rewrite !finish_flat.
Qed.

Lemma carried_refl e : carried e e.
Proof. by repeat split. Qed.

Lemma carried_trans e1 e2 e3 : carried e1 e2 → carried e2 e3 → carried e1 e3.
Proof.
  intros (?&?&?&?&?&?) (?&?&?&?&?&?). repeat split; try congruence. auto.
Qed.

Lemma akin_carried e1 e2 e1' e2' :
  akin e1 e2 → carried e1 e1' → carried e2 e2' → akin e1' e2'.
Proof.
  intros (?&?&?&?&?&?&?) (?&?&?&?&?&?) (?&?&?&?&?&?).
  repeat split; try congruence; auto.
Qed.

Lemma ltb_neg_inf_irrefl : PrimFloat.ltb fneg_inf fneg_inf = false.
Proof. reflexivity. Qed.

Lemma trial_unfold data keys metric (best : Best) combo (e : BacktestingEngine.t) c :
  best.1.1 = fneg_inf →
  trial float_pow data keys metric best combo e c =
  match StrategyParameters_kwargs (zip keys combo) with
  | Raise x => (Raise x, e, c)
  | Return sp =>
      let '(r, e', c') := run_backtest float_pow data (with_params sp e) c in
      (outcome_bind r (fun _ => Return best), e', c')
  end.
Proof.
  intros Hb. unfold trial.
  rewrite bind_run. unfold lift_outcome at 1.
  destruct (StrategyParameters_kwargs _) as [sp|x]; [|done].
  cbv beta iota. rewrite bind_run. unfold modify at 1. cbv beta iota.
  rewrite bind_run. fold (with_params sp e).
  destruct (run_backtest _ _ _ _) as [[r e'] c'] eqn:Hr.
  destruct r as [res|x]; [|done].
  apply run_backtest_facts in Hr as (_ & _ & _ & Hres).
  rewrite (Hres res eq_refl). unfold empty_result. cbn [performance_metrics].
  rewrite lookup_empty. cbn [default]. rewrite Hb, ltb_neg_inf_irrefl. done.
Qed.

Lemma with_params_run_carried data sp (e e' : BacktestingEngine.t) c c' r :
  run_backtest float_pow data (with_params sp e) c = (r, e', c') →
  carried e e' ∧ reading c' = reading c.
Proof.
  intros Hr. apply run_backtest_facts in Hr as (Hst & _ & Hrd & _).
  split; [|done].
  destruct Hst as (Hs&?&?&?&?&?&?). simpl in *.
  repeat split; try done; by rewrite Hs.
Qed.

Lemma trial_carried data keys metric (best : Best) combo
    (e e' : BacktestingEngine.t) c c' r :
  best.1.1 = fneg_inf →
  trial float_pow data keys metric best combo e c = (r, e', c') →
  carried e e' ∧ reading c' = reading c ∧ (∀ b, r = Return b → b = best).
Proof.
  intros Hb. rewrite trial_unfold by done.
  destruct (StrategyParameters_kwargs _) as [sp|x].
  2:{ intros [= <- <- <-]. split; [apply carried_refl|done]. }
  destruct (run_backtest _ _ _ _) as [[r1 e1] c1] eqn:Hr.
  apply with_params_run_carried in Hr as (Hc & Hrd).
  intros [= <- <- <-]. split; [done|]. split; [done|].
  destruct r1; simpl; [by intros ? [= <-]|done].
Qed.

Lemma akin_with_params sp e1 e2 :
  akin e1 e2 → similar (with_params sp e1) (with_params sp e2).
Proof.
  intros (Hcp & Hls & ? & ? & ? & ? & ?). repeat split; try done.
  simpl. unfold MomentumStrategy.set_params. by rewrite Hcp, Hls.
Qed.

Lemma trial_akin data keys metric (best : Best) combo
    (e1 e2 : BacktestingEngine.t) c1 c2 :
  best.1.1 = fneg_inf → akin e1 e2 →
  (trial float_pow data keys metric best combo e1 c1).1.1
  = (trial float_pow data keys metric best combo e2 c2).1.1.
Proof.
  intros Hb Hak. rewrite !trial_unfold by done.
  destruct (StrategyParameters_kwargs _) as [sp|x]; [|done].
  pose proof (run_backtest_similar data _ _ c1 c2 (akin_with_params sp _ _ Hak)) as H.
  destruct (run_backtest _ _ (with_params sp e1) c1) as [[r1 e1'] c1'].
  destruct (run_backtest _ _ (with_params sp e2) c2) as [[r2 e2'] c2'].
  simpl in *. destruct r1, r2; simpl in *; congruence.
Qed.

Lemma trials_carried data keys metric (best : Best) combos :
  ∀ (e e' : BacktestingEngine.t) c c' r,
  best.1.1 = fneg_inf →
  foldM (trial float_pow data keys metric) combos best e c = (r, e', c') →
  carried e e' ∧ reading c' = reading c ∧ (∀ b, r = Return b → b = best).
Proof.
  induction combos as [|combo combos IH]; intros e e' c c' r Hb; simpl.
  - intros [= <- <- <-]. split; [apply carried_refl|]. split; [done|]. by intros ? [= <-].
  - unfold bind.
    destruct (trial _ _ _ _ _ _ e c) as [[r1 e1] c1] eqn:Ht.
    apply trial_carried in Ht as (Hc & Hrd & Hbest); [|done].
    destruct r1 as [b|x].
    2:{ intros [= <- <- <-]. done. }
    rewrite (Hbest b eq_refl).
    intros Hf. apply IH in Hf as (Hc2 & Hrd2 & Hbest2); [|done].
    split; [by eapply carried_trans|]. split; [congruence|done].
Qed.

Lemma trials_akin data keys metric (best : Best) combos :
  ∀ (e1 e2 : BacktestingEngine.t) c1 c2,
  best.1.1 = fneg_inf → akin e1 e2 →
  (foldM (trial float_pow data keys metric) combos best e1 c1).1.1
  = (foldM (trial float_pow data keys metric) combos best e2 c2).1.1.
Proof.
  induction combos as [|combo combos IH]; intros e1 e2 c1 c2 Hb Hak; simpl; [done|].
  unfold bind.
  pose proof (trial_akin data keys metric best combo e1 e2 c1 c2 Hb Hak) as Heq.
  destruct (trial _ _ _ _ _ _ e1 c1) as [[r1 e1'] c1'] eqn:Ht1.
  destruct (trial _ _ _ _ _ _ e2 c2) as [[r2 e2'] c2'] eqn:Ht2.
  simpl in Heq. subst r2.
  apply trial_carried in Ht1 as (Hc1 & _ & Hbest); [|done].
  apply trial_carried in Ht2 as (Hc2 & _ & _); [|done].
  destruct r1 as [b|x]; [|done].
  rewrite (Hbest b eq_refl). apply IH; [done|]. by eapply akin_carried.
Qed.

Lemma optimize_strategy_unfold data grid metric (e : BacktestingEngine.t) c :
  optimize_strategy float_pow data grid metric e c =
  let '(r, e', c') :=
    foldM (trial float_pow data (map fst grid) metric) (product (map snd grid))
      (fneg_inf, [], None) e c in
  (outcome_map (fun best : Best => (best.1.2, best.2)) r, e', c').
Proof.
  unfold optimize_strategy. rewrite bind_run.
  by destruct (foldM _ _ _ _ _) as [[[b|x] e'] c'].
Qed.

End EngineFacts.

Section EngineClaims.
Import BacktestingEngine BacktestRun.

Variable float_pow : float → float → float.

(** The guard of [_calculate_metrics] returns or raises before [**] is
    ever evaluated. *)
Lemma calculate_metrics_pow_irrelevant (p1 p2 : float → float → float)
    (e : BacktestingEngine.t) :
  _calculate_metrics p1 e = _calculate_metrics p2 e.
Proof. unfold _calculate_metrics. by destruct (equity_curve e). Qed.

(** A run that returns has built no equity curve. *)
Lemma run_backtest_result_has_no_curve data (e e' : BacktestingEngine.t) c c' r :
  run_backtest float_pow data e c = (Return r, e', c') →
  r_equity_curve r = None ∧ performance_metrics r = ∅.
Proof.
  intros Hr. apply run_backtest_facts in Hr as (_ & _ & _ & Hres).
  by rewrite (Hres r eq_refl).
Qed.

(** C2.  With a non-empty ledger and an equity curve of more than one
    sample, [_calculate_metrics] takes the truth value of the Series and
    raises instead of returning the three metric maps; and a [run_backtest]
    that completes without raising has no equity curve, a one-sample one, or
    an empty ledger (in fact it never has a curve). *)
Theorem calculate_metrics_raises_on_curve
    (e : BacktestingEngine.t) (s : Series)
    (data : DataFrame) (e0 e' : BacktestingEngine.t) (c c' : Clock)
    (r : BacktestResults) :
  (equity_curve e = Some s → (1 < length s)%nat → trades e ≠ [] →
   _calculate_metrics float_pow e = Raise ValueError)
  ∧ (run_backtest float_pow data e0 c = (Return r, e', c') →
     r_equity_curve r = None
     ∨ (∃ s', r_equity_curve r = Some s' ∧ length s' = 1%nat)
     ∨ r_trades r = []).
Proof.
  split.
  - intros He _ _. by apply calculate_metrics_Some with s.
  - intros Hr. left. by apply run_backtest_result_has_no_curve in Hr as [? _].
Qed.

Lemma generate_signals_valid (st : MomentumStrategy.t) (data : DataFrame) :
  PrimFloat.ltb (MomentumStrategy.short_ema_period (MomentumStrategy.params st))
    1%float = false →
  PrimFloat.ltb (MomentumStrategy.long_ema_period (MomentumStrategy.params st))
    1%float = false →
  ∃ sf, MomentumStrategy.generate_signals st data = Return sf.
Proof.
  intros Hs Hl. unfold MomentumStrategy.generate_signals,
    MomentumStrategy.calculate_ema, pd.ewm_mean.
  rewrite Hs, Hl. destruct (map b_close (bars data)); simpl; eauto.
Qed.

Lemma generate_signals_invalid (st : MomentumStrategy.t) (data : DataFrame) :
  PrimFloat.ltb (MomentumStrategy.short_ema_period (MomentumStrategy.params st))
    1%float = true
  ∨ PrimFloat.ltb (MomentumStrategy.long_ema_period (MomentumStrategy.params st))
      1%float = true →
  MomentumStrategy.generate_signals st data = Raise ValueError.
Proof.
  intros H. unfold MomentumStrategy.generate_signals,
    MomentumStrategy.calculate_ema, pd.ewm_mean.
  destruct (PrimFloat.ltb (MomentumStrategy.short_ema_period _) _); [done|].
  destruct H as [H|H]; [done|]. rewrite H.
  by destruct (map b_close (bars data)).
Qed.

Lemma generate_signals_short (st : MomentumStrategy.t) (data : DataFrame) sf :
  (length (bars data) <= 1)%nat →
  MomentumStrategy.generate_signals st data = Return sf →
  (length (MomentumStrategy.sf_rows sf) <= 1)%nat.
Proof.
  unfold MomentumStrategy.generate_signals, MomentumStrategy.calculate_ema,
    pd.ewm_mean.
  intros Hn.
  destruct (PrimFloat.ltb (MomentumStrategy.short_ema_period _) _); [done|].
  destruct (PrimFloat.ltb (MomentumStrategy.long_ema_period _) _);
    [by destruct (map b_close (bars data))|].
  destruct (bars data) as [|b [|b' l]]; simpl in *; [| |lia];
    intros [= <-]; simpl; lia.
Qed.

(** C4, as the code has it.  On a series of at most one bar (the loop from
    index 1 is empty), with EMA periods of at least 1, [run_backtest] returns
    without raising, with an empty trade list, no equity curve, and three
    empty metric maps: no metric key is present. *)
Theorem run_backtest_short_series
    (data : DataFrame) (e : BacktestingEngine.t) (c : Clock) :
  (length (bars data) <= 1)%nat →
  PrimFloat.ltb (MomentumStrategy.short_ema_period
                   (MomentumStrategy.params (strategy e))) 1%float = false →
  PrimFloat.ltb (MomentumStrategy.long_ema_period
                   (MomentumStrategy.params (strategy e))) 1%float = false →
  ∃ r, run_backtest float_pow data e c = (Return r, start e, c)
       ∧ r_trades r = []
       ∧ r_equity_curve r = None
       ∧ performance_metrics r = ∅
       ∧ trade_metrics r = ∅
       ∧ drawdown_metrics r = ∅.
Proof.
  intros Hn Hs Hl. rewrite run_backtest_unfold.
  destruct (generate_signals_valid (strategy e) data Hs Hl) as (sf & Hsf).
  rewrite Hsf. apply generate_signals_short in Hsf; [|done].
  replace (length (MomentumStrategy.sf_rows sf) - 1)%nat with 0%nat by lia.
  simpl. unfold ret. rewrite finish_flat by done.
  eexists. split; [reflexivity|]. done.
Qed.

(** C9, as the code has it.  No constructor validates its parameters: they
    are stored unchanged.  [run_backtest] fails before the first bar only when
    an EMA period is below 1 (the [ValueError] of the moving average, not a
    configuration error); with periods of at least 1, in whatever order, and
    any initial capital, it computes the signals and runs the bar loop. *)
Theorem no_configuration_check
    (sp : MomentumStrategy.StrategyParameters) (bp : BacktestParameters)
    (rm : option RiskManager.t) (data : DataFrame) (c0 c : Clock) :
  let e := (init (MomentumStrategy.init (Some sp)) rm (Some bp) c0).1 in
  MomentumStrategy.params (strategy e) = sp
  ∧ params e = bp
  ∧ (PrimFloat.ltb (MomentumStrategy.short_ema_period sp) 1%float = true
     ∨ PrimFloat.ltb (MomentumStrategy.long_ema_period sp) 1%float = true →
     run_backtest float_pow data e c = (Raise ValueError, start e, c))
  ∧ (PrimFloat.ltb (MomentumStrategy.short_ema_period sp) 1%float = false →
     PrimFloat.ltb (MomentumStrategy.long_ema_period sp) 1%float = false →
     ∃ sf,
       MomentumStrategy.generate_signals (strategy e) data = Return sf
       ∧ run_backtest float_pow data e c
         = match foldM (loop_body sf)
                   (seq 1 (length (MomentumStrategy.sf_rows sf) - 1)) (ls0 e)
                   (start e) c with
           | (Return ls, e1, c1) => finish float_pow sf ls e1 c1
           | (Raise x, e1, c1) => (Raise x, e1, c1)
           end).
Proof.
  intros e.
  assert (Hsp : MomentumStrategy.params (strategy e) = sp).
  { unfold e, init. by destruct rm. }
  assert (Hbp : params e = bp).
  { unfold e, init. by destruct rm. }
  split; [done|]. split; [done|]. split.
  - intros H. rewrite run_backtest_unfold.
    rewrite generate_signals_invalid; [done|]. by rewrite Hsp.
  - intros Hs Hl.
    destruct (generate_signals_valid (strategy e) data) as (sf & Hsf);
      [by rewrite Hsp..|].
    exists sf. split; [done|]. by rewrite run_backtest_unfold, Hsf.
Qed.

(** C7, as the code has it.  On an engine whose risk manager has recorded
    no trade (as the default one), the grid search is a function of the
    series, the grid and the engine's configuration alone: it gives the same
    answer under any two clocks, and run again on the engine it leaves behind,
    under any clock, it gives the same answer once more. *)
Theorem optimize_strategy_repeatable
    (data : DataFrame) (parameter_ranges : list (string * list float))
    (metric : string) (e : BacktestingEngine.t) (c c' c'' : Clock) :
  RiskManager.trade_history (risk_manager e) = [] →
  let first := optimize_strategy float_pow data parameter_ranges metric e c in
  (optimize_strategy float_pow data parameter_ranges metric e c').1.1 = first.1.1
  ∧ (optimize_strategy float_pow data parameter_ranges metric first.1.2 c'').1.1
    = first.1.1.
Proof.
  intros Hh first. unfold first. rewrite !optimize_strategy_unfold.
  assert (Hak : akin e e) by (by repeat split).
  pose proof (trials_akin float_pow data (map fst parameter_ranges) metric
                (fneg_inf, [], None) (product (map snd parameter_ranges))
                e e c' c eq_refl Hak) as H1.
  destruct (foldM _ _ _ e c) as [[r1 e1] c1] eqn:Hf1.
  pose proof (trials_carried float_pow data (map fst parameter_ranges) metric
                (fneg_inf, [], None) (product (map snd parameter_ranges))
                e e1 c c1 r1 eq_refl Hf1) as (Hc & _ & _).
  assert (Hak' : akin e1 e).
  { destruct Hc as (?&?&?&?&?&Hh1). repeat split; try done. by apply Hh1. }
  pose proof (trials_akin float_pow data (map fst parameter_ranges) metric
                (fneg_inf, [], None) (product (map snd parameter_ranges))
                e1 e c'' c eq_refl Hak') as H2.
  rewrite Hf1 in H2. simpl in H1, H2.
  destruct (foldM _ _ _ e c') as [[r2 e2] c2].
  simpl in H1. subst r2.
  cbn [fst snd].
  destruct (foldM _ _ _ e1 c'') as [[r3 e3] c3].
  simpl in H2. subst r3. done.
Qed.

End EngineClaims.

(** ** engine.py: the scenarios *)

Section EngineExamples.
Import BacktestingEngine BacktestRun Scenarios.

Lemma finish_pow_irrelevant (p1 p2 : float → float → float) sf ls
    (e : BacktestingEngine.t) (c : Clock) :
  finish p1 sf ls e c = finish p2 sf ls e c.
Proof.
  unfold finish. rewrite !bind_run.
  match goal with
  | |- match ?m with _ => _ end = _ => destruct m as [[[u|x] e2] c2]
  end; [|done].
  rewrite !bind_run. unfold get. cbv beta iota.
  rewrite !bind_run. unfold lift_outcome.
  by rewrite (calculate_metrics_pow_irrelevant p1 p2).
Qed.

(** A run is the same whatever stands for the power operator. *)
Lemma run_backtest_pow_irrelevant (p1 p2 : float → float → float)
    (data : DataFrame) (e : BacktestingEngine.t) (c : Clock) :
  run_backtest p1 data e c = run_backtest p2 data e c.
Proof.
  rewrite !run_backtest_unfold.
  destruct (MomentumStrategy.generate_signals _ _) as [sf|x]; [|done].
  destruct (foldM _ _ _ _ _) as [[[ls|x] e1] c1]; [|done].
  apply finish_pow_irrelevant.
Qed.

(** C1, on the code.  The scenario series has its single entry signal at
    bar 30 and a low below the stop on bar 45.  The run does not return a
    ledger: it raises [ValueError] on bar 31, at the first mark-to-market of
    the open position (the series cut after bar 30 still returns, cut after
    bar 31 it raises).  The exit check the engine makes on bar 45 would answer
    "No position", because the engine never records the position with the
    strategy; with the position recorded through [update_position] the same
    check answers "Stop loss hit". *)
Theorem scenario_run_raises :
  let strat := strategy scenario_engine in
  let signals := MomentumStrategy.generate_signals strat scenario_series in
  outcome_map
    (fun sf =>
       List.filter
         (fun i => match MomentumStrategy.get_trade_signal strat sf i with
                   | Return (Some _) => true
                   | _ => false
                   end) (seq 0 100)) signals
  = Return [30%nat]
  ∧ (run_backtest any_pow scenario_series scenario_engine clock_1h).1.1
    = Raise ValueError
  ∧ outcome_map (fun r => length (r_trades r))
      (run_backtest any_pow (mkFrame false (take 31 (bars scenario_series)))
         scenario_engine clock_1h).1.1
    = Return 1%nat
  ∧ (run_backtest any_pow (mkFrame false (take 32 (bars scenario_series)))
       scenario_engine clock_1h).1.1
    = Raise ValueError
  ∧ outcome_bind signals
      (fun sf => MomentumStrategy.should_exit_position strat sf 45)
    = Return (false, "No position")
  ∧ outcome_bind signals
      (fun sf =>
         outcome_bind (MomentumStrategy.get_trade_signal strat sf 30)
           (fun intent =>
              match intent with
              | Some sig =>
                  MomentumStrategy.should_exit_position
                    (MomentumStrategy.update_position (Some (position_of sig))
                       strat) sf 45
              | None => Raise IndexError
              end))
    = Return (true, "Stop loss hit").
Proof. vm_compute. repeat split; reflexivity. Qed.

(** A two-sample curve with a closed trade makes the metrics step raise,
    and the run over three flat bars, which completes, carries no curve. *)
Lemma calculate_metrics_raises_on_curve_witness :
  _calculate_metrics any_pow engine_with_curve = Raise ValueError
  ∧ ∃ r,
      (run_backtest any_pow (jump_series 9 3) scenario_engine clock_1h).1.1
      = Return r
      ∧ (r_equity_curve r = None
         ∨ (∃ s', r_equity_curve r = Some s' ∧ length s' = 1%nat)
         ∨ r_trades r = []).
Proof.
  set (x := run_backtest any_pow (jump_series 9 3) scenario_engine clock_1h).
  split.
  - apply (calculate_metrics_raises_on_curve any_pow engine_with_curve
             [(30 * MINUTE, 10000%float); (31 * MINUTE, 9990%float)]
             (jump_series 9 3) scenario_engine scenario_engine clock_1h clock_1h
             (empty_result [] scenario_engine)).
    + reflexivity.
    + simpl. lia.
    + discriminate.
  - exists (empty_result [] scenario_engine).
    split; [vm_compute; reflexivity|].
    apply (calculate_metrics_raises_on_curve any_pow engine_with_curve []
             (jump_series 9 3) scenario_engine x.1.2 clock_1h x.2
             (empty_result [] scenario_engine)).
    vm_compute. reflexivity.
Defined.

(** On the empty series the run returns, and no metric is present in the
    maps, so none of them equals 0. *)
Lemma run_backtest_empty_series_counterexample :
  ∃ r, (run_backtest any_pow (mkFrame false []) scenario_engine clock_1h).1.1
       = Return r
       ∧ performance_metrics r !! "total_return" = None
       ∧ performance_metrics r !! "sharpe_ratio" = None
       ∧ trade_metrics r !! "win_rate" = None
       ∧ trade_metrics r !! "profit_factor" = None
       ∧ drawdown_metrics r !! "max_drawdown" = None.
Proof. eexists. split; [vm_compute; reflexivity|]. repeat split. Qed.

Lemma run_backtest_short_series_witness :
  ∃ r, run_backtest any_pow (mkFrame false []) scenario_engine clock_1h
       = (Return r, start scenario_engine, clock_1h)
       ∧ r_trades r = []
       ∧ r_equity_curve r = None
       ∧ performance_metrics r = ∅
       ∧ trade_metrics r = ∅
       ∧ drawdown_metrics r = ∅.
Proof.
  apply (run_backtest_short_series any_pow (mkFrame false []) scenario_engine
           clock_1h).
  - simpl. lia.
  - vm_compute. reflexivity.
  - vm_compute. reflexivity.
Defined.

(** With the long EMA period below the short one and a negative initial
    capital, the engine is built and the run over five bars goes through and
    returns, echoing the invalid parameters. *)
Lemma invalid_configuration_counterexample :
  MomentumStrategy.long_ema_period (MomentumStrategy.params (strategy invalid_engine))
  = 9%float
  ∧ MomentumStrategy.short_ema_period (MomentumStrategy.params (strategy invalid_engine))
    = 21%float
  ∧ initial_capital (params invalid_engine) = (-5)%float
  ∧ ∃ r, (run_backtest any_pow (jump_series 2 5) invalid_engine clock_1h).1.1
         = Return r
         ∧ parameter_values r !! "short_ema_period" = Some 21%float
         ∧ parameter_values r !! "long_ema_period" = Some 9%float.
Proof.
  repeat split. eexists. split; [vm_compute; reflexivity|].
  split; vm_compute; reflexivity.
Qed.

Lemma no_configuration_check_witness :
  ∃ sf,
    MomentumStrategy.generate_signals (strategy invalid_engine) (jump_series 2 5)
    = Return sf
    ∧ run_backtest any_pow (jump_series 2 5) invalid_engine clock_1h
      = match foldM (loop_body sf)
                (seq 1 (length (MomentumStrategy.sf_rows sf) - 1))
                (ls0 invalid_engine) (start invalid_engine) clock_1h with
        | (Return ls, e1, c1) => finish any_pow sf ls e1 c1
        | (Raise x, e1, c1) => (Raise x, e1, c1)
        end.
Proof.
  apply (no_configuration_check any_pow inverted_periods negative_capital None
           (jump_series 2 5) clock_1h clock_1h).
  - vm_compute. reflexivity.
  - vm_compute. reflexivity.
Defined.

(** With ten trades already recorded by the risk manager, the first search
    (clock at one hour) has every intent rejected and returns no best
    parameters, while the second search on the same engine (clock past the
    24-hour reset) admits a trade and raises. *)
Lemma optimize_strategy_counterexample :
  let first :=
    optimize_strategy any_pow (jump_series 2 5) grid "sharpe_ratio"
      busy_engine clock_jump in
  let second :=
    optimize_strategy any_pow (jump_series 2 5) grid "sharpe_ratio"
      first.1.2 first.2 in
  first.1.1 = Return ([], None)
  ∧ second.1.1 = Raise ValueError
  ∧ first.1.1 ≠ second.1.1.
Proof.
  vm_compute. repeat split; [reflexivity..|discriminate].
Qed.

Lemma optimize_strategy_repeatable_witness :
  let first :=
    optimize_strategy any_pow (jump_series 2 5) grid "sharpe_ratio"
      scenario_engine clock_1h in
  (optimize_strategy any_pow (jump_series 2 5) grid "sharpe_ratio"
     scenario_engine clock_jump).1.1 = first.1.1
  ∧ (optimize_strategy any_pow (jump_series 2 5) grid "sharpe_ratio"
       first.1.2 clock_jump).1.1 = first.1.1.
Proof.
  apply (optimize_strategy_repeatable any_pow (jump_series 2 5) grid
           "sharpe_ratio" scenario_engine clock_1h clock_jump clock_jump).
  vm_compute. reflexivity.
Defined.

End EngineExamples.

(** ** data_processor.py *)

Section DataProcessorFacts.
Import HistoricalDataProcessor.

Variable log1p : float → float.

Lemma filter_none {A} (p : A → bool) (l : list A) :
  Forall (fun x => p x = false) l → List.filter p l = [].
Proof. induction 1 as [|x l Hx _ IH]; simpl; [done|]. by rewrite Hx. Qed.

Lemma filter_all {A} (p : A → bool) (l : list A) :
  Forall (fun x => p x = true) l → List.filter p l = l.
Proof. induction 1 as [|x l Hx _ IH]; simpl; [done|]. by rewrite Hx, IH. Qed.

Lemma filter_Forall {A} (p : A → bool) (l : list A) :
  Forall (fun x => p x = true) (List.filter p l).
Proof.
  induction l as [|x l IH]; simpl; [constructor|].
  destruct (p x) eqn:Hx; [by constructor|done].
Qed.

Lemma filter_length_le {A} (p : A → bool) (l : list A) :
  (length (List.filter p l) <= length l)%nat.
Proof. induction l as [|x l IH]; simpl; [lia|]. destruct (p x); simpl; lia. Qed.

Lemma rolling_warmup window agg xs i :
  (S i < window)%nat → (i < length xs)%nat →
  pd.rolling window agg xs !! i = Some fnan.
Proof.
  intros Hw Hi. unfold pd.rolling, pd.prep_values. cbv zeta.
  rewrite list_lookup_fmap, lookup_seq_lt by (by rewrite length_map). simpl.
  destruct (Nat.ltb_spec (S i) window); [done|lia].
Qed.

Lemma rolling_length window agg xs :
  length (pd.rolling window agg xs) = length xs.
Proof.
  unfold pd.rolling, pd.prep_values. cbv zeta.
  by rewrite length_map, length_seq, length_map.
Qed.

Lemma indicator_rows_length df :
  length (indicator_rows log1p df) = length (bars df).
Proof. unfold indicator_rows. apply length_imap. Qed.

(** The rows before index 49 lack the 50-bar average. *)
Lemma indicator_rows_warmup df i r :
  (i < 49)%nat → indicator_rows log1p df !! i = Some r →
  complete (has_quotes df) r = false.
Proof.
  intros Hi. unfold indicator_rows. rewrite list_lookup_imap.
  destruct (bars df !! i) as [b|] eqn:Hb; [|done]. simpl.
  intros [= <-]. unfold complete, derived. cbn [sma_50 base].
  rewrite (rolling_warmup 50); [|lia|].
  2:{ rewrite length_map. by apply lookup_lt_Some in Hb. }
  rewrite forallb_app. apply andb_false_iff. right. simpl.
  rewrite !andb_false_r. done.
Qed.

(** C3, as the code has it.  With the default windows the enrichment step
    drops the first 49 rows (one less than the largest window, 50) and every
    later row that has a missing cell: its output has at most n - 49 rows,
    exactly n - 49 when every row from index 49 on is complete, and no row of
    the output has a null in a derived field (nor in any other). *)
Theorem add_technical_indicators_warmup (df : DataFrame) :
  let out := _add_technical_indicators log1p df in
  (length out <= length (bars df) - 49)%nat
  ∧ Forall (fun r => complete (has_quotes df) r = true
                     ∧ forallb notna (derived r) = true) out
  ∧ (Forall (fun r => complete (has_quotes df) r = true)
       (drop 49 (indicator_rows log1p df)) →
     length out = (length (bars df) - 49)%nat).
Proof.
  intros out. unfold out, _add_technical_indicators.
  set (rows := indicator_rows log1p df).
  assert (Hsplit : List.filter (complete (has_quotes df)) rows
                   = List.filter (complete (has_quotes df)) (drop 49 rows)).
  { rewrite <- (take_drop 49 rows) at 1. rewrite List.filter_app.
    rewrite filter_none; [done|].
    apply Forall_lookup. intros i r Hr.
    apply lookup_take_Some in Hr as [Hr Hi].
    by apply (indicator_rows_warmup df i r). }
  assert (Hlen : length (drop 49 rows) = (length (bars df) - 49)%nat).
  { rewrite length_drop. unfold rows. by rewrite indicator_rows_length. }
  split; [|split].
  - rewrite Hsplit, <- Hlen. apply filter_length_le.
  - eapply Forall_impl; [apply filter_Forall|].
    intros r Hr. split; [done|].
    unfold complete in Hr. rewrite forallb_app in Hr.
    by apply andb_true_iff in Hr as [_ ?].
  - intros Hall. by rewrite Hsplit, filter_all.
Qed.

(** With outlier clipping and gap filling switched off, cleaning only
    filters rows. *)
Lemma clean_data_filters (cfg : DataProcessingConfig) (df : DataFrame) :
  remove_outliers cfg = false → fill_gaps cfg = false →
  _clean_data cfg df
  = mkFrame (has_quotes df)
      (let kept := List.filter
                     (fun b => negb (forallb isna (cells (has_quotes df) b)))
                     (bars df) in
       if PrimFloat.ltb 0%float (min_volume_threshold cfg)
       then List.filter (fun b => PrimFloat.leb (min_volume_threshold cfg)
                                    (b_volume b)) kept
       else kept).
Proof. intros Ho Hf. unfold _clean_data. by rewrite Ho, Hf. Qed.

Lemma filter_filter_all {A} (p q : A → bool) (l : list A) :
  Forall (fun x => q x = true) l →
  Forall (fun x => q x = true) (List.filter p l).
Proof.
  induction 1 as [|x l Hx _ IH]; simpl; [constructor|].
  destruct (p x); [by constructor|done].
Qed.

(** C8, as the code has it.  With outlier removal and gap filling switched
    off, cleaning twice is cleaning once. *)
Theorem clean_data_idempotent_without_clip_and_fill
    (cfg : DataProcessingConfig) (df : DataFrame) :
  remove_outliers cfg = false → fill_gaps cfg = false →
  _clean_data cfg (_clean_data cfg df) = _clean_data cfg df.
Proof.
  intros Ho Hf. rewrite !clean_data_filters by done. cbn [has_quotes bars].
  f_equal.
  destruct (PrimFloat.ltb 0 (min_volume_threshold cfg)).
  - rewrite (filter_all _ (List.filter _ (List.filter _ (bars df)))).
    + apply filter_all, filter_Forall.
    + apply filter_filter_all, filter_Forall.
  - apply filter_all, filter_Forall.
Qed.





End DataProcessorFacts.

(** ** data_processor.py: the scenarios *)

Section DataProcessorExamples.
Import HistoricalDataProcessor Scenarios.

Lemma log1p_pattern_nan (x : float) :
  isna (log1p_pattern x) = isna x || PrimFloat.ltb x (-1)%float.
Proof.
  unfold log1p_pattern.
  destruct (isna x) eqn:Hx; simpl; [done|].
  destruct (PrimFloat.ltb x (-1)); simpl; [done|]. exact Hx.
Qed.

(** Fifty flat bars leave one enriched row, not none: the output length is
    not n - 50. *)
Lemma add_technical_indicators_counterexample :
  ¬ (∀ log1p : float → float,
       (∀ x, isna (log1p x) = isna x || PrimFloat.ltb x (-1)%float) →
       ∀ df : DataFrame,
         (50 <= length (bars df))%nat →
         length (_add_technical_indicators log1p df)
         = (length (bars df) - 50)%nat).
Proof.
  intros H.
  specialize (H log1p_pattern log1p_pattern_nan (flat_series 50)).
  vm_compute in H. specialize (H (le_n 50)). discriminate.
Qed.

Lemma add_technical_indicators_warmup_witness :
  length (_add_technical_indicators log1p_pattern (flat_series 50)) = 1%nat.
Proof.
  apply (add_technical_indicators_warmup log1p_pattern (flat_series 50)).
  vm_compute. repeat constructor.
Defined.

(** Cleaning is not idempotent: the clip bounds are recomputed from the
    clipped column, so the second cleaning lowers the outlier again. *)
Lemma clean_data_counterexample :
  _clean_data default_config (_clean_data default_config spike_series)
  ≠ _clean_data default_config spike_series.
Proof.
  intros H.
  assert (Hlt : PrimFloat.ltb
                  (close_at 10 (_clean_data default_config
                                  (_clean_data default_config spike_series)))
                  (close_at 10 (_clean_data default_config spike_series))
                = true) by (vm_compute; reflexivity).
  rewrite H in Hlt. vm_compute in Hlt. discriminate.
Qed.

(** Gap filling alone is not idempotent either: a gap of seven is filled
    five deep by the first cleaning and to the end by the second. *)
Lemma clean_data_fill_not_idempotent :
  map (fun b => isna (b_close b)) (bars (_clean_data fill_only gap_series))
  = [false; false; false; false; false; false; true; true]
  ∧ map (fun b => isna (b_close b))
      (bars (_clean_data fill_only (_clean_data fill_only gap_series)))
    = [false; false; false; false; false; false; false; false].
Proof. split; vm_compute; reflexivity. Qed.

Lemma clean_data_idempotent_witness :
  _clean_data filters_only (_clean_data filters_only spike_series)
  = _clean_data filters_only spike_series.
Proof.
  apply (clean_data_idempotent_without_clip_and_fill filters_only spike_series);
    reflexivity.
Defined.


End DataProcessorExamples.

(** * Further properties of the code *)

(** ** Floats *)

Section FloatFacts.

Lemma SFcompare_refl (s : spec_float) :
  SFcompare s s = Some Eq ∨ SFcompare s s = None.
Proof.
  destruct s as [b|b| |b m e]; simpl; auto.
  - destruct b; auto.
  - rewrite Z.compare_refl, Pos.compare_cont_refl. destruct b; auto.
Qed.

Lemma ltb_irrefl (x : float) : PrimFloat.ltb x x = false.
Proof.
  rewrite FloatAxioms.ltb_spec. unfold SFltb.
  by destruct (SFcompare_refl (Prim2SF x)) as [-> | ->].
Qed.

Lemma notna_eqb (x : float) : notna x = true → PrimFloat.eqb x x = true.
Proof.
  unfold notna, isna, PrimFloat.is_nan. by destruct (PrimFloat.eqb x x).
Qed.

(** What passes the test [x <= 0] as false is above zero, or not a
    number. *)
Lemma leb_zero_false (x : float) :
  PrimFloat.leb x 0%float = false →
  PrimFloat.ltb 0%float x = true ∨ isna x = true.
Proof.
  unfold isna, PrimFloat.is_nan.
  rewrite FloatAxioms.leb_spec, FloatAxioms.ltb_spec, FloatAxioms.eqb_spec.
  assert (H0 : Prim2SF 0%float = S754_zero false) by (vm_compute; reflexivity).
  rewrite H0. unfold SFleb, SFltb, SFeqb.
  destruct (Prim2SF x) as [s|s| |s m e]; simpl; try done; auto.
  - destruct s; [done|auto].
  - destruct s; [done|auto].
Qed.

End FloatFacts.

Section StrategyExtras.
Import MomentumStrategy.

Lemma shift_length k xs : length (pd.shift k xs) = length xs.
Proof. unfold pd.shift. rewrite length_take, length_app, length_replicate. lia. Qed.

Lemma diff_length xs : length (pd.diff xs) = length xs.
Proof. unfold pd.diff. rewrite length_zip_with, shift_length. lia. Qed.

(** On a constant series the recurrence stays where it is: on the constant,
    or on the missing value. *)
Lemma ewm_from_constant alpha p n : ∀ w,
  pd.ewm_from alpha (p, w) (replicate n p) = replicate n p.
Proof.
  induction n as [|n IH]; intros w; simpl; [done|].
  unfold pd.ewm_step. destruct (notna p) eqn:Hp.
  - rewrite (notna_eqb p Hp). simpl. by rewrite IH.
  - simpl. by rewrite IH.
Qed.

(** The average of a constant series is constant: the value itself, or
    the missing value when it is infinite. *)
Lemma ewm_mean_constant (p span : float) (n : nat) :
  PrimFloat.ltb span 1%float = false →
  pd.ewm_mean span (replicate n p) = Return (replicate n (pd.inf_to_nan p)).
Proof.
  intros Hs. unfold pd.ewm_mean, pd.prep_values. rewrite Hs.
  destruct n; simpl; [done|]. fold (replicate n p).
  assert (Hr : map pd.inf_to_nan (replicate n p) = replicate n (pd.inf_to_nan p))
    by (clear; induction n as [|n IH]; simpl; [done|by rewrite IH]).
  by rewrite Hr, ewm_from_constant.
Qed.

Lemma zip_rows_lookup bs : ∀ se le sg ch i row,
  zip_rows bs se le sg ch !! i = Some row →
  bs !! i = Some (bar row)
  ∧ se !! i = Some (short_ema row)
  ∧ le !! i = Some (long_ema row)
  ∧ sg !! i = Some (signal row)
  ∧ ch !! i = Some (signal_change row).
Proof.
  induction bs as [|b bs IH]; intros se le sg ch i row; [done|].
  destruct se, le, sg, ch; try done. simpl.
  destruct i as [|i]; simpl.
  - by intros [= <-].
  - apply IH.
Qed.

Lemma shift_lookup_S xs i :
  (S i < length xs)%nat → pd.shift 1 xs !! S i = xs !! i.
Proof.
  intros Hi. unfold pd.shift. simpl.
  destruct xs as [|x xs]; [simpl in Hi; lia|].
  simpl. rewrite lookup_take_lt by (simpl in Hi; lia). done.
Qed.

Lemma diff_lookup_S xs i x y :
  xs !! S i = Some x → xs !! i = Some y →
  pd.diff xs !! S i = Some (x - y)%float.
Proof.
  intros Hx Hy. unfold pd.diff.
  rewrite lookup_zip_with, Hx. simpl.
  rewrite shift_lookup_S by (by apply lookup_lt_Some in Hx). by rewrite Hy.
Qed.


Lemma signal_of_same (p : float) : signal_of p p = 0%float.
Proof. unfold signal_of. by rewrite ltb_irrefl. Qed.

(** On a flat series every bar after the first has a zero signal change. *)
Lemma generate_signals_flat (st : MomentumStrategy.t) (data : DataFrame)
    (p : float) sf i row :
  Forall (fun b => b_close b = p) (bars data) → notna p = true →
  generate_signals st data = Return sf →
  sf_rows sf !! S i = Some row →
  signal_change row = 0%float.
Proof.
  intros Hflat Hp. unfold generate_signals.
  assert (Hc : map b_close (bars data) = replicate (length (bars data)) p).
  { induction Hflat as [|b l Hb _ IH]; simpl; [done|]. by rewrite Hb, IH. }
  rewrite Hc. set (n := length (bars data)).
  destruct (PrimFloat.ltb (short_ema_period (params st)) 1) eqn:Hs.
  { unfold calculate_ema, pd.ewm_mean. by rewrite Hs. }
  destruct (PrimFloat.ltb (long_ema_period (params st)) 1) eqn:Hl.
  { unfold calculate_ema at 1. rewrite ewm_mean_constant by done.
    cbn [outcome_bind].
    unfold calculate_ema, pd.ewm_mean. by rewrite Hl. }
  unfold calculate_ema. rewrite !ewm_mean_constant by done. cbn [outcome_bind].
  intros [= <-]. cbn [sf_rows]. intros Hrow.
  apply zip_rows_lookup in Hrow as (_ & _ & _ & _ & Hch).
  assert (Hsg : zip_with signal_of (replicate n (pd.inf_to_nan p))
                  (replicate n (pd.inf_to_nan p))
                = replicate n 0%float).
  { clear. induction n as [|k IH]; simpl; [done|].
    by rewrite signal_of_same, IH. }
  rewrite Hsg in Hch.
  assert (Hi : (S i < n)%nat).
  { apply lookup_lt_Some in Hch. by rewrite diff_length, length_replicate in Hch. }
  rewrite (diff_lookup_S _ i 0%float 0%float) in Hch.
  - by injection Hch as <-.
  - apply lookup_replicate. split; [done|lia].
  - apply lookup_replicate. split; [done|lia].
Qed.
End StrategyExtras.

Section FlatRun.
Import BacktestingEngine BacktestRun.
Variable float_pow : float → float → float.

(** Bars that emit no intent leave the loop variables and the engine as
    they are. *)
Lemma loop_without_intents sf l : ∀ ls (e : BacktestingEngine.t) c,
  current_position ls = None →
  Forall (fun i => (i < length (MomentumStrategy.sf_rows sf))%nat
                   ∧ MomentumStrategy.get_trade_signal (strategy e) sf i
                     = Return None) l →
  foldM (loop_body sf) l ls e c = (Return ls, e, c).
Proof.
  induction l as [|i l IH]; intros ls e c Hp Hl; simpl; [done|].
  apply Forall_cons in Hl as [[Hi Hsig] Hl].
  unfold bind.
  destruct (loop_body_flat sf ls i e c Hp) as (rm' & c' & -> & _).
  unfold flat_step. rewrite Hsig.
  destruct (lookup_lt_is_Some_2 _ _ Hi) as [row Hrow].
  unfold MomentumStrategy.iloc. rewrite Hrow. by apply IH.
Qed.

(** X2.  A series whose closes are all one and the same number produces
    no trade: for EMA periods of at least 1 the run returns with an empty
    ledger and no equity curve, having changed nothing on the engine but the
    reset of ledger and curve, and without reading the clock. *)
Theorem run_backtest_flat_series
    (data : DataFrame) (p : float) (e : BacktestingEngine.t) (c : Clock) :
  Forall (fun b => b_close b = p) (bars data) →
  notna p = true →
  PrimFloat.ltb (MomentumStrategy.short_ema_period
                   (MomentumStrategy.params (strategy e))) 1%float = false →
  PrimFloat.ltb (MomentumStrategy.long_ema_period
                   (MomentumStrategy.params (strategy e))) 1%float = false →
  ∃ r, run_backtest float_pow data e c = (Return r, start e, c)
       ∧ r_trades r = []
       ∧ r_equity_curve r = None.
Proof.
  intros Hflat Hp Hs Hl. rewrite run_backtest_unfold.
  destruct (generate_signals_valid (strategy e) data Hs Hl) as (sf & Hsf).
  rewrite Hsf.
  rewrite (loop_without_intents sf _ (ls0 e) (start e) c); [|done|].
  - rewrite finish_flat by done. eexists. split; [reflexivity|]. done.
  - apply Forall_forall. intros i Hi%elem_of_seq. split; [lia|].
    destruct i as [|i]; [lia|].
    unfold MomentumStrategy.get_trade_signal. simpl.
    destruct (lookup_lt_is_Some_2 (MomentumStrategy.sf_rows sf) (S i)) as [row Hrow];
      [lia|].
    unfold MomentumStrategy.iloc. rewrite Hrow. simpl.
    by rewrite (generate_signals_flat (strategy e) data p sf i row).
Qed.
End FlatRun.

(** ** engine.py: runs and searches *)

Section EngineExtras.
Import BacktestingEngine BacktestRun.

Variable float_pow : float → float → float.

(** X3.  The grid search never selects anything: whenever
    [optimize_strategy] returns, it returns no best parameters and no best
    results, because a completed run has empty performance metrics and the
    score of every trial is the default minus infinity, which is not above
    the initial best score. *)
Theorem optimize_strategy_selects_nothing
    (data : DataFrame) (parameter_ranges : list (string * list float))
    (metric : string) (e : BacktestingEngine.t) (c : Clock) :
  match (optimize_strategy float_pow data parameter_ranges metric e c).1.1 with
  | Return res => res = ([], None)
  | Raise x => True
  end.
Proof.
  rewrite optimize_strategy_unfold.
  destruct (foldM _ _ _ e c) as [[r e1] c1] eqn:Hf.
  apply trials_carried in Hf as (_ & _ & Hbest); [|done].
  destruct r as [b|x]; [|done]. simpl.
  by rewrite (Hbest b eq_refl).
Qed.

(** X4.  A run starts from a clean slate: the ledger and the equity
    curve left on the engine by an earlier run (or put there by hand) have no
    effect on the outcome, the final engine state or the clock. *)
Theorem run_backtest_forgets_previous_run
    (data : DataFrame) (e : BacktestingEngine.t) (c : Clock)
    (ledger : list Trade.t) (curve : option Series) :
  run_backtest float_pow data (set_equity_curve curve (set_trades ledger e)) c
  = run_backtest float_pow data e c.
Proof. by rewrite !run_backtest_unfold. Qed.

Lemma execute_trade_fields (e : BacktestingEngine.t) ty price ts cap pos :
  _execute_trade e ty price ts cap = Some pos →
  Trade.type pos = ty
  ∧ Trade.status pos = "open"
  ∧ Trade.entry_time pos = ts
  ∧ Trade.exit_time pos = None
  ∧ Trade.realized_pnl pos = None
  ∧ PrimFloat.leb (Trade.size pos) 0%float = false.
Proof.
  unfold _execute_trade.
  destruct (_calculate_position_size e cap price ty) as [sz adj].
  destruct (PrimFloat.leb sz 0) eqn:Hsz; [done|].
  intros [= <-]. simpl. done.
Qed.

Lemma spec_validate_np_returns (rm : RiskManager.t) size price stop take :
  ∃ v, RiskGateSpec.validate NpFloat64 rm size price stop take = Return v.
Proof.
  unfold RiskGateSpec.validate, RiskGateSpec.check_order. simpl.
  repeat (match goal with
          | |- context [if ?b then _ else _] => destruct b; simpl
          end; eauto).
Qed.

(** The state a loop without open position hands on. *)
Lemma flat_step_result sf ls i (e : BacktestingEngine.t) c rm' c' r e1 c1 :
  current_position ls = None →
  flat_step sf ls i e c rm' c' = (r, e1, c1) →
  match r with
  | Raise x => x = IndexError ∧ MomentumStrategy.iloc sf i = Raise IndexError
  | Return ls1 =>
      ∃ row, MomentumStrategy.iloc sf i = Return row
             ∧ match current_position ls1 with
               | None => True
               | Some pos =>
                   Trade.entry_time pos = b_time (MomentumStrategy.bar row)
                   ∧ Trade.status pos = "open"
                   ∧ PrimFloat.leb (Trade.size pos) 0%float = false
               end
  end.
Proof.
  intros Hp. unfold flat_step.
  destruct (MomentumStrategy.iloc sf i) as [row|x] eqn:Hi.
  2:{ intros [= <- <- <-]. unfold MomentumStrategy.iloc in Hi.
      destruct (_ !! i); [done|]. by injection Hi as <-. }
  unfold MomentumStrategy.get_trade_signal.
  destruct (i <? 1)%nat.
  { intros [= <- <- <-]. exists row. by rewrite Hp. }
  rewrite Hi. simpl.
  match goal with
  | |- context [match ?x with Some _ => _ | None => _ end] =>
      destruct x as [sig|]
  end.
  2:{ intros [= <- <- <-]. exists row. by rewrite Hp. }
  match goal with
  | |- context [RiskGateSpec.validate NpFloat64 ?a ?b ?c0 ?d ?f] =>
      destruct (spec_validate_np_returns a b c0 d f) as (v & ->)
  end.
  intros [= <- <- <-]. exists row. split; [done|].
  destruct v.1; [|by rewrite Hp].
  destruct (_execute_trade _ _ _ _ _) as [pos|] eqn:He; [|by rewrite Hp].
  simpl. apply execute_trade_fields in He as (_ & ? & ? & _ & _ & ?). done.
Qed.

(** A position that survives the loop was opened by its last iteration. *)
Lemma loop_open_at_end sf l : ∀ ls (e e' : BacktestingEngine.t) c c' ls' pos,
  current_position ls = None →
  equity_curve e = None → equity_history ls ≠ [] →
  foldM (loop_body sf) l ls e c = (Return ls', e', c') →
  current_position ls' = Some pos →
  ∃ l0 i row,
    l = l0 ++ [i]
    ∧ MomentumStrategy.iloc sf i = Return row
    ∧ Trade.entry_time pos = b_time (MomentumStrategy.bar row)
    ∧ Trade.status pos = "open"
    ∧ PrimFloat.leb (Trade.size pos) 0%float = false.
Proof.
  induction l as [|i l IH]; intros ls e e' c c' ls' pos Hp He Hh; simpl.
  - intros [= <- <- <-] Hpos. congruence.
  - unfold bind.
    destruct (loop_body sf ls i e c) as [[r1 e1] c1] eqn:Hb.
    pose proof (loop_body_flat_stable sf ls i e e1 c c1 r1 Hp Hb)
      as ((_&_&_&He1&_) & _ & Heh).
    destruct (loop_body_flat sf ls i e c Hp) as (rm' & c2 & Hfs & _).
    rewrite Hfs in Hb. apply flat_step_result in Hb; [|done].
    destruct r1 as [ls1|x]; [|done].
    destruct Hb as (row & Hrow & Hpos1).
    destruct (current_position ls1) as [p1|] eqn:Hp1.
    + destruct l as [|j l].
      * simpl. intros [= <- <- <-] Hpos. rewrite Hp1 in Hpos.
        injection Hpos as <-. exists [], i, row. by destruct Hpos1 as (?&?&?).
      * simpl. unfold bind.
        rewrite (loop_body_open sf ls1 j e1 c1 p1); [done|done|congruence|].
        by rewrite (Heh ls1).
    + intros Hf Hpos.
      destruct (IH ls1 e1 e' c1 c' ls' pos) as (l0 & k & row' & -> & ?);
        [done|congruence|by rewrite (Heh ls1)|done|done|].
      by exists (i :: l0), k, row'.
Qed.

Lemma close_trade_fields x t (pos : Trade.t) c :
  ∃ tr, Trade.close_trade x (Some t) pos c = (Return tt, tr, tick c)
        ∧ Trade.status tr = "closed"
        ∧ Trade.entry_time tr = Trade.entry_time pos
        ∧ Trade.exit_time tr = Some t
        ∧ Trade.exit_price tr = Some x
        ∧ Trade.size tr = Trade.size pos.
Proof.
  unfold Trade.close_trade, mbind, M_bind, bind, mret, M_ret, ret, get, now, put.
  cbv beta iota. eexists. split; [reflexivity|]. done.
Qed.

Lemma finish_open_fields sf ls (e : BacktestingEngine.t) c pos row :
  equity_curve e = None → current_position ls = Some pos →
  last (MomentumStrategy.sf_rows sf) = Some row →
  ∃ tr, finish float_pow sf ls e c
        = (Return (empty_result (trades e ++ [tr]) e),
           set_trades (trades e ++ [tr]) e, tick c)
        ∧ Trade.status tr = "closed"
        ∧ Trade.entry_time tr = Trade.entry_time pos
        ∧ Trade.exit_time tr = Some (b_time (MomentumStrategy.bar row))
        ∧ Trade.size tr = Trade.size pos.
Proof.
  intros He Hp Hlast. unfold finish. rewrite Hp, Hlast.
  rewrite bind_run. rewrite bind_run. unfold lift_outcome at 1.
  cbv beta iota. rewrite bind_run. unfold get at 1. cbv beta iota.
  rewrite bind_run. unfold on_object at 1.
  match goal with
  | |- context [Trade.close_trade ?x (Some ?t) pos c] =>
      destruct (close_trade_fields x t pos c) as (tr & -> & Hst & Het & Hex & _ & Hsz)
  end.
  unfold outcome_map, outcome_bind. cbv beta iota.
  unfold modify at 1. cbv beta iota.
  rewrite bind_run. unfold get at 1. cbv beta iota.
  rewrite bind_run. unfold lift_outcome at 1.
  rewrite calculate_metrics_None by done. cbv beta iota.
  unfold empty_result, echo, set_trades.
  cbn [trades equity_curve strategy params risk_manager snd fst]. rewrite He.
  exists tr. done.
Qed.

Lemma ewm_from_length alpha st xs : length (pd.ewm_from alpha st xs) = length xs.
Proof. revert st; induction xs as [|x xs IH]; intros st; simpl; [done|]. by rewrite IH. Qed.

Lemma ewm_mean_length span xs ys :
  pd.ewm_mean span xs = Return ys → length ys = length xs.
Proof.
  unfold pd.ewm_mean, pd.prep_values. destruct (PrimFloat.ltb span 1); [done|].
  destruct xs as [|x xs]; intros [= <-]; simpl; [done|].
  by rewrite ewm_from_length, length_map.
Qed.

Lemma zip_rows_bars bs : ∀ se le sg ch,
  length se = length bs → length le = length bs →
  length sg = length bs → length ch = length bs →
  map MomentumStrategy.bar (MomentumStrategy.zip_rows bs se le sg ch) = bs.
Proof.
  induction bs as [|b bs IH]; intros se le sg ch H1 H2 H3 H4; [done|].
  destruct se, le, sg, ch; simpl in *; try lia.
  f_equal. apply IH; lia.
Qed.

(** The signal frame has the bars of the input, in order. *)
Lemma generate_signals_bars (st : MomentumStrategy.t) (data : DataFrame) sf :
  MomentumStrategy.generate_signals st data = Return sf →
  map MomentumStrategy.bar (MomentumStrategy.sf_rows sf) = bars data.
Proof.
  unfold MomentumStrategy.generate_signals, MomentumStrategy.calculate_ema.
  destruct (pd.ewm_mean (MomentumStrategy.short_ema_period _) _)
    as [se|] eqn:Hse; [|done]. simpl.
  destruct (pd.ewm_mean (MomentumStrategy.long_ema_period _) _)
    as [le|] eqn:Hle; [|done]. simpl.
  intros [= <-]. simpl.
  apply ewm_mean_length in Hse, Hle. rewrite length_map in Hse, Hle.
  apply zip_rows_bars; try done.
  - rewrite length_zip_with. lia.
  - rewrite diff_length, length_zip_with. lia.
Qed.

(** X5.  The ledger of a run that returns holds at most one trade, and
    that trade was entered on the last bar and force-closed on it: closed
    status, entry and exit time both the last bar's timestamp; its size
    passed the test [size <= 0] as false, so it is above zero or not a number
    (a NaN size is not refused); it is not active and its duration is 0
    seconds.  (A position still open on a later bar makes the run raise.) *)
Theorem run_backtest_ledger
    (data : DataFrame) (e : BacktestingEngine.t) (c : Clock) :
  match (run_backtest float_pow data e c).1.1 with
  | Return r =>
      r_trades r = []
      ∨ ∃ tr final,
          r_trades r = [tr]
          ∧ last (bars data) = Some final
          ∧ Trade.status tr = "closed"
          ∧ Trade.entry_time tr = b_time final
          ∧ Trade.exit_time tr = Some (b_time final)
          ∧ PrimFloat.leb (Trade.size tr) 0%float = false
          ∧ (PrimFloat.ltb 0%float (Trade.size tr) = true
             ∨ isna (Trade.size tr) = true)
          ∧ TradeMethods.is_active tr = false
          ∧ TradeMethods.duration tr = Some 0%float
  | Raise x => True
  end.
Proof.
  rewrite run_backtest_unfold.
  destruct (MomentumStrategy.generate_signals _ _) as [sf|x] eqn:Hsf; [|done].
  apply generate_signals_bars in Hsf.
  destruct (foldM _ _ _ _ _) as [[r1 e1] c1] eqn:Hf.
  pose proof Hf as Hf'.
  apply loop_fold_stable in Hf' as ((_&_&Htr&He1&_) & _ & _); [|done..].
  simpl in Htr, He1.
  destruct r1 as [ls|x]; [|done].
  destruct (current_position ls) as [pos|] eqn:Hp.
  - apply (loop_open_at_end sf _ _ _ _ _ _ _ pos) in Hf
      as (l0 & i & row & Hl & Hrow & Hent & _ & Hsz); [|done..].
    assert (Hlast : last (MomentumStrategy.sf_rows sf) = Some row).
    { assert (Hi : last (seq 1 (length (MomentumStrategy.sf_rows sf) - 1)) = Some i)
        by (rewrite Hl; apply last_snoc).
      rewrite last_lookup, length_seq in Hi.
      apply lookup_seq in Hi as [-> Hlt].
      rewrite last_lookup.
      unfold MomentumStrategy.iloc in Hrow.
      destruct (MomentumStrategy.sf_rows sf !! _) as [row'|] eqn:Hr; [|done].
      injection Hrow as ->. rewrite <- Hr. f_equal. lia. }
    destruct (finish_open_fields sf ls e1 c1 pos row He1 Hp Hlast)
      as (tr & -> & Hst & Het & Hex & Hsz').
    cbn [fst]. right. rewrite Htr. simpl.
    exists tr, (MomentumStrategy.bar row).
    split; [done|]. split.
    { rewrite <- Hsf, fmap_last, Hlast. done. }
    split; [done|]. split; [congruence|]. split; [done|].
    split; [congruence|].
    split; [apply leb_zero_false; congruence|].
    unfold TradeMethods.is_active, TradeMethods.duration.
    rewrite Hst, Hex, Het, Hent, Z.sub_diag. done.
  - rewrite finish_flat by done. cbn [fst]. left. by rewrite Htr.
Qed.

Lemma iloc_in_range sf i :
  (i < length (MomentumStrategy.sf_rows sf))%nat →
  ∃ row, MomentumStrategy.iloc sf i = Return row.
Proof.
  intros Hi. unfold MomentumStrategy.iloc.
  destruct (lookup_lt_is_Some_2 _ _ Hi) as [row ->]. eauto.
Qed.

Lemma loop_raises_ValueError sf l : ∀ ls (e e' : BacktestingEngine.t) c c' x,
  Forall (fun i => (i < length (MomentumStrategy.sf_rows sf))%nat) l →
  equity_curve e = None → equity_history ls ≠ [] →
  foldM (loop_body sf) l ls e c = (Raise x, e', c') →
  x = ValueError.
Proof.
  induction l as [|i l IH]; intros ls e e' c c' x Hl He Hh; simpl; [done|].
  apply Forall_cons in Hl as [Hi Hl].
  destruct (iloc_in_range sf i Hi) as (row & Hrow).
  unfold bind.
  destruct (current_position ls) as [pos|] eqn:Hp.
  - rewrite (loop_body_open sf ls i e c pos) by done.
    unfold iloc_fail. rewrite Hrow. by intros [= <- <- <-].
  - destruct (loop_body sf ls i e c) as [[r1 e1] c1] eqn:Hb.
    pose proof (loop_body_flat_stable sf ls i e e1 c c1 r1 Hp Hb)
      as ((_&_&_&He1&_) & _ & Heh).
    destruct (loop_body_flat sf ls i e c Hp) as (rm' & c2 & Hfs & _).
    rewrite Hfs in Hb. apply flat_step_result in Hb; [|done].
    destruct r1 as [ls1|y].
    + apply IH; [done|congruence|by rewrite (Heh ls1)].
    + destruct Hb as [_ Hb]. congruence.
Qed.

Lemma generate_signals_raises (st : MomentumStrategy.t) (data : DataFrame) x :
  MomentumStrategy.generate_signals st data = Raise x → x = ValueError.
Proof.
  unfold MomentumStrategy.generate_signals, MomentumStrategy.calculate_ema,
    pd.ewm_mean.
  destruct (PrimFloat.ltb (MomentumStrategy.short_ema_period _) _);
    [by intros [= <-]|].
  destruct (PrimFloat.ltb (MomentumStrategy.long_ema_period _) _);
    destruct (map b_close (bars data)); simpl; by intros [= <-].
Qed.

(** X6.  On an engine whose risk manager has recorded no trade, the only
    exception a run raises is [ValueError] (from an EMA period below 1 or
    from the equity curve): its row accesses stay in range, the admission
    check on numpy floats does not raise, and the daily reset has no history
    entry to compare.  (The run itself records nothing with the risk
    manager.  Entries recorded beforehand are another matter: an update
    dictionary may carry a "timestamp" of its own, and one that is no
    datetime makes the reset fail.) *)
Theorem run_backtest_raises_only_ValueError
    (data : DataFrame) (e : BacktestingEngine.t) (c : Clock) :
  RiskManager.trade_history (risk_manager e) = [] →
  match (run_backtest float_pow data e c).1.1 with
  | Return r => True
  | Raise x => x = ValueError
  end.
Proof.
  intros _. rewrite run_backtest_unfold.
  destruct (MomentumStrategy.generate_signals _ _) as [sf|y] eqn:Hsf.
  2:{ cbn [fst]. by apply generate_signals_raises in Hsf. }
  destruct (foldM _ _ _ _ _) as [[r1 e1] c1] eqn:Hf.
  destruct r1 as [ls|y].
  - pose proof Hf as Hf'.
    apply loop_fold_stable in Hf' as ((_&_&_&He1&_) & _ & _); [|done..].
    simpl in He1.
    destruct (current_position ls) as [pos|] eqn:Hp.
    + apply (loop_open_at_end sf _ _ _ _ _ _ _ pos) in Hf
        as (l0 & i & row & _ & Hrow & _); [|done..].
      pose proof (finish_open float_pow sf ls e1 c1 pos He1 Hp) as Hfin.
      destruct (last (MomentumStrategy.sf_rows sf)) as [row'|] eqn:Hlast.
      * destruct Hfin as (tr & ->). done.
      * apply last_None in Hlast. unfold MomentumStrategy.iloc in Hrow.
        by rewrite Hlast in Hrow.
    + by rewrite finish_flat.
  - cbn [fst].
    apply loop_raises_ValueError in Hf; [done| |done..].
    apply Forall_forall. intros i Hi%elem_of_seq. lia.
Qed.

End EngineExtras.

Section EngineExtrasExamples.
Import BacktestingEngine BacktestRun Scenarios.

Lemma run_backtest_flat_series_witness :
  ∃ r, run_backtest any_pow (flat_series 5) scenario_engine clock_1h
       = (Return r, start scenario_engine, clock_1h)
       ∧ r_trades r = []
       ∧ r_equity_curve r = None.
Proof.
  apply (run_backtest_flat_series any_pow (flat_series 5) 110%float
           scenario_engine clock_1h).
  - repeat constructor.
  - reflexivity.
  - vm_compute. reflexivity.
  - vm_compute. reflexivity.
Defined.

Lemma run_backtest_raises_only_ValueError_witness :
  match (run_backtest any_pow scenario_series scenario_engine clock_1h).1.1 with
  | Return r => True
  | Raise x => x = ValueError
  end.
Proof.
  apply (run_backtest_raises_only_ValueError any_pow scenario_series
           scenario_engine clock_1h).
  vm_compute. reflexivity.
Defined.

(** Both outcomes of a run occur: the scenario cut after bar 30 returns a
    ledger of one trade, entered and closed on bar 30; one bar more and the
    run raises. *)
Lemma run_backtest_ledger_example :
  outcome_map
    (fun r => map (fun tr => (Trade.status tr, Trade.entry_time tr,
                              Trade.exit_time tr)) (r_trades r))
    (run_backtest any_pow (mkFrame false (take 31 (bars scenario_series)))
       scenario_engine clock_1h).1.1
  = Return [("closed", 30 * MINUTE, Some (30 * MINUTE))].
Proof. vm_compute. reflexivity. Qed.

(** A trade of a size that is not a number: with a NaN initial capital the
    admission check and the size test both let the intent through. *)
Lemma run_backtest_nan_size_example :
  outcome_map
    (fun r => map (fun tr => (Trade.status tr, isna (Trade.size tr)))
                (r_trades r))
    (run_backtest any_pow (mkFrame false (take 31 (bars scenario_series)))
       Examples.nan_engine clock_1h).1.1
  = Return [("closed", true)].
Proof. vm_compute. reflexivity. Qed.

End EngineExtrasExamples.

(** ** risk_manager.py: the books *)

Section RiskManagerExtras.
Import RiskManager.

Lemma history_filter_sublist (l : list HistoryEntry) (rm : t) (c : Clock) :
  ∃ kept,
    filterM (fun trade : HistoryEntry =>
               n' ← now; mret (n' - DAY <? he_timestamp trade)) l rm c
    = (Return kept, rm, tick_n (length l) c)
    ∧ sublist kept l.
Proof.
  revert c; induction l as [|e l IH]; intros c; simpl.
  - by exists [].
  - destruct (IH (tick c)) as (kept & Hk & Hs).
    unfold bind at 1. rewrite bind_run. unfold now at 1. simpl.
    unfold bind at 1. rewrite Hk. simpl.
    eexists; split; [reflexivity|].
    destruct (_ <? _); by constructor.
Qed.

(** X7.  Whatever the clock and the verdict, an admission check never
    changes the risk parameters or the open positions and never adds to the
    trade history: the history afterwards is a sub-sequence of the one
    before, and the daily P&L is either untouched or reset to 0. *)
Theorem validate_trade_frame
    (k : fkind) (ty : string) (size price stop take : float)
    (rm : RiskManager.t) (c : Clock) :
  let rm' := (validate_trade k ty size price stop take rm c).1.2 in
  params rm' = params rm
  ∧ open_positions rm' = open_positions rm
  ∧ sublist (trade_history rm') (trade_history rm)
  ∧ (daily_pnl rm' = daily_pnl rm ∨ daily_pnl rm' = 0%float).
Proof.
  destruct (validate_trade_run k ty size price stop take rm c)
    as (rm1 & c1 & Hr & Hv).
  rewrite Hv. cbn [fst snd]. clear Hv.
  revert Hr. unfold reset_daily_metrics. rewrite bind_run. unfold now at 1.
  rewrite bind_run. unfold get at 1.
  destruct (DAY <? _).
  - rewrite bind_run. unfold modify at 1. rewrite bind_run.
    destruct (history_filter_sublist (trade_history rm) (set_daily_pnl 0 rm) (tick c))
      as (kept & Hk & Hs).
    simpl trade_history in Hk. rewrite Hk.
    rewrite bind_run. unfold modify at 1. rewrite bind_run. unfold now at 1.
    unfold modify. intros [= <- <-]. simpl. auto.
  - intros [= <- <-]. auto.
Qed.

(** One call of [update_position]: it never raises, reads the clock once
    and appends one entry to the history, whatever the update. *)
Lemma update_position_run (id : string) (u : PositionUpdate) (rm : t) (c : Clock) :
  ∃ rm',
    update_position id u rm c = (Return tt, rm', tick c)
    ∧ params rm' = params rm
    ∧ last_reset rm' = last_reset rm
    ∧ trade_history rm'
      = trade_history rm ++ [mkHistoryEntry id (reading c (ticks c)) u]
    ∧ open_positions rm'
      = (if decide (pu_status u = Some "closed")
         then delete id (open_positions rm)
         else <[id := u]> (open_positions rm))
    ∧ daily_pnl rm'
      = (if decide (pu_status u = Some "closed")
         then match open_positions rm !! id with
              | Some _ => (daily_pnl rm + default 0 (pu_realized_pnl u))%float
              | None => daily_pnl rm
              end
         else daily_pnl rm).
Proof.
  unfold update_position. rewrite bind_run. unfold get at 1.
  destruct (decide (pu_status u = Some "closed")) as [Hc|Hc].
  - destruct (open_positions rm !! id) as [old|] eqn:Hid.
    + rewrite !bind_run. unfold modify, now. cbv beta iota.
      eexists. split; [reflexivity|]. by simpl.
    + rewrite !bind_run. unfold modify, now. cbv beta iota.
      eexists. split; [reflexivity|]. simpl.
      by rewrite delete_id.
  - rewrite !bind_run. unfold modify, now. cbv beta iota.
    eexists. split; [reflexivity|]. by simpl.
Qed.

(** X8.  Recording a position and then closing it under the same id: after
    the first call the position is found under the id; after the second no
    open position is left under it, the realized P&L of the closing update
    (0 when it carries none) is booked on the daily P&L, and the trade
    history has gained two entries, one carrying each update, in that
    order.  Each call reads the clock once. *)
Theorem update_position_open_then_close
    (id : string) (u u' : PositionUpdate) (rm : RiskManager.t) (c : Clock) :
  pu_status u ≠ Some "closed" →
  pu_status u' = Some "closed" →
  ∃ rm1 rm2,
    update_position id u rm c = (Return tt, rm1, tick c)
    ∧ open_positions rm1 !! id = Some u
    ∧ update_position id u' rm1 (tick c) = (Return tt, rm2, tick (tick c))
    ∧ open_positions rm2 = delete id (open_positions rm)
    ∧ daily_pnl rm2 = (daily_pnl rm + default 0 (pu_realized_pnl u'))%float
    ∧ map he_update (trade_history rm2)
      = map he_update (trade_history rm) ++ [u; u'].
Proof.
  intros Hu Hu'.
  destruct (update_position_run id u rm c) as (rm1 & H1 & _ & _ & Hh1 & Ho1 & Hp1).
  destruct (update_position_run id u' rm1 (tick c))
    as (rm2 & H2 & _ & _ & Hh2 & Ho2 & Hp2).
  destruct (decide (pu_status u = Some "closed")); [done|].
  destruct (decide (pu_status u' = Some "closed")); [|done].
  exists rm1, rm2.
  assert (Hl : open_positions rm1 !! id = Some u).
  { rewrite Ho1. apply lookup_insert_eq. }
  rewrite Hl in Hp2.
  split; [done|]. split; [done|]. split; [done|].
  split; [|split].
  - rewrite Ho2, Ho1. apply delete_insert_eq.
  - by rewrite Hp2, Hp1.
  - rewrite Hh2, Hh1, !map_app, <- app_assoc. done.
Qed.

(** A sequence of updates: each one is recorded. *)
Lemma updates_run (us : list (string * PositionUpdate)) : ∀ (rm : t) (c : Clock),
  ∃ rm',
    foldM (fun (_ : unit) (iu : string * PositionUpdate) =>
             update_position iu.1 iu.2) us tt rm c
    = (Return tt, rm', tick_n (length us) c)
    ∧ params rm' = params rm
    ∧ last_reset rm' = last_reset rm
    ∧ length (trade_history rm') = (length (trade_history rm) + length us)%nat.
Proof.
  induction us as [|[id u] us IH]; intros rm c; simpl.
  - exists rm. split; [done|]. split; [done|]. split; [done|]. lia.
  - destruct (update_position_run id u rm c) as (rm1 & H1 & Hp1 & Hr1 & Hh1 & _).
    destruct (IH rm1 (tick c)) as (rm2 & H2 & Hp2 & Hr2 & Hh2).
    unfold bind. rewrite H1. exists rm2.
    split; [done|]. split; [congruence|]. split; [congruence|].
    rewrite Hh2, Hh1, length_app. simpl. lia.
Qed.

Lemma ticks_tick_n n c : ticks (tick_n n c) = (ticks c + n)%nat.
Proof.
  revert c; induction n as [|n IH]; intros c; simpl; [lia|].
  rewrite IH. simpl. lia.
Qed.

(** X9.  Every position update counts as a trade of the day, an opening
    as much as a closing one: once the updates recorded since the last reset
    reach [max_trades_per_day], the next admission check made within the
    same day is rejected with "Maximum daily trades exceeded", whatever the
    intent. *)
Theorem updates_count_as_daily_trades
    (k : fkind) (ty : string) (size price stop take : float)
    (us : list (string * PositionUpdate)) (rm : RiskManager.t) (c : Clock) :
  let run := foldM (fun (_ : unit) (iu : string * PositionUpdate) =>
                      update_position iu.1 iu.2) us tt rm c in
  reading c (ticks c + length us)%nat - last_reset rm <= DAY →
  max_trades_per_day (params rm)
    <= Z.of_nat (length (trade_history rm) + length us) →
  run.1.1 = Return tt
  ∧ (validate_trade k ty size price stop take run.1.2 run.2).1.1
    = Return (false, "Maximum daily trades exceeded").
Proof.
  intros run Hday Hmax. subst run.
  destruct (updates_run us rm c) as (rm' & -> & Hp & Hr & Hh).
  cbn [fst snd]. split; [done|].
  destruct (validate_trade_run k ty size price stop take rm' (tick_n (length us) c))
    as (rm1 & c1 & Hreset & ->).
  rewrite reset_not_due in Hreset.
  2:{ rewrite reading_tick_n, ticks_tick_n, Hr. done. }
  injection Hreset as <- <-. cbn [fst].
  unfold RiskGateSpec.validate, RiskGateSpec.check_order. simpl.
  rewrite Hp, Hh.
  destruct (Z.leb_spec (max_trades_per_day (params rm))
              (Z.of_nat (length (trade_history rm) + length us))); [done|lia].
Qed.

Lemma py_min_le (a b : float) : PrimFloat.ltb b (py_min a b) = false.
Proof.
  unfold py_min. destruct (PrimFloat.ltb b a) eqn:H; [|done].
  apply ltb_irrefl.
Qed.

(** X10.  The size the risk manager proposes is 0 or a size that is not
    above [max_position_size]; the only way the call fails is a division by
    a zero [volatility_threshold] on Python floats.  The price argument plays
    no part. *)
Theorem calculate_position_size_bounded
    (k : fkind) (rm : RiskManager.t) (capital price volatility : float) :
  match calculate_position_size k rm capital price volatility with
  | Return s =>
      (s = 0%float
       ∨ PrimFloat.ltb (max_position_size (params rm)) s = false)
      ∧ ∀ price', calculate_position_size k rm capital price' volatility
                  = Return s
  | Raise x =>
      x = ZeroDivisionError ∧ k = PyFloat
      ∧ PrimFloat.eqb (volatility_threshold (params rm)) 0%float = true
  end.
Proof.
  unfold calculate_position_size, truediv.
  destruct k.
  - destruct (PrimFloat.eqb (volatility_threshold (params rm)) 0) eqn:Hz;
      cbn [outcome_bind]; [done|].
    destruct (PrimFloat.ltb _ (min_trade_size (params rm))).
    + split; [by left|done].
    + split; [right; apply py_min_le|done].
  - cbn [outcome_bind].
    destruct (PrimFloat.ltb _ (min_trade_size (params rm))).
    + split; [by left|done].
    + split; [right; apply py_min_le|done].
Qed.

End RiskManagerExtras.

(** ** models/trade.py *)

Section TradeExtras.
Import Trade TradeMethods.

Lemma close_trade_run (tr : Trade.t) (x : float) (et : option Z) (c : Clock) :
  close_trade x et tr c
  = (Return tt,
     mkTrade (type tr) "closed" (symbol tr) (entry_price tr) (entry_time tr)
       (size tr) (Some x)
       (Some (default (reading c (ticks c)) et))
       (stop_loss tr) (take_profit tr)
       (Some ((if String.eqb (type tr) "sell"
               then - (x - entry_price tr) else x - entry_price tr)
              * size tr - fees_or_0 tr)%float)
       (fees tr) (strategy_name tr)
       (Some (match et with
              | Some _ => reading c (ticks c)
              | None => reading c (S (ticks c))
              end)),
     match et with Some _ => tick c | None => tick (tick c) end).
Proof.
  unfold close_trade, mbind, M_bind, bind, mret, M_ret, ret, get, now, put.
  destruct et; reflexivity.
Qed.

(** X11.  Closing an active trade books as realized P&L exactly the
    unrealized P&L quoted at the exit price just before; afterwards the
    trade is not active any more and its unrealized P&L is that realized
    figure at every price. *)
Theorem close_trade_books_unrealized_pnl
    (tr : Trade.t) (x : float) (et : option Z) (c : Clock) :
  is_active tr = true →
  let tr' := (close_trade x et tr c).1.2 in
  realized_pnl tr' = Some (calculate_unrealized_pnl tr x)
  ∧ is_active tr' = false
  ∧ ∀ price, calculate_unrealized_pnl tr' price = calculate_unrealized_pnl tr x.
Proof.
  intros Ha. rewrite close_trade_run. cbn [fst snd].
  unfold calculate_unrealized_pnl. rewrite Ha. cbn [negb realized_pnl].
  split; [done|]. split; [done|].
  intros price. unfold is_active. cbn [status]. done.
Qed.

(** X12.  [current_pnl] of a trade closed by [close_trade] is the
    realized P&L less the fees, although the realized P&L was already booked
    net of the same fees: the fees are subtracted twice. *)
Theorem current_pnl_subtracts_fees_again
    (tr : Trade.t) (x : float) (et : option Z) (c : Clock) :
  let tr' := (close_trade x et tr c).1.2 in
  let gross := ((if String.eqb (type tr) "sell"
                 then - (x - entry_price tr) else x - entry_price tr)
                * size tr)%float in
  realized_pnl tr' = Some (gross - fees_or_0 tr)%float
  ∧ current_pnl tr' = Some (gross - fees_or_0 tr - fees_or_0 tr)%float.
Proof.
  rewrite close_trade_run. cbn [fst snd]. unfold current_pnl.
  cbn [realized_pnl]. unfold fees_or_0. cbn [fees]. done.
Qed.

End TradeExtras.

(** ** strategy.py: signals, intents and exits *)

Section StrategyIntents.
Import MomentumStrategy.

Lemma signal_of_cases (s l : float) :
  signal_of s l = (-1)%float ∨ signal_of s l = 1%float ∨ signal_of s l = 0%float.
Proof.
  unfold signal_of. destruct (PrimFloat.ltb s l); [auto|].
  destruct (PrimFloat.ltb l s); auto.
Qed.

(** The change of a signal that did not move is not a crossover; one that
    is positive is a rise of the signal, one that is negative a fall. *)
Lemma signal_change_sign (x y : float) :
  (x = (-1)%float ∨ x = 1%float ∨ x = 0%float) →
  (y = (-1)%float ∨ y = 1%float ∨ y = 0%float) →
  (PrimFloat.ltb 0%float (x - y)%float = true → PrimFloat.ltb y x = true)
  ∧ (PrimFloat.ltb (x - y)%float 0%float = true → PrimFloat.ltb x y = true).
Proof.
  intros [->|[->| ->]] [->|[->| ->]]; split; vm_compute; intros H; done.
Qed.

Lemma generate_signals_rows (st : MomentumStrategy.t) (data : DataFrame) sf :
  generate_signals st data = Return sf →
  ∃ se le,
    calculate_ema (map b_close (bars data)) (short_ema_period (params st)) = Return se
    ∧ calculate_ema (map b_close (bars data)) (long_ema_period (params st)) = Return le
    ∧ sf = mkSignalFrame (has_quotes data)
             (zip_rows (bars data) se le (zip_with signal_of se le)
                (pd.diff (zip_with signal_of se le))).
Proof.
  unfold generate_signals.
  destruct (calculate_ema _ (short_ema_period _)) as [se|]; [|done]. simpl.
  destruct (calculate_ema _ (long_ema_period _)) as [le|]; [|done]. simpl.
  intros [= <-]. by exists se, le.
Qed.

(** X13.  On the frame [generate_signals] returns, an intent is emitted
    only at a bar where the crossover signal differs from the bar before:
    a buy where it rose, a sell where it fell.  The intent is priced at that
    bar's close and stamped with its time, and the bar's volume is not below
    [min_volume]. *)
Theorem get_trade_signal_on_crossover
    (st : MomentumStrategy.t) (data : DataFrame) (sf : SignalFrame)
    (i : nat) (sig : TradeSignal) :
  generate_signals st data = Return sf →
  get_trade_signal st sf i = Return (Some sig) →
  ∃ prev row,
    (0 < i)%nat
    ∧ sf_rows sf !! (i - 1)%nat = Some prev
    ∧ sf_rows sf !! i = Some row
    ∧ ts_price sig = b_close (bar row)
    ∧ ts_timestamp sig = Some (b_time (bar row))
    ∧ PrimFloat.ltb (b_volume (bar row)) (min_volume (params st)) = false
    ∧ (ts_type sig = "buy" ∧ PrimFloat.ltb (signal prev) (signal row) = true
       ∨ ts_type sig = "sell" ∧ PrimFloat.ltb (signal row) (signal prev) = true).
Proof.
  intros Hsf. apply generate_signals_rows in Hsf as (se & le & _ & _ & ->).
  unfold get_trade_signal.
  destruct i as [|j]; [done|]. cbn [Nat.ltb Nat.leb].
  unfold iloc. cbn [sf_rows].
  destruct (zip_rows _ _ _ _ _ !! S j) as [row|] eqn:Hrow; [|done].
  cbn [outcome_bind].
  destruct (lookup_lt_is_Some_2 (zip_rows (bars data) se le (zip_with signal_of se le)
                                   (pd.diff (zip_with signal_of se le))) j)
    as [prev Hprev].
  { apply lookup_lt_Some in Hrow. lia. }
  pose proof (zip_rows_lookup _ _ _ _ _ _ _ Hrow) as (_ & _ & _ & Hsg & Hch).
  pose proof (zip_rows_lookup _ _ _ _ _ _ _ Hprev) as (_ & _ & _ & Hsg' & _).
  rewrite (diff_lookup_S _ j _ _ Hsg Hsg') in Hch. injection Hch as Hch.
  assert (Hx : signal row = (-1)%float ∨ signal row = 1%float ∨ signal row = 0%float).
  { apply lookup_zip_with_Some in Hsg as (a & b & -> & _). apply signal_of_cases. }
  assert (Hy : signal prev = (-1)%float ∨ signal prev = 1%float
               ∨ signal prev = 0%float).
  { apply lookup_zip_with_Some in Hsg' as (a & b & -> & _). apply signal_of_cases. }
  destruct (signal_change_sign _ _ Hx Hy) as [Hup Hdown].
  rewrite Hch in Hup, Hdown.
  destruct (PrimFloat.eqb (signal_change row) 0); [done|].
  unfold validate_trade_conditions.
  destruct (PrimFloat.ltb (b_volume (bar row)) (min_volume (params st))) eqn:Hvol;
    [done|].
  destruct (sf_has_quotes _ && _); [done|]. cbn [fst negb].
  destruct (PrimFloat.ltb 0 (signal_change row)) eqn:Hpos.
  - intros [= <-]. exists prev, row. simpl. rewrite Nat.sub_0_r.
    repeat (split; [done || lia|]). left. auto.
  - destruct (PrimFloat.ltb (signal_change row) 0) eqn:Hneg; [|done].
    intros [= <-]. exists prev, row. simpl. rewrite Nat.sub_0_r.
    repeat (split; [done || lia|]). right. auto.
Qed.

(** X14.  With a position on, a bar that touches the stop is an exit for
    "Stop loss hit" whether or not it also touches the target or carries a
    reversal signal: for a buy when its low is at or below the stop, for any
    other position when its high is at or above it. *)
Theorem should_exit_position_stop_first
    (st : MomentumStrategy.t) (pos : Position) (sf : SignalFrame)
    (i : nat) (row : SignalRow) :
  current_position st = Some pos →
  sf_rows sf !! i = Some row →
  (if String.eqb (p_type pos) "buy"
   then PrimFloat.leb (b_low (bar row)) (p_stop_loss pos)
   else PrimFloat.leb (p_stop_loss pos) (b_high (bar row))) = true →
  should_exit_position st sf i = Return (true, "Stop loss hit").
Proof.
  intros Hp Hrow Hstop. unfold should_exit_position, iloc.
  rewrite Hp, Hrow. cbn [outcome_bind].
  destruct (String.eqb (p_type pos) "buy"); by rewrite Hstop.
Qed.

(** X15.  [generate_signals] fails only with the [ValueError] of an EMA
    period below 1.  The frame it returns has the bars of the input, in
    order; the signal of every row is the comparison of its two averages;
    and on the first row both averages are the close, or missing when the
    close is infinite, the signal is 0 and the signal change is missing. *)
Theorem generate_signals_frame (st : MomentumStrategy.t) (data : DataFrame) :
  match generate_signals st data with
  | Return sf =>
      sf_has_quotes sf = has_quotes data
      ∧ map bar (sf_rows sf) = bars data
      ∧ Forall (fun r => signal r = signal_of (short_ema r) (long_ema r))
          (sf_rows sf)
      ∧ ∀ r, sf_rows sf !! 0%nat = Some r →
             short_ema r = pd.inf_to_nan (b_close (bar r))
             ∧ long_ema r = pd.inf_to_nan (b_close (bar r))
             ∧ (PrimFloat.eqb (PrimFloat.abs (b_close (bar r))) finf = false →
                short_ema r = b_close (bar r) ∧ long_ema r = b_close (bar r))
             ∧ (PrimFloat.eqb (PrimFloat.abs (b_close (bar r))) finf = true →
                isna (short_ema r) = true ∧ isna (long_ema r) = true)
             ∧ signal r = 0%float
             ∧ isna (signal_change r) = true
  | Raise x =>
      x = ValueError
      ∧ (PrimFloat.ltb (short_ema_period (params st)) 1%float = true
         ∨ PrimFloat.ltb (long_ema_period (params st)) 1%float = true)
  end.
Proof.
  destruct (generate_signals st data) as [sf|x] eqn:Hg.
  - split; [|split; [|split]].
    + apply generate_signals_rows in Hg as (se & le & _ & _ & ->). done.
    + by apply (generate_signals_bars st).
    + apply generate_signals_rows in Hg as (se & le & _ & _ & ->).
      apply Forall_lookup_2. intros i r Hr. cbn [sf_rows] in Hr.
      apply zip_rows_lookup in Hr as (_ & Hs & Hl & Hsg & _).
      apply lookup_zip_with_Some in Hsg as (a & b & -> & Ha & Hb).
      congruence.
    + intros r Hr.
      apply generate_signals_rows in Hg as (se & le & Hse & Hle & ->).
      cbn [sf_rows] in Hr.
      apply zip_rows_lookup in Hr as (Hb & Hs & Hl & Hsg & Hch).
      unfold calculate_ema, pd.ewm_mean, pd.prep_values in Hse, Hle.
      destruct (PrimFloat.ltb (short_ema_period _) 1); [done|].
      destruct (PrimFloat.ltb (long_ema_period _) 1); [done|].
      destruct (bars data) as [|b0 bs]; [done|].
      cbn [map] in Hse, Hle. injection Hse as <-. injection Hle as <-.
      simpl in Hb, Hs, Hl, Hsg, Hch.
      injection Hb as Hb. injection Hs as Hs. injection Hl as Hl.
      injection Hsg as Hsg. injection Hch as Hch.
      rewrite <- Hb, <- Hs, <- Hl, <- Hch, <- Hsg. cbn [b_close].
      rewrite signal_of_same. split; [done|]. split; [done|].
      unfold pd.inf_to_nan.
      split; [by intros ->|]. split; [by intros ->|]. split; [done|].
      vm_compute. reflexivity.
  - unfold generate_signals, calculate_ema, pd.ewm_mean in Hg.
    destruct (PrimFloat.ltb (short_ema_period _) 1).
    { injection Hg as <-. auto. }
    destruct (PrimFloat.ltb (long_ema_period _) 1).
    { destruct (map b_close (bars data)); injection Hg as <-; auto. }
    destruct (map b_close (bars data)); done.
Qed.

End StrategyIntents.

(** ** Floats: the order *)

Section FloatOrder.

Lemma SFltb_trans (a b c : spec_float) :
  SFltb a b = true → SFltb b c = true → SFltb a c = true.
Proof.
  unfold SFltb.
  destruct a as [sa|sa| |sa ma ea], b as [sb|sb| |sb mb eb],
    c as [sc|sc| |sc mc ec]; simpl;
    try (destruct sa); try (destruct sb); try (destruct sc);
    try done.
  - (* negative finite numbers *)
    destruct (Z.compare_spec ea eb), (Z.compare_spec eb ec),
      (Z.compare_spec ea ec); try lia; try done; subst.
    fold (Pos.compare ma mb). fold (Pos.compare mb mc). fold (Pos.compare ma mc).
    destruct (Pos.compare_spec ma mb), (Pos.compare_spec mb mc),
      (Pos.compare_spec ma mc); simpl; try lia; done.
  - destruct (Z.compare_spec ea eb), (Z.compare_spec eb ec),
      (Z.compare_spec ea ec); try lia; try done; subst.
    fold (Pos.compare ma mb). fold (Pos.compare mb mc). fold (Pos.compare ma mc).
    destruct (Pos.compare_spec ma mb), (Pos.compare_spec mb mc),
      (Pos.compare_spec ma mc); simpl; try lia; done.
Qed.

Lemma ltb_trans (x y z : float) :
  PrimFloat.ltb x y = true → PrimFloat.ltb y z = true → PrimFloat.ltb x z = true.
Proof. rewrite !FloatAxioms.ltb_spec. apply SFltb_trans. Qed.

Lemma isna_spec (x : float) : isna x = true → Prim2SF x = S754_nan.
Proof.
  unfold isna, PrimFloat.is_nan. rewrite FloatAxioms.eqb_spec. unfold SFeqb.
  destruct (Prim2SF x) as [s|s| |s m e]; simpl; try done.
  - by destruct s.
  - rewrite Z.compare_refl, Pos.compare_cont_refl. by destruct s.
Qed.

Lemma ltb_nan_r (x y : float) : isna y = true → PrimFloat.ltb x y = false.
Proof.
  intros H%isna_spec. rewrite FloatAxioms.ltb_spec, H. unfold SFltb.
  by destruct (Prim2SF x).
Qed.

Lemma ltb_nan_l (x y : float) : isna x = true → PrimFloat.ltb x y = false.
Proof.
  intros H%isna_spec. rewrite FloatAxioms.ltb_spec, H. done.
Qed.

Lemma notna_or_isna (x : float) : notna x = true ∨ isna x = true.
Proof. unfold notna. destruct (isna x); auto. Qed.

End FloatOrder.

(** ** data_processor.py: cleaning and normalizing *)

Section CleaningExtras.
Import HistoricalDataProcessor.

Lemma filter_sublist {A} (p : A → bool) (l : list A) : sublist (List.filter p l) l.
Proof.
  induction l as [|x l IH]; simpl; [constructor|].
  destruct (p x); by constructor.
Qed.

Lemma filter_map_sublist {A B} (f : A → B) (p : A → bool) (l : list A) :
  sublist (map f (List.filter p l)) (map f l).
Proof.
  induction l as [|x l IH]; simpl; [constructor|].
  destruct (p x); simpl; by constructor.
Qed.

Lemma ffill_from_length limit last run xs :
  length (pd.ffill_from limit last run xs) = length xs.
Proof.
  revert last run; induction xs as [|x xs IH]; intros last run; simpl; [done|].
  destruct (isna x); [destruct (isna last)|]; try (simpl; by rewrite IH).
  destruct limit as [l|]; [destruct (run <? l)%nat|]; simpl; by rewrite IH.
Qed.

Lemma clip_outliers_length k xs : length (clip_outliers k xs) = length xs.
Proof. unfold clip_outliers, pd.clip. apply length_map. Qed.

(** A column transformation that keeps the length keeps the rows and their
    timestamps. *)
Lemma on_column_times get set f rows :
  (∀ xs, length (f xs) = length xs) →
  (∀ x b, b_time (set x b) = b_time b) →
  map b_time (on_column get set f rows) = map b_time rows.
Proof.
  intros Hf Hset. unfold on_column.
  assert (H : ∀ (rs : list Bar) (xs : list float), length xs = length rs →
            map b_time (zip_with (fun b x => set x b) rs xs) = map b_time rs).
  { induction rs as [|r rs IH]; intros [|x xs] Hl; simpl in *; try done.
    rewrite Hset. f_equal. apply IH. lia. }
  apply H. by rewrite Hf, length_map.
Qed.

(** X16.  Cleaning never adds, reorders or re-stamps rows: the
    timestamps of the cleaned frame are a sub-sequence of those of the
    input, and the frame keeps its columns. *)
Theorem clean_data_rows (cfg : DataProcessingConfig) (df : DataFrame) :
  has_quotes (_clean_data cfg df) = has_quotes df
  ∧ sublist (map b_time (bars (_clean_data cfg df))) (map b_time (bars df)).
Proof.
  split; [done|]. unfold _clean_data. cbn [bars].
  set (dropped := List.filter _ (bars df)).
  assert (H0 : sublist (map b_time dropped) (map b_time (bars df))).
  { apply filter_map_sublist. }
  set (clipped := if remove_outliers cfg then _ else dropped).
  assert (H1 : map b_time clipped = map b_time dropped).
  { subst clipped. destruct (remove_outliers cfg); [|done].
    rewrite !on_column_times; auto using clip_outliers_length. }
  set (filled := if fill_gaps cfg then _ else clipped).
  assert (H2 : map b_time filled = map b_time clipped).
  { subst filled. destruct (fill_gaps cfg); [|done].
    destruct (has_quotes df);
      rewrite !on_column_times; auto using ffill_from_length;
      intros; apply ffill_from_length. }
  destruct (PrimFloat.ltb 0 (min_volume_threshold cfg)).
  - etrans; [apply filter_map_sublist|]. by rewrite H2, H1.
  - by rewrite H2, H1.
Qed.

(** X17.  With a positive [min_volume_threshold], no row of the cleaned
    frame has a volume below it or a missing volume. *)
Theorem clean_data_volume_floor (cfg : DataProcessingConfig) (df : DataFrame) :
  PrimFloat.ltb 0%float (min_volume_threshold cfg) = true →
  Forall (fun b => PrimFloat.leb (min_volume_threshold cfg) (b_volume b) = true
                   ∧ notna (b_volume b) = true)
    (bars (_clean_data cfg df)).
Proof.
  intros Hthr. unfold _clean_data. cbn [bars]. rewrite Hthr.
  eapply Forall_impl; [apply filter_Forall|].
  intros b Hb. cbv beta in Hb. split; [done|].
  destruct (notna_or_isna (b_volume b)) as [|Hna]; [done|].
  rewrite FloatAxioms.leb_spec, (isna_spec _ Hna) in Hb.
  unfold SFleb in Hb. by destruct (Prim2SF (min_volume_threshold cfg)).
Qed.

Lemma fold_max_bound (r : list float) : ∀ (m0 : float),
  (∀ x, PrimFloat.ltb m0 x = false →
        PrimFloat.ltb (fold_left (fun m y => if PrimFloat.ltb m y then y else m) r m0) x
        = false)
  ∧ Forall (fun y =>
      PrimFloat.ltb (fold_left (fun m y => if PrimFloat.ltb m y then y else m) r m0) y
      = false) r.
Proof.
  induction r as [|y r IH]; intros m0; simpl.
  - split; [done|constructor].
  - set (m1 := if PrimFloat.ltb m0 y then y else m0).
    destruct (IH m1) as [IH1 IH2].
    assert (Hstep : ∀ x, PrimFloat.ltb m0 x = false → PrimFloat.ltb m1 x = false).
    { intros x Hx. subst m1. destruct (PrimFloat.ltb m0 y) eqn:Hy; [|done].
      destruct (PrimFloat.ltb y x) eqn:Hyx; [|done].
      by rewrite (ltb_trans _ _ _ Hy Hyx) in Hx. }
    split.
    + intros x Hx. auto.
    + constructor; [|done]. apply IH1. subst m1.
      destruct (PrimFloat.ltb m0 y) eqn:Hy; [apply ltb_irrefl|done].
Qed.

Lemma fold_min_bound (r : list float) : ∀ (m0 : float),
  (∀ x, PrimFloat.ltb x m0 = false →
        PrimFloat.ltb x (fold_left (fun m y => if PrimFloat.ltb y m then y else m) r m0)
        = false)
  ∧ Forall (fun y =>
      PrimFloat.ltb y (fold_left (fun m y => if PrimFloat.ltb y m then y else m) r m0)
      = false) r.
Proof.
  induction r as [|y r IH]; intros m0; simpl.
  - split; [done|constructor].
  - set (m1 := if PrimFloat.ltb y m0 then y else m0).
    destruct (IH m1) as [IH1 IH2].
    assert (Hstep : ∀ x, PrimFloat.ltb x m0 = false → PrimFloat.ltb x m1 = false).
    { intros x Hx. subst m1. destruct (PrimFloat.ltb y m0) eqn:Hy; [|done].
      destruct (PrimFloat.ltb x y) eqn:Hxy; [|done].
      by rewrite (ltb_trans _ _ _ Hxy Hy) in Hx. }
    split.
    + intros x Hx. auto.
    + constructor; [|done]. apply IH1. subst m1.
      destruct (PrimFloat.ltb y m0) eqn:Hy; [apply ltb_irrefl|done].
Qed.

Lemma Forall_dropna (P : float → Prop) (xs : list float) :
  (∀ x, isna x = true → P x) → Forall P (pd.dropna xs) → Forall P xs.
Proof.
  intros Hna. unfold pd.dropna.
  induction xs as [|x xs IH]; simpl; [done|].
  unfold notna at 1. destruct (isna x) eqn:Hx; simpl.
  - intros H. constructor; auto.
  - intros [? ?]%Forall_cons. constructor; auto.
Qed.

(** No entry of the row is above the row maximum, or below the row
    minimum. *)
Lemma row_max_bound (xs : list float) :
  Forall (fun x => PrimFloat.ltb (row_max xs) x = false) xs.
Proof.
  apply Forall_dropna; [intros x Hx; by apply ltb_nan_r|].
  unfold row_max. destruct (pd.dropna xs) as [|x r]; [constructor|].
  destruct (fold_max_bound r x) as [H1 H2].
  constructor; [|done]. apply H1, ltb_irrefl.
Qed.

Lemma min_bound (xs : list float) :
  Forall (fun x => PrimFloat.ltb x (pd.min xs) = false) xs.
Proof.
  apply Forall_dropna; [intros x Hx; by apply ltb_nan_l|].
  unfold pd.min. destruct (pd.dropna xs) as [|x r]; [constructor|].
  destruct (fold_min_bound r x) as [H1 H2].
  constructor; [|done]. apply H1, ltb_irrefl.
Qed.

(** X18.  Normalizing keeps the rows, their timestamps, opens, closes and
    quotes, and orders the prices of every row: afterwards the high is not
    below the open or the close, and the low is not above them. *)
Theorem normalize_data_orders_prices (cfg : DataProcessingConfig) (df : DataFrame) :
  let out := _normalize_data cfg df in
  has_quotes out = has_quotes df
  ∧ map (fun b => (b_time b, b_open b, b_close b, b_bid b, b_ask b)) (bars out)
    = map (fun b => (b_time b, b_open b, b_close b, b_bid b, b_ask b)) (bars df)
  ∧ Forall (fun b =>
              PrimFloat.ltb (b_high b) (b_open b) = false
              ∧ PrimFloat.ltb (b_high b) (b_close b) = false
              ∧ PrimFloat.ltb (b_open b) (b_low b) = false
              ∧ PrimFloat.ltb (b_close b) (b_low b) = false)
      (bars out).
Proof.
  cbv zeta. split; [done|]. unfold _normalize_data. cbn [bars].
  set (scaled := if normalize_volume cfg then _ else bars df).
  assert (Hs : map (fun b => (b_time b, b_open b, b_close b, b_bid b, b_ask b)) scaled
               = map (fun b => (b_time b, b_open b, b_close b, b_bid b, b_ask b))
                   (bars df)).
  { subst scaled. destruct (normalize_volume cfg); [|done].
    destruct (PrimFloat.ltb 0 _); [|done].
    rewrite map_map. done. }
  split.
  - rewrite !map_map. cbn [set_low set_high b_time b_open b_close b_bid b_ask].
    done.
  - rewrite map_map. apply Forall_map, Forall_forall. intros b _.
    cbn [set_low set_high b_high b_low b_open b_close].
    pose proof (row_max_bound [b_open b; b_high b; b_close b]) as Hmax.
    pose proof (min_bound [b_open b; b_low b; b_close b]) as Hmin.
    repeat (apply Forall_cons in Hmax as [? Hmax]).
    repeat (apply Forall_cons in Hmin as [? Hmin]).
    done.
Qed.

End CleaningExtras.

(** ** data_processor.py: the pipeline, its cache and the validation report *)

Section PipelineExtras.
Import HistoricalDataProcessor.
Variable log1p : float → float.

Lemma save_to_cache_run (cfg : DataProcessingConfig) p key (st : Store) c :
  _save_to_cache cfg p key st c
  = if cache_processed_data cfg then
      if writable st (cache_dir cfg, key)
      then (Return tt,
            mkStore (<[(cache_dir cfg, key) := Parquet p]> (files st)) (writable st),
            c)
      else (Raise OSError, st, c)
    else (Return tt, st, c).
Proof.
  unfold _save_to_cache. destruct (cache_processed_data cfg); [|done].
  rewrite bind_run. unfold get at 1. cbv beta iota.
  by destruct (writable st (cache_dir cfg, key)).
Qed.

Lemma load_from_cache_run (cfg : DataProcessingConfig) key (st : Store) c :
  _load_from_cache cfg key st c
  = (Return (if cache_processed_data cfg then
               match files st !! (cache_dir cfg, key) with
               | Some (Parquet data) => Some data
               | _ => None
               end
             else None), st, c).
Proof.
  unfold _load_from_cache. destruct (cache_processed_data cfg); [|done].
  simpl. rewrite bind_run. unfold get at 1.
  by destruct (files st !! _) as [[data|]|].
Qed.

(** X19.  With the cache on, once a call with both dates has returned,
    every later call for the same symbol and the same two calendar days
    returns that first frame, with a clean validation report, whatever raw
    frame it is given and whatever the time of day of its dates. *)
Theorem process_data_second_call_is_cached
    (cfg : DataProcessingConfig) (df df' : DataFrame) (symbol : string)
    (s e s' e' : Z) (st st' : Store) (c c' c'' : Clock)
    (p : Processed) (v : DataValidationResult) :
  cache_processed_data cfg = true →
  s' `div` DAY = s `div` DAY → e' `div` DAY = e `div` DAY →
  process_data log1p cfg df symbol (Some s) (Some e) st c = (Return (p, v), st', c') →
  process_data log1p cfg df' symbol (Some s') (Some e') st' c''
  = (Return (p, mkValidation true [] [] [] 0), st', c'').
Proof.
  intros Hon Hs He Hfirst.
  assert (Hkey : _cache_key symbol s' e' = _cache_key symbol s e).
  { unfold _cache_key. by rewrite Hs, He. }
  assert (Hhit : files st' !! (cache_dir cfg, _cache_key symbol s e)
                 = Some (Parquet p)).
  { revert Hfirst. unfold process_data at 1. rewrite bind_run.
    rewrite load_from_cache_run, Hon.
    destruct (files st !! _) as [[data|]|] eqn:Hl.
    - intros [= <- _ <- _]. done.
    - rewrite bind_run, save_to_cache_run, Hon.
      destruct (writable st _); [|done].
      intros [= <- _ <- _]. cbn [files]. apply lookup_insert_eq.
    - rewrite bind_run, save_to_cache_run, Hon.
      destruct (writable st _); [|done].
      intros [= <- _ <- _]. cbn [files]. apply lookup_insert_eq. }
  unfold process_data. rewrite bind_run, load_from_cache_run, Hon, Hkey, Hhit.
  done.
Qed.



Lemma duplicated_from_none (index : list Z) : ∀ seen,
  List.filter id (duplicated_from seen index) = [] →
  NoDup index ∧ Forall (fun x => x ∉ seen) index.
Proof.
  induction index as [|x r IH]; intros seen; simpl.
  - intros _. split; constructor.
  - destruct (existsb (Z.eqb x) seen) eqn:Hx; simpl; [done|].
    intros [Hnd Hall]%IH.
    assert (Hxs : x ∉ seen).
    { intros Hin. apply not_true_iff_false in Hx. apply Hx.
      apply existsb_exists. exists x. split; [by apply list_elem_of_In|].
      apply Z.eqb_refl. }
    split.
    + constructor; [|done]. intros Hin.
      rewrite Forall_forall in Hall. apply (Hall x Hin). by left.
    + constructor; [done|].
      eapply Forall_impl; [exact Hall|]. intros y Hy Hin. apply Hy. by right.
Qed.

Lemma gaps_from_none (expected : Z) (index : list Z) : ∀ prev,
  gaps_from expected prev index = [] →
  ∀ i a b, (prev :: index) !! i = Some a → index !! i = Some b →
           b - a <= expected.
Proof.
  induction index as [|x r IH]; intros prev; simpl; [done|].
  destruct (Z.ltb_spec expected (x - prev)); simpl; [done|].
  intros Hg [|i] a b; simpl.
  - intros [= <-] [= <-]. done.
  - intros Ha Hb. by apply (IH x Hg i).
Qed.

Lemma filter_nil_Forall {A} (p : A → bool) (l : list A) :
  List.filter p l = [] → Forall (fun x => p x = false) l.
Proof.
  induction l as [|x l IH]; simpl; [constructor|].
  destruct (p x) eqn:Hx; [done|]. intros H. constructor; auto.
Qed.

(** X22.  What a valid report guarantees about the raw frame: the
    timestamps are pairwise distinct, consecutive rows are at most
    [resample_interval] apart, no close is zero or negative, and no close
    lies further than the outlier threshold from the mean; the report then
    lists no gap and no anomaly.  (It says nothing about missing values.) *)
Theorem validate_raw_data_valid (cfg : DataProcessingConfig) (df : DataFrame) :
  is_valid (_validate_raw_data cfg df) = true →
  issues (_validate_raw_data cfg df) = []
  ∧ gap_locations (_validate_raw_data cfg df) = []
  ∧ anomaly_locations (_validate_raw_data cfg df) = []
  ∧ NoDup (map b_time (bars df))
  ∧ (∀ i a b, map b_time (bars df) !! i = Some a →
              map b_time (bars df) !! S i = Some b →
              b - a <= resample_interval cfg)
  ∧ Forall (fun b =>
              PrimFloat.leb (b_close b) 0%float = false
              ∧ PrimFloat.ltb
                  (outlier_std_threshold cfg * pd.std (map b_close (bars df)))
                  (PrimFloat.abs (b_close b - pd.mean (map b_close (bars df))))
                = false)
      (bars df).
Proof.
  unfold _validate_raw_data. cbn [is_valid issues gap_locations anomaly_locations].
  set (dups := List.filter id _).
  set (gaps := match map b_time (bars df) with
               | x :: (_ :: _) as r => gaps_from (resample_interval cfg) x r
               | _ => []
               end).
  set (outliers := List.filter _ (bars df)).
  intros Hv%Nat.eqb_eq%length_zero_iff_nil.
  apply app_eq_nil in Hv as [H1 Hv]. apply app_eq_nil in Hv as [H2 Hv].
  apply app_eq_nil in Hv as [H3 H4].
  assert (Hd : dups = []).
  { destruct (Nat.ltb_spec 0 (length dups)) as [Hlt|Hge]; [done|].
    apply length_zero_iff_nil. lia. }
  assert (Hg : gaps = []).
  { destruct (Nat.ltb_spec 0 (length gaps)) as [Hlt|Hge]; [done|].
    apply length_zero_iff_nil. lia. }
  assert (Ho : outliers = []).
  { destruct (Nat.ltb_spec 0 (length outliers)) as [Hlt|Hge]; [done|].
    apply length_zero_iff_nil. lia. }
  rewrite Hg, Ho, Hd. simpl.
  split; [done|]. split; [done|]. split; [done|].
  split; [by apply (duplicated_from_none _ [])|].
  split.
  - intros i a b Ha Hb. subst gaps.
    destruct (map b_time (bars df)) as [|x [|y r]]; [done|by destruct i|].
    by apply (gaps_from_none _ _ _ Hg i).
  - apply filter_nil_Forall in Ho.
    rewrite Forall_forall in Ho. apply Forall_forall. intros b Hb.
    split; [|by apply Ho].
    destruct (existsb _ _) eqn:Hex; [done|].
    destruct (PrimFloat.leb (b_close b) 0) eqn:Hle; [|done].
    apply not_true_iff_false in Hex. exfalso. apply Hex.
    apply existsb_exists. exists (b_close b). split; [|done].
    apply in_map. by apply list_elem_of_In.
Qed.

End PipelineExtras.

(** ** data_processor.py: the feature matrix *)

Section FeatureExtras.
Import HistoricalDataProcessor Features.

Lemma fillna0_notna (xs : list float) :
  Forall (fun x => notna x = true) (fillna0 xs).
Proof.
  unfold fillna0. apply Forall_map, Forall_forall. intros x _.
  unfold notna. destruct (isna x) eqn:Hx; [reflexivity|by rewrite Hx].
Qed.

Lemma column_length (df : Processed) (name : string) (col : list float) :
  column df name = Some col → length col = rows_of df.
Proof.
  destruct df as [frame|quotes rows]; simpl.
  - destruct (bar_column _ name); simpl; [|done].
    intros [= <-]. apply length_map.
  - destruct (bar_column quotes name).
    + intros [= <-]. apply length_map.
    + destruct (derived_column name); simpl; [|done].
      intros [= <-]. apply length_map.
Qed.

(** X23.  The feature matrix has no missing value.  Its columns are
    requested ones that the frame has, in the order of the request (names the
    frame lacks are dropped without an error), and each has one entry per
    row of the frame. *)
Theorem prepare_features_complete (df : Processed) (requested : option (list string)) :
  let out := prepare_features df requested in
  sublist (map fst out) (default default_features requested)
  ∧ Forall (fun '(name, col) =>
              is_Some (column df name)
              ∧ length col = rows_of df
              ∧ Forall (fun x => notna x = true) col) out.
Proof.
  cbv zeta. unfold prepare_features.
  generalize (default default_features requested). intros names.
  induction names as [|name names [IH1 IH2]]; simpl.
  - split; constructor.
  - destruct (column df name) as [col|] eqn:Hcol; simpl.
    + split; [by constructor|]. constructor; [|done].
      split; [by rewrite Hcol|]. split; [|apply fillna0_notna].
      unfold fillna0. rewrite length_map. unfold pd.ffill.
      rewrite ffill_from_length. by apply column_length in Hcol.
    + split; [by constructor|done].
Qed.

End FeatureExtras.

(** ** The further properties at concrete inputs *)

Section FurtherExamples.
Import Scenarios Examples.

Lemma updates_count_as_daily_trades_witness :
  (foldM (fun (_ : unit) (iu : string * RiskManager.PositionUpdate) =>
            RiskManager.update_position iu.1 iu.2)
     day_updates tt (risk_manager_with 0) clock_1h).1.1 = Return tt
  ∧ (RiskManager.validate_trade PyFloat "buy" 100 100 99 102
       (foldM (fun (_ : unit) (iu : string * RiskManager.PositionUpdate) =>
                 RiskManager.update_position iu.1 iu.2)
          day_updates tt (risk_manager_with 0) clock_1h).1.2
       (foldM (fun (_ : unit) (iu : string * RiskManager.PositionUpdate) =>
                 RiskManager.update_position iu.1 iu.2)
          day_updates tt (risk_manager_with 0) clock_1h).2).1.1
    = Return (false, "Maximum daily trades exceeded").
Proof.
  apply (updates_count_as_daily_trades PyFloat "buy" 100 100 99 102
           day_updates (risk_manager_with 0) clock_1h).
  - vm_compute. discriminate.
  - vm_compute. discriminate.
Defined.

Lemma update_position_open_then_close_witness :
  ∃ rm1 rm2,
    RiskManager.update_position "t" opening_update (risk_manager_with 0) clock_1h
    = (Return tt, rm1, tick clock_1h)
    ∧ RiskManager.open_positions rm1 !! "t" = Some opening_update
    ∧ RiskManager.update_position "t" closed_update rm1 (tick clock_1h)
      = (Return tt, rm2, tick (tick clock_1h))
    ∧ RiskManager.open_positions rm2
      = delete "t" (RiskManager.open_positions (risk_manager_with 0))
    ∧ RiskManager.daily_pnl rm2
      = (RiskManager.daily_pnl (risk_manager_with 0)
         + default 0 (RiskManager.pu_realized_pnl closed_update))%float
    ∧ map RiskManager.he_update (RiskManager.trade_history rm2)
      = map RiskManager.he_update
          (RiskManager.trade_history (risk_manager_with 0))
        ++ [opening_update; closed_update].
Proof.
  apply (update_position_open_then_close "t" opening_update closed_update
           (risk_manager_with 0) clock_1h).
  - simpl. discriminate.
  - reflexivity.
Defined.

Lemma close_trade_books_unrealized_pnl_witness :
  Trade.realized_pnl (Trade.close_trade 105 None open_buy clock_1h).1.2
  = Some (TradeMethods.calculate_unrealized_pnl open_buy 105)
  ∧ TradeMethods.is_active (Trade.close_trade 105 None open_buy clock_1h).1.2 = false
  ∧ ∀ price,
      TradeMethods.calculate_unrealized_pnl
        (Trade.close_trade 105 None open_buy clock_1h).1.2 price
      = TradeMethods.calculate_unrealized_pnl open_buy 105.
Proof.
  apply (close_trade_books_unrealized_pnl open_buy 105 None clock_1h).
  reflexivity.
Defined.

Lemma get_trade_signal_on_crossover_witness :
  ∃ prev row,
    (0 < 30)%nat
    ∧ MomentumStrategy.sf_rows crossover_frame !! (30 - 1)%nat = Some prev
    ∧ MomentumStrategy.sf_rows crossover_frame !! 30%nat = Some row
    ∧ MomentumStrategy.ts_price crossover_intent
      = b_close (MomentumStrategy.bar row)
    ∧ MomentumStrategy.ts_timestamp crossover_intent
      = Some (b_time (MomentumStrategy.bar row))
    ∧ PrimFloat.ltb (b_volume (MomentumStrategy.bar row))
        (MomentumStrategy.min_volume
           (MomentumStrategy.params (MomentumStrategy.init None))) = false
    ∧ (MomentumStrategy.ts_type crossover_intent = "buy"
       ∧ PrimFloat.ltb (MomentumStrategy.signal prev) (MomentumStrategy.signal row)
         = true
       ∨ MomentumStrategy.ts_type crossover_intent = "sell"
         ∧ PrimFloat.ltb (MomentumStrategy.signal row) (MomentumStrategy.signal prev)
           = true).
Proof.
  apply (get_trade_signal_on_crossover (MomentumStrategy.init None)
           (jump_series 30 32) crossover_frame 30 crossover_intent).
  - vm_compute. reflexivity.
  - vm_compute. reflexivity.
Defined.

Lemma should_exit_position_stop_first_witness :
  MomentumStrategy.should_exit_position
    (MomentumStrategy.update_position (Some long_position)
       (MomentumStrategy.init None)) wide_frame 0
  = Return (true, "Stop loss hit").
Proof.
  apply (should_exit_position_stop_first
           (MomentumStrategy.update_position (Some long_position)
              (MomentumStrategy.init None))
           long_position wide_frame 0 wide_row).
  - reflexivity.
  - reflexivity.
  - vm_compute. reflexivity.
Defined.

Lemma clean_data_volume_floor_witness :
  Forall (fun b =>
            PrimFloat.leb
              (HistoricalDataProcessor.min_volume_threshold
                 HistoricalDataProcessor.default_config) (b_volume b) = true
            ∧ notna (b_volume b) = true)
    (bars (HistoricalDataProcessor._clean_data
             HistoricalDataProcessor.default_config spike_series)).
Proof.
  apply (clean_data_volume_floor HistoricalDataProcessor.default_config
           spike_series).
  vm_compute. reflexivity.
Defined.

Lemma process_data_second_call_is_cached_witness :
  ∃ p st',
    HistoricalDataProcessor.process_data log1p_pattern plain_config spike_series
      "BTC-USD" (Some (2 * HOUR)) (Some (DAY + 5 * HOUR)) st' clock_1h
    = (Return (p, HistoricalDataProcessor.mkValidation true [] [] [] 0),
       st', clock_1h).
Proof.
  eexists _, _.
  eapply (process_data_second_call_is_cached log1p_pattern plain_config
            (flat_series 3) spike_series "BTC-USD" 0 DAY (2 * HOUR)
            (DAY + 5 * HOUR) empty_store _ clock_0 clock_0 clock_1h).
  - reflexivity.
  - vm_compute. reflexivity.
  - vm_compute. reflexivity.
  - vm_compute. reflexivity.
Defined.


Lemma validate_raw_data_valid_witness :
  HistoricalDataProcessor.issues
    (HistoricalDataProcessor._validate_raw_data
       HistoricalDataProcessor.default_config (flat_series 3)) = []
  ∧ NoDup (map b_time (bars (flat_series 3))).
Proof.
  destruct (validate_raw_data_valid HistoricalDataProcessor.default_config
              (flat_series 3)) as (H1 & _ & _ & H2 & _).
  - vm_compute. reflexivity.
  - split; [exact H1|exact H2].
Defined.

(** A frame whose closes are all missing still validates. *)
Lemma validate_raw_data_missing_values_example :
  HistoricalDataProcessor._validate_raw_data
    HistoricalDataProcessor.default_config
    (mkFrame false (map (fun i => mkBar (Z.of_nat i * MINUTE) fnan fnan fnan fnan
                                    fnan 0 0) (seq 0 3)))
  = HistoricalDataProcessor.mkValidation true [] [] [] 15.
Proof. vm_compute. reflexivity. Qed.

End FurtherExamples.
